(** * Scorched Earth: the authoritative game server, embedded in Rocq

    A shallow embedding of [apps/server/src/game.ts], [random.ts] and
    [room-manager.ts] together with the constants of
    [packages/shared/src/types.ts].

    Numbers.  A JavaScript [number] that carries a coordinate, a speed, a
    height or a health value is modelled as a real number ([R]); rounding
    error of the IEEE-754 doubles is outside the model.  Numbers that the
    code uses as array lengths, array indices, loop counters, 32-bit words
    or millisecond timestamps are integers ([Z], [nat]). *)

From Stdlib Require Import Reals Lra Lia ZArith Ascii String.
From stdpp Require Import base option list gmap strings pretty.

Open Scope R_scope.

(** ** The [Math] functions the server uses *)

Module JsMath.

(** [Math.round]: the nearest integer, ties towards +infinity. *)
Definition round (x : R) : Z := Zfloor (x + / 2).

Definition floor (x : R) : Z := Zfloor x.

Definition ceil (x : R) : Z := Zceil x.

(** [Math.hypot(a, b)]. *)
Definition hypot (a b : R) : R := sqrt (a * a + b * b).

#[global] Instance Rle_decision (a b : R) : Decision (a <= b) := Rle_dec a b.

#[global] Instance Rlt_decision (a b : R) : Decision (a < b) := Rlt_dec a b.

(** [a <= b] and [a < b] as the booleans an [if] branches on. *)
Definition leb (a b : R) : bool := bool_decide (a <= b).

Definition ltb (a b : R) : bool := bool_decide (a < b).

End JsMath.

Notation "a <=? b" := (JsMath.leb a b) : R_scope.
Notation "a <? b" := (JsMath.ltb a b) : R_scope.
Notation "a >=? b" := (JsMath.leb b a) (at level 70, only parsing) : R_scope.
Notation "a >? b" := (JsMath.ltb b a) (at level 70, only parsing) : R_scope.

(** ** JavaScript arrays of numbers

    An array is a list of entries; a hole ([None]) reads as [undefined].
    Reading outside the array gives [undefined]; writing past the end
    extends the array with holes up to the written index. *)

Module JsArray.

Abbreviation t := (list (option R)).

(** [a[i]] *)
Definition get (a : t) (i : Z) : option R :=
  if (i <? 0)%Z then None else mjoin (a !! Z.to_nat i).

(** [a[i] = v] *)
Definition set (a : t) (i : Z) (v : R) : t :=
  if (i <? 0)%Z then a
  else <[Z.to_nat i := Some v]> (resize (length a `max` S (Z.to_nat i)) None a).

(** [new Array(n)] *)
Definition make (n : nat) : t := replicate n None.

End JsArray.

(** ** packages/shared/src/types.ts *)

Inductive PlayerSlot := A | B.

Inductive GamePhase :=
| lobby | aiming | projectile_flight | round_end | match_end | paused_reconnect.

#[global] Instance PlayerSlot_eq_dec : EqDecision PlayerSlot.
Proof. solve_decision. Defined.

#[global] Instance GamePhase_eq_dec : EqDecision GamePhase.
Proof. solve_decision. Defined.

Record Vector2 := mkVector2 { vec_x : R; vec_y : R }.

Record TankState := mkTank {
  slot : PlayerSlot;
  x : R;
  y : R;
  angleDeg : R;
  power : R;
  hp : R;
  connected : bool
}.

Record ProjectileState := mkProjectile {
  pos : Vector2;
  vel : Vector2;
  active : bool;
  owner : PlayerSlot
}.

(** The world is [width] columns wide and [height] pixels high; both are
    integers, and [heights] is the JavaScript array of column heights. *)
Record TerrainState := mkTerrain {
  width : Z;
  height : Z;
  heights : JsArray.t
}.

Record WindState := mkWind { force : R }.

(** [Record<PlayerSlot, TankState>] *)
Record Tanks := mkTanks { tankA : TankState; tankB : TankState }.

Record GameState := mkGame {
  roomCode : string;
  phase : GamePhase;
  activeSlot : PlayerSlot;
  turnEndsAt : option Z;
  terrain : TerrainState;
  wind : WindState;
  tanks : Tanks;
  projectile : option ProjectileState;
  winnerSlot : option PlayerSlot
}.

Definition WORLD_WIDTH : Z := 1000.
Definition WORLD_HEIGHT : Z := 600.
Definition TICK_RATE : Z := 60.
Definition TURN_DURATION_MS : Z := 30000.
Definition RECONNECT_GRACE_MS : Z := 30000.

Module PHYSICS.

Definition gravity : R := 130.
Definition windAccelerationScale : R := 1.
Definition projectileSpeedScale : R := 28 / 10.
Definition tankRadius : R := 12.
Definition projectileRadius : R := 4.
Definition craterRadius : R := 36.
Definition blastRadius : R := 84.
Definition maxDamage : R := 55.

End PHYSICS.

Definition MIN_ANGLE : R := 5.
Definition MAX_ANGLE : R := 175.
Definition MIN_POWER : R := 20.
Definition MAX_POWER : R := 120.
Definition STARTING_HP : R := 100.

(** [tanks[slot]] and the assignment to it. *)
Definition tank_of (ts : Tanks) (s : PlayerSlot) : TankState :=
  match s with A => tankA ts | B => tankB ts end.

Definition set_tank (ts : Tanks) (s : PlayerSlot) (t : TankState) : Tanks :=
  match s with
  | A => mkTanks t (tankB ts)
  | B => mkTanks (tankA ts) t
  end.

(** Field updates, written [state.field = value] in the source. *)
Definition set_hp (t : TankState) (v : R) : TankState :=
  mkTank (slot t) (x t) (y t) (angleDeg t) (power t) v (connected t).

Definition set_y (t : TankState) (v : R) : TankState :=
  mkTank (slot t) (x t) v (angleDeg t) (power t) (hp t) (connected t).

Definition set_angleDeg (t : TankState) (v : R) : TankState :=
  mkTank (slot t) (x t) (y t) v (power t) (hp t) (connected t).

Definition set_power (t : TankState) (v : R) : TankState :=
  mkTank (slot t) (x t) (y t) (angleDeg t) v (hp t) (connected t).

Definition set_connected (t : TankState) (c : bool) : TankState :=
  mkTank (slot t) (x t) (y t) (angleDeg t) (power t) (hp t) c.

Definition set_heights (t : TerrainState) (h : JsArray.t) : TerrainState :=
  mkTerrain (width t) (height t) h.

Definition set_terrain (s : GameState) (t : TerrainState) : GameState :=
  mkGame (roomCode s) (phase s) (activeSlot s) (turnEndsAt s) t (wind s)
         (tanks s) (projectile s) (winnerSlot s).

Definition set_tanks (s : GameState) (ts : Tanks) : GameState :=
  mkGame (roomCode s) (phase s) (activeSlot s) (turnEndsAt s) (terrain s)
         (wind s) ts (projectile s) (winnerSlot s).

Definition set_projectile (s : GameState) (p : option ProjectileState)
  : GameState :=
  mkGame (roomCode s) (phase s) (activeSlot s) (turnEndsAt s) (terrain s)
         (wind s) (tanks s) p (winnerSlot s).

Definition set_phase (s : GameState) (ph : GamePhase) : GameState :=
  mkGame (roomCode s) ph (activeSlot s) (turnEndsAt s) (terrain s) (wind s)
         (tanks s) (projectile s) (winnerSlot s).

Definition set_turnEndsAt (s : GameState) (d : option Z) : GameState :=
  mkGame (roomCode s) (phase s) (activeSlot s) d (terrain s) (wind s)
         (tanks s) (projectile s) (winnerSlot s).

Definition set_winnerSlot (s : GameState) (w : option PlayerSlot) : GameState :=
  mkGame (roomCode s) (phase s) (activeSlot s) (turnEndsAt s) (terrain s)
         (wind s) (tanks s) (projectile s) w.

(** ** apps/server/src/random.ts

    The generator keeps one number [t], started at [seed >>> 0] and
    advanced by [t += 0x6d2b79f5] (no wrap-around: [t] is a JavaScript
    number, exact below 2^53).  The bit operations read their operands as
    32-bit integers.  A draw is [u / 4294967296] for a 32-bit word [u];
    the model returns [u]. *)

Module Rng.

Definition ToUint32 (n : Z) : Z := (n mod 2 ^ 32)%Z.

Definition ToInt32 (n : Z) : Z :=
  let u := ToUint32 n in if (u <? 2 ^ 31)%Z then u else (u - 2 ^ 32)%Z.

(** [a >>> k] *)
Definition ushr (a k : Z) : Z := Z.shiftr (ToUint32 a) k.

(** [a ^ b] *)
Definition xor (a b : Z) : Z := ToInt32 (Z.lxor (ToInt32 a) (ToInt32 b)).

(** [a | b] *)
Definition or (a b : Z) : Z := ToInt32 (Z.lor (ToInt32 a) (ToInt32 b)).

(** [Math.imul(a, b)] *)
Definition imul (a b : Z) : Z := ToInt32 (ToInt32 a * ToInt32 b).

(** [mulberry32(seed)]: the initial [t]. *)
Definition mulberry32 (seed : Z) : Z := ushr seed 0.

(** One call of the closure: the word drawn and the new [t]. *)
Definition next (t : Z) : Z * Z :=
  let t := (t + 0x6d2b79f5)%Z in
  let v := imul (xor t (ushr t 15)) (or t 1) in
  let v := xor v (v + imul (xor v (ushr v 7)) (or v 61)) in
  (ushr (xor v (ushr v 14)) 0, t).

(** The number [random()] returns for the word [u]. *)
Definition value (u : Z) : R := IZR u / 4294967296.

(** [Math.floor(random() * n)] for the word [u] and an integer [n]. *)
Definition floorScaled (u n : Z) : Z := (u * n / 4294967296)%Z.

(** [chars[i] ?? d] *)
Definition charAt (chars : string) (i : Z) (d : ascii) : ascii :=
  default d (String.get (Z.to_nat i) chars).

(** [for (i = 0; i < n; i += 1) acc += chars[floor(random() * len)] ?? d] *)
Fixpoint draw (chars : string) (d : ascii) (n : nat) (acc : string) (t : Z)
  : string * Z :=
  match n with
  | O => (acc, t)
  | S n' =>
      let '(u, t') := next t in
      let c := charAt chars (floorScaled u (Z.of_nat (String.length chars))) d in
      draw chars d n' (acc +:+ String c EmptyString) t'
  end.

Definition randomCode (t : Z) : string * Z :=
  draw "ABCDEFGHJKMNPQRSTUVWXYZ23456789" "A"%char 5 EmptyString t.

Definition randomToken (t : Z) : string * Z :=
  draw "abcdefghijklmnopqrstuvwxyz0123456789" "0"%char 24 EmptyString t.

End Rng.

Arguments Rng.next : simpl never.
Arguments Rng.randomCode : simpl never.
Arguments Rng.randomToken : simpl never.

(** ** apps/server/src/game.ts *)

Definition clamp (n lo hi : R) : R := Rmax lo (Rmin hi n).

(** [clamp] at integer arguments. *)
Definition clampZ (n lo hi : Z) : Z := Z.max lo (Z.min hi n).

Definition clampAngle (value : R) : R := clamp value MIN_ANGLE MAX_ANGLE.

Definition clampPower (value : R) : R := clamp value MIN_POWER MAX_POWER.

Definition oppositeSlot (s : PlayerSlot) : PlayerSlot :=
  match s with A => B | B => A end.

Definition heightAt (terrain : TerrainState) (x : R) : R :=
  let index := clampZ (JsMath.round x) 0 (width terrain - 1) in
  default (IZR (height terrain)) (JsArray.get (heights terrain) index).

(** The value the first loop of [generateTerrain] stores in column [x]. *)
Definition waveHeight (seed : R) (height : Z) (x : Z) : R :=
  let base := IZR height * (62 / 100) in
  let waveA := sin ((IZR x + seed * (13 / 100)) * (9 / 1000)) * 42 in
  let waveB := sin ((IZR x + seed * (37 / 100)) * (21 / 1000)) * 26 in
  let waveC := sin ((IZR x + seed * (91 / 100)) * (43 / 1000)) * 12 in
  clamp (IZR (JsMath.round (base + waveA + waveB + waveC)))
        (IZR (JsMath.round (IZR height * (3 / 10))))
        (IZR height - 20).

(** The body of the smoothing loop at column [x]. *)
Definition smoothAt (base : R) (heights : JsArray.t) (x : Z) : JsArray.t :=
  let at_x := JsArray.get heights x in
  let prev := default (default base at_x) (JsArray.get heights (x - 1)) in
  let current := default base at_x in
  let next := default (default base at_x) (JsArray.get heights (x + 1)) in
  JsArray.set heights x (IZR (JsMath.round ((prev + current + next) / 3))).

(** [new Array(width)] throws a [RangeError] unless [width] is an integer
    in [0, 2^32 - 1]; [None] stands for that exception. *)
Definition generateTerrain (seed : R) (width height : Z) : option TerrainState :=
  if bool_decide (0 <= width < 2 ^ 32)%Z then
    let heights := JsArray.make (Z.to_nat width) in
    let base := IZR height * (62 / 100) in
    let heights :=
      foldl (fun hs x => JsArray.set hs x (waveHeight seed height x))
            heights (seqZ 0 width) in
    let heights := foldl (smoothAt base) heights (seqZ 1 (width - 2)) in
    Some (mkTerrain width height heights)
  else None.

Definition tankYForX (state : GameState) (x : R) : R :=
  heightAt (terrain state) x - PHYSICS.tankRadius - 1.

Definition updateTankGrounding (state : GameState) : GameState :=
  let tA := tankA (tanks state) in
  let state := set_tanks state (set_tank (tanks state) A
                 (set_y tA (tankYForX state (x tA)))) in
  let tB := tankB (tanks state) in
  set_tanks state (set_tank (tanks state) B (set_y tB (tankYForX state (x tB)))).

(** [generateTerrain(seed)] with the default world size, which is a valid
    array length. *)
Definition worldTerrain (seed : R) : TerrainState :=
  default (mkTerrain WORLD_WIDTH WORLD_HEIGHT [])
          (generateTerrain seed WORLD_WIDTH WORLD_HEIGHT).

Definition createInitialState (roomCode : string) (seed : Z)
  (startingSlot : PlayerSlot) : GameState :=
  let terrain := worldTerrain (IZR seed) in
  let initialState :=
    mkGame roomCode lobby startingSlot None terrain (mkWind 0)
      (mkTanks
         (mkTank A (IZR (JsMath.round (IZR (width terrain) * (18 / 100)))) 0
                 45 72 STARTING_HP false)
         (mkTank B (IZR (JsMath.round (IZR (width terrain) * (82 / 100)))) 0
                 135 72 STARTING_HP false))
      None None in
  updateTankGrounding initialState.

Arguments worldTerrain : simpl never.
Arguments createInitialState : simpl never.

(** [random] is the generator; the wind and its new [t] are returned. *)
Definition pickWind (random : Z) : R * Z :=
  let '(u, random) := Rng.next random in
  let raw := (Rng.value u * 2 - 1) * 24 in
  (IZR (JsMath.round (raw * 10)) / 10, random).

Definition spawnProjectile (state : GameState) (slot : PlayerSlot) : GameState :=
  let tank := tank_of (tanks state) slot in
  let angle := clampAngle (angleDeg tank) in
  let power := clampPower (power tank) in
  let launchSpeed := power * PHYSICS.projectileSpeedScale in
  let rad := angle * PI / 180 in
  let muzzleDistance := PHYSICS.tankRadius + 5 in
  let spawnX := x tank + cos rad * muzzleDistance in
  let spawnY := y tank - sin rad * muzzleDistance in
  set_projectile state
    (Some (mkProjectile (mkVector2 spawnX spawnY)
             (mkVector2 (cos rad * launchSpeed) (- sin rad * launchSpeed))
             true slot)).

Record ImpactResult := mkImpact { point : Vector2 }.

(** The two assignments to [vel] and the two to [pos]. *)
Definition integrate (state : GameState) (p : ProjectileState) (dt : R)
  : ProjectileState :=
  let velx := vec_x (vel p) + force (wind state) * PHYSICS.windAccelerationScale * dt in
  let vely := vec_y (vel p) + PHYSICS.gravity * dt in
  let posx := vec_x (pos p) + velx * dt in
  let posy := vec_y (pos p) + vely * dt in
  mkProjectile (mkVector2 posx posy) (mkVector2 velx vely) (active p) (owner p).

(** The test of the [for (const slot of ["A", "B"])] loop body. *)
Definition hitsTank (p : ProjectileState) (tank : TankState) : bool :=
  let dx := vec_x (pos p) - x tank in
  let dy := vec_y (pos p) - y tank in
  let distance := JsMath.hypot dx dy in
  distance <=? PHYSICS.tankRadius + PHYSICS.projectileRadius.

Definition stepProjectile (state : GameState) (dtSeconds : R)
  : GameState * option ImpactResult :=
  match projectile state with
  | None => (state, None)
  | Some projectile =>
    if negb (active projectile) then (state, None)
    else
      let projectile := integrate state projectile dtSeconds in
      let state := set_projectile state (Some projectile) in
      let px := vec_x (pos projectile) in
      let py := vec_y (pos projectile) in
      if hitsTank projectile (tankA (tanks state)) then
        (state, Some (mkImpact (mkVector2 px py)))
      else if hitsTank projectile (tankB (tanks state)) then
        (state, Some (mkImpact (mkVector2 px py)))
      else
        let terrainY := heightAt (terrain state) px in
        if py + PHYSICS.projectileRadius >=? terrainY then
          (state, Some (mkImpact (mkVector2 px terrainY)))
        else if (px <? 0) || (px >=? IZR (width (terrain state)))
                || (py >? IZR (height (terrain state)) + 100)
                || (py <? -100) then
          let clampedX := clamp px 0 (IZR (width (terrain state)) - 1) in
          let clampedY := clamp py 0 (IZR (height (terrain state))) in
          (state, Some (mkImpact (mkVector2 clampedX clampedY)))
        else (state, None)
  end.

(** The body of the loop of [deformTerrain] at column [x]. *)
Definition deformColumn (height : Z) (impact : Vector2) (hs : JsArray.t) (x : Z)
  : JsArray.t :=
  let craterRadius := PHYSICS.craterRadius in
  let dx := IZR x - vec_x impact in
  let chord := sqrt (Rmax 0 (craterRadius * craterRadius - dx * dx)) in
  let targetHeight := JsMath.round (vec_y impact + chord) in
  if IZR targetHeight >? default (IZR height) (JsArray.get hs x) then
    JsArray.set hs x (IZR (clampZ targetHeight 0 height))
  else hs.

(** The columns [start], ..., [end] the loop of [deformTerrain] visits. *)
Definition craterColumns (t : TerrainState) (impact : Vector2) : list Z :=
  let craterRadius := PHYSICS.craterRadius in
  let start :=
    clampZ (JsMath.floor (vec_x impact - craterRadius)) 0 (width t - 1) in
  let end_ :=
    clampZ (JsMath.ceil (vec_x impact + craterRadius)) 0 (width t - 1) in
  seqZ start (end_ - start + 1).

Definition deformTerrain (state : GameState) (impact : Vector2) : GameState :=
  set_terrain state
    (set_heights (terrain state)
       (foldl (deformColumn (height (terrain state)) impact)
              (heights (terrain state))
              (craterColumns (terrain state) impact))).

Record DamageResult := mkDamage {
  dmg_slot : PlayerSlot;
  amount : R;
  hpAfter : R
}.

(** The damage a tank at [distance] from the impact takes. *)
Definition blastDamage (distance : R) : R :=
  let ratio := 1 - distance / PHYSICS.blastRadius in
  Rmax 1 (IZR (JsMath.round (PHYSICS.maxDamage * ratio))).

(** The body of the loop of [applyBlastDamage] for one slot. *)
Definition blastSlot (impact : Vector2) (acc : GameState * list DamageResult)
  (slot : PlayerSlot) : GameState * list DamageResult :=
  let '(state, results) := acc in
  let tank := tank_of (tanks state) slot in
  let distance := JsMath.hypot (x tank - vec_x impact) (y tank - vec_y impact) in
  if distance >? PHYSICS.blastRadius then (state, results)
  else
    let damage := blastDamage distance in
    let tank := set_hp tank (Rmax 0 (hp tank - damage)) in
    (set_tanks state (set_tank (tanks state) slot tank),
     results ++ [mkDamage slot damage (hp tank)]).

Definition applyBlastDamage (state : GameState) (impact : Vector2)
  : GameState * list DamageResult :=
  foldl (blastSlot impact) (state, []) [A; B].

Definition resolveWinner (state : GameState) (lastShooter : PlayerSlot)
  : option PlayerSlot :=
  let hpA := hp (tankA (tanks state)) in
  let hpB := hp (tankB (tanks state)) in
  if (hpA >? 0) && (hpB >? 0) then None
  else if (hpA <=? 0) && (hpB <=? 0) then Some (oppositeSlot lastShooter)
  else Some (if hpA >? 0 then A else B).

(** [now] is the value of [Date.now()]. *)
Definition enterTurn (now : Z) (state : GameState) (slot : PlayerSlot) (wind : R)
  : GameState :=
  mkGame (roomCode state) aiming slot (Some (now + TURN_DURATION_MS)%Z)
         (terrain state) (mkWind wind) (tanks state) (projectile state)
         (winnerSlot state).

Definition setPhase (state : GameState) (phase : GamePhase) : GameState :=
  let state := set_phase state phase in
  if bool_decide (phase <> aiming) then set_turnEndsAt state None else state.

(** ** apps/server/src/room-manager.ts

    The manager is threaded through every operation.  [now] stands for
    [Date.now()].  What the manager sends to the sockets ([io.to(...).emit],
    [socket.join]) changes no state and is left out. *)

Module RoomPlayer.

Record t := mk {
  slot : PlayerSlot;
  token : string;
  socketId : option string;
  connected : bool
}.

End RoomPlayer.

Module PauseSnapshot.

Record t := mk {
  phaseBeforePause : GamePhase;
  remainingTurnMs : option Z
}.

End PauseSnapshot.

(** A timer handle: [null], a timer that can still fire, or the handle of
    a timeout that has fired. *)
Inductive Timer := NoTimer | Pending | Spent.

#[global] Instance Timer_eq_dec : EqDecision Timer.
Proof. solve_decision. Defined.

#[global] Instance PlayerSlot_countable : Countable PlayerSlot.
Proof.
  refine (inj_countable' (fun s => match s with A => true | B => false end)
            (fun b : bool => if b then A else B) _).
  by intros [].
Defined.

Module Room.

(** [roundDelays] counts the [setTimeout(..., 650)] callbacks of
    [resolveImpact] that have not run yet; the source keeps no handle of
    them. *)
Record t := mk {
  code : string;
  seed : Z;
  random : Z;
  nextStartingSlot : PlayerSlot;
  state : GameState;
  playerA : option RoomPlayer.t;
  playerB : option RoomPlayer.t;
  rematchVotes : gset PlayerSlot;
  turnTimer : Timer;
  reconnectTimer : Timer;
  simulationTimer : Timer;
  pauseSnapshot : option PauseSnapshot.t;
  createdAt : Z;
  roundDelays : nat
}.

(** [room.players[slot]] *)
Definition players (r : t) (s : PlayerSlot) : option RoomPlayer.t :=
  match s with A => playerA r | B => playerB r end.

Definition set_random (r : t) (v : Z) : t :=
  mk (code r) (seed r) v (nextStartingSlot r) (state r) (playerA r) (playerB r)
     (rematchVotes r) (turnTimer r) (reconnectTimer r) (simulationTimer r)
     (pauseSnapshot r) (createdAt r) (roundDelays r).

Definition set_state (r : t) (v : GameState) : t :=
  mk (code r) (seed r) (random r) (nextStartingSlot r) v (playerA r) (playerB r)
     (rematchVotes r) (turnTimer r) (reconnectTimer r) (simulationTimer r)
     (pauseSnapshot r) (createdAt r) (roundDelays r).

Definition set_player (r : t) (s : PlayerSlot) (v : option RoomPlayer.t) : t :=
  mk (code r) (seed r) (random r) (nextStartingSlot r) (state r)
     (match s with A => v | B => playerA r end)
     (match s with A => playerB r | B => v end)
     (rematchVotes r) (turnTimer r) (reconnectTimer r) (simulationTimer r)
     (pauseSnapshot r) (createdAt r) (roundDelays r).

Definition set_rematchVotes (r : t) (v : gset PlayerSlot) : t :=
  mk (code r) (seed r) (random r) (nextStartingSlot r) (state r) (playerA r)
     (playerB r) v (turnTimer r) (reconnectTimer r) (simulationTimer r)
     (pauseSnapshot r) (createdAt r) (roundDelays r).

Definition set_turnTimer (r : t) (v : Timer) : t :=
  mk (code r) (seed r) (random r) (nextStartingSlot r) (state r) (playerA r)
     (playerB r) (rematchVotes r) v (reconnectTimer r) (simulationTimer r)
     (pauseSnapshot r) (createdAt r) (roundDelays r).

Definition set_reconnectTimer (r : t) (v : Timer) : t :=
  mk (code r) (seed r) (random r) (nextStartingSlot r) (state r) (playerA r)
     (playerB r) (rematchVotes r) (turnTimer r) v (simulationTimer r)
     (pauseSnapshot r) (createdAt r) (roundDelays r).

Definition set_simulationTimer (r : t) (v : Timer) : t :=
  mk (code r) (seed r) (random r) (nextStartingSlot r) (state r) (playerA r)
     (playerB r) (rematchVotes r) (turnTimer r) (reconnectTimer r) v
     (pauseSnapshot r) (createdAt r) (roundDelays r).

Definition set_pauseSnapshot (r : t) (v : option PauseSnapshot.t) : t :=
  mk (code r) (seed r) (random r) (nextStartingSlot r) (state r) (playerA r)
     (playerB r) (rematchVotes r) (turnTimer r) (reconnectTimer r)
     (simulationTimer r) v (createdAt r) (roundDelays r).

Definition set_roundDelays (r : t) (v : nat) : t :=
  mk (code r) (seed r) (random r) (nextStartingSlot r) (state r) (playerA r)
     (playerB r) (rematchVotes r) (turnTimer r) (reconnectTimer r)
     (simulationTimer r) (pauseSnapshot r) (createdAt r) v.

(** [room.nextStartingSlot = s; room.seed = v] *)
Definition set_start (r : t) (s : PlayerSlot) (v : Z) : t :=
  mk (code r) v (random r) s (state r) (playerA r) (playerB r)
     (rematchVotes r) (turnTimer r) (reconnectTimer r) (simulationTimer r)
     (pauseSnapshot r) (createdAt r) (roundDelays r).

End Room.

Module SocketBinding.

Record t := mk { roomCode : string; slot : PlayerSlot }.

End SocketBinding.

Module JoinResult.

Record t := mk {
  room : Room.t;
  slot : PlayerSlot;
  reconnectToken : string;
  started : bool
}.

End JoinResult.

Record RoomManager := mkManager {
  rooms : gmap string Room.t;
  socketBindings : gmap string SocketBinding.t;
  random : Z
}.

Definition set_rooms (m : RoomManager) (v : gmap string Room.t) : RoomManager :=
  mkManager v (socketBindings m) (random m).

Definition set_socketBindings (m : RoomManager)
  (v : gmap string SocketBinding.t) : RoomManager :=
  mkManager (rooms m) v (random m).

Definition TURN_TICK_MS : Z := 17.

(** [room.state.tanks[slot].connected = c] *)
Definition setTankConnected (r : Room.t) (s : PlayerSlot) (c : bool) : Room.t :=
  let st := Room.state r in
  Room.set_state r
    (set_tanks st (set_tank (tanks st) s (set_connected (tank_of (tanks st) s) c))).

(** [Boolean(room.players[slot]?.connected)] *)
Definition playerConnected (r : Room.t) (s : PlayerSlot) : bool :=
  match Room.players r s with
  | Some p => RoomPlayer.connected p
  | None => false
  end.

Definition syncTankConnections (r : Room.t) : Room.t :=
  foldl (fun r s => setTankConnected r s (playerConnected r s)) r [A; B].

Definition findDisconnectedSlot (r : Room.t) : option PlayerSlot :=
  if negb (playerConnected r A) then Some A
  else if negb (playerConnected r B) then Some B
  else None.

Definition clearTurnTimer (r : Room.t) : Room.t := Room.set_turnTimer r NoTimer.

Definition clearSimulation (r : Room.t) : Room.t :=
  Room.set_simulationTimer r NoTimer.

(** [if (room.reconnectTimer) { clearTimeout(...); room.reconnectTimer = null }] *)
Definition clearReconnectTimer (r : Room.t) : Room.t :=
  Room.set_reconnectTimer r NoTimer.

Definition scheduleTurnTimeout (r : Room.t) : Room.t :=
  let r := clearTurnTimer r in
  if bool_decide (phase (Room.state r) <> aiming)
     || bool_decide (turnEndsAt (Room.state r) = None)
  then r
  else Room.set_turnTimer r Pending.

Definition startMatch (now : Z) (r : Room.t) : Room.t :=
  let startingSlot := Room.nextStartingSlot r in
  let '(u, rnd) := Rng.next (Room.random r) in
  let r := Room.set_random r rnd in
  let r := Room.set_start r (oppositeSlot startingSlot)
             (Rng.floorScaled u 1000000000) in
  let r := Room.set_state r
             (createInitialState (Room.code r) (Room.seed r) startingSlot) in
  let r := Room.set_rematchVotes r ∅ in
  let r := Room.set_pauseSnapshot r None in
  let r := clearReconnectTimer r in
  let r := syncTankConnections r in
  let '(w, rnd) := pickWind (Room.random r) in
  let r := Room.set_random r rnd in
  let r := Room.set_state r (enterTurn now (Room.state r) startingSlot w) in
  let r := clearTurnTimer r in
  let r := clearSimulation r in
  scheduleTurnTimeout r.

Definition fireForSlot (r : Room.t) (s : PlayerSlot) : Room.t :=
  if bool_decide (phase (Room.state r) <> aiming) then r
  else
    let r := clearTurnTimer r in
    let r := Room.set_state r (setPhase (Room.state r) projectile_flight) in
    let r := Room.set_state r (spawnProjectile (Room.state r) s) in
    let r := clearSimulation r in
    Room.set_simulationTimer r Pending.

(** The callback [scheduleTurnTimeout] hands to [setTimeout]. *)
Definition onTurnTimeout (r : Room.t) : Room.t :=
  if bool_decide (phase (Room.state r) <> aiming) then r
  else fireForSlot r (activeSlot (Room.state r)).

Definition resolveImpact (r : Room.t) (point : Vector2) : Room.t :=
  let r := clearSimulation r in
  let shooter :=
    match projectile (Room.state r) with
    | Some p => owner p
    | None => activeSlot (Room.state r)
    end in
  let r := Room.set_state r (set_projectile (Room.state r) None) in
  let r := Room.set_state r (deformTerrain (Room.state r) point) in
  let r := Room.set_state r (updateTankGrounding (Room.state r)) in
  let '(st, damage) := applyBlastDamage (Room.state r) point in
  let r := Room.set_state r st in
  match resolveWinner (Room.state r) shooter with
  | Some winner =>
      let st := set_phase (Room.state r) match_end in
      let st := set_winnerSlot st (Some winner) in
      let st := set_turnEndsAt st None in
      Room.set_rematchVotes (Room.set_state r st) ∅
  | None =>
      let r := Room.set_state r (setPhase (Room.state r) round_end) in
      Room.set_roundDelays r (S (Room.roundDelays r))
  end.

(** The callback [resolveImpact] hands to [setTimeout(..., 650)]. *)
Definition onRoundDelay (now : Z) (r : Room.t) : Room.t :=
  if bool_decide (phase (Room.state r) = paused_reconnect)
     || bool_decide (phase (Room.state r) = match_end)
  then r
  else
    let next := oppositeSlot (activeSlot (Room.state r)) in
    let '(w, rnd) := pickWind (Room.random r) in
    let r := Room.set_random r rnd in
    let r := Room.set_state r (enterTurn now (Room.state r) next w) in
    scheduleTurnTimeout r.

(** The callback of the simulation interval. *)
Definition onSimulationTick (r : Room.t) : Room.t :=
  let '(st, impact) := stepProjectile (Room.state r) (1 / IZR TICK_RATE) in
  let r := Room.set_state r st in
  match impact with
  | Some i => resolveImpact r (point i)
  | None => r
  end.

(** The callback [pauseForReconnect] hands to [setTimeout]. *)
Definition onReconnectTimeout (r : Room.t) : Room.t :=
  if bool_decide (phase (Room.state r) <> paused_reconnect) then r
  else
    match findDisconnectedSlot r with
    | None => r
    | Some disconnected =>
        let winner := oppositeSlot disconnected in
        let st := set_phase (Room.state r) match_end in
        let st := set_winnerSlot st (Some winner) in
        Room.set_rematchVotes (Room.set_state r st) ∅
    end.

Definition pauseForReconnect (now : Z) (r : Room.t) (disconnectedSlot : PlayerSlot)
  : Room.t :=
  if bool_decide (phase (Room.state r) = paused_reconnect)
     || bool_decide (phase (Room.state r) = match_end)
  then r
  else
    let remainingTurnMs :=
      match turnEndsAt (Room.state r) with
      | Some deadline =>
          if bool_decide (phase (Room.state r) = aiming)
          then Some (Z.max 0 (deadline - now)) else None
      | None => None
      end in
    let r := Room.set_pauseSnapshot r
               (Some (PauseSnapshot.mk (phase (Room.state r)) remainingTurnMs)) in
    let r := clearTurnTimer r in
    let r := clearSimulation r in
    let st := set_phase (Room.state r) paused_reconnect in
    let st := set_turnEndsAt st None in
    let r := Room.set_state r st in
    Room.set_reconnectTimer r Pending.

(** The [setInterval] of [resumeFromPauseIfReady]. *)
Definition restartSimulation (r : Room.t) : Room.t :=
  Room.set_simulationTimer (clearSimulation r) Pending.

Definition resumeFromPauseIfReady (now : Z) (r : Room.t) : Room.t :=
  if bool_decide (phase (Room.state r) <> paused_reconnect) then r
  else
    match findDisconnectedSlot r with
    | Some _ => r
    | None =>
        let r := clearReconnectTimer r in
        let snapshot := Room.pauseSnapshot r in
        let r := Room.set_pauseSnapshot r None in
        match snapshot with
        | None =>
            let st := set_phase (Room.state r) aiming in
            let st :=
              match turnEndsAt st with
              | None => set_turnEndsAt st (Some (now + TURN_DURATION_MS)%Z)
              | Some _ => st
              end in
            scheduleTurnTimeout (Room.set_state r st)
        | Some snapshot =>
            let before := PauseSnapshot.phaseBeforePause snapshot in
            let r := Room.set_state r (set_phase (Room.state r) before) in
            let r :=
              if bool_decide (before = aiming) then
                let remaining :=
                  default TURN_DURATION_MS
                          (PauseSnapshot.remainingTurnMs snapshot) in
                let r := Room.set_state r
                           (set_turnEndsAt (Room.state r)
                                           (Some (now + remaining)%Z)) in
                scheduleTurnTimeout r
              else r in
            let r :=
              if bool_decide (before = projectile_flight)
              then restartSimulation r else r in
            if bool_decide (before = round_end) then
              let next := oppositeSlot (activeSlot (Room.state r)) in
              let '(w, rnd) := pickWind (Room.random r) in
              let r := Room.set_random r rnd in
              let r := Room.set_state r (enterTurn now (Room.state r) next w) in
              scheduleTurnTimeout r
            else r
        end
    end.

(** [room] was found under [key] and changed in place. *)
Definition destroyRoomIfEmpty (m : RoomManager) (key : string) (r : Room.t)
  : RoomManager :=
  let hasConnected := playerConnected r A || playerConnected r B in
  if hasConnected then set_rooms m (<[key := r]> (rooms m))
  else
    let r := clearReconnectTimer (clearSimulation (clearTurnTimer r)) in
    set_rooms m (delete (Room.code r) (<[key := r]> (rooms m))).

Definition leaveBySocketId (now : Z) (m : RoomManager) (socketId : string)
  : RoomManager :=
  match socketBindings m !! socketId with
  | None => m
  | Some binding =>
    let m := set_socketBindings m (delete socketId (socketBindings m)) in
    let key := SocketBinding.roomCode binding in
    let s := SocketBinding.slot binding in
    match rooms m !! key with
    | None => m
    | Some room =>
      match Room.players room s with
      | None => m
      | Some player =>
        if bool_decide (RoomPlayer.socketId player <> Some socketId) then m
        else
          let player :=
            RoomPlayer.mk (RoomPlayer.slot player) (RoomPlayer.token player)
                          None false in
          let room := Room.set_player room s (Some player) in
          let room := setTankConnected room s false in
          if bool_decide (phase (Room.state room) = lobby) then
            destroyRoomIfEmpty m key room
          else if bool_decide (phase (Room.state room) = match_end) then
            let room :=
              Room.set_rematchVotes room (Room.rematchVotes room ∖ {[s]}) in
            destroyRoomIfEmpty m key room
          else
            set_rooms m (<[key := pauseForReconnect now room s]> (rooms m))
      end
    end
  end.

Definition leaveExplicit (now : Z) (m : RoomManager) (socketId : string)
  : RoomManager :=
  leaveBySocketId now m socketId.

Definition detachSocket (now : Z) (m : RoomManager) (socketId : string)
  : RoomManager :=
  leaveBySocketId now m socketId.

(** The [for] loop of [createUniqueCode], [n] rounds of it. *)
Fixpoint tryCodes (n : nat) (taken : gmap string Room.t) (rnd : Z)
  : option string * Z :=
  match n with
  | O => (None, rnd)
  | S n' =>
      let '(code, rnd) := Rng.randomCode rnd in
      if bool_decide (taken !! code = None) then (Some code, rnd)
      else tryCodes n' taken rnd
  end.

(** [s.padStart(n, c)] for a one-character filler. *)
Definition padStart (n : nat) (c : ascii) (s : string) : string :=
  string_of_list_ascii (replicate (n - String.length s) c) +:+ s.

(** [`${n}`]: the decimal digits of an integer. *)
Definition decimal (n : Z) : string := pretty n.

Opaque decimal.

(** The bound of the loop of [createUniqueCode]. *)
Definition CODE_ATTEMPTS : nat := 1000.

Opaque CODE_ATTEMPTS.

Definition createUniqueCode (m : RoomManager) : string * RoomManager :=
  match tryCodes CODE_ATTEMPTS (rooms m) (random m) with
  | (Some code, rnd) => (code, mkManager (rooms m) (socketBindings m) rnd)
  | (None, rnd) =>
      let '(u, rnd) := Rng.next rnd in
      (padStart 5 "0"%char (decimal (Rng.floorScaled u 99999)),
       mkManager (rooms m) (socketBindings m) rnd)
  end.

Definition createRoom (now : Z) (m : RoomManager) (socketId : string)
  : RoomManager * JoinResult.t :=
  let m := detachSocket now m socketId in
  let '(code, m) := createUniqueCode m in
  let '(u, rnd) := Rng.next (random m) in
  let m := mkManager (rooms m) (socketBindings m) rnd in
  let seed := Rng.floorScaled u 1000000000 in
  let roomRandom := Rng.mulberry32 seed in
  let room :=
    Room.mk code seed roomRandom A (createInitialState code seed A)
            None None ∅ NoTimer NoTimer NoTimer None now 0 in
  let '(token, roomRandom) := Rng.randomToken roomRandom in
  let room := Room.set_random room roomRandom in
  let room :=
    Room.set_player room A (Some (RoomPlayer.mk A token (Some socketId) true)) in
  let room := setTankConnected room A true in
  let m := set_rooms m (<[code := room]> (rooms m)) in
  let m := set_socketBindings m
             (<[socketId := SocketBinding.mk code A]> (socketBindings m)) in
  (m, JoinResult.mk room A token false).

(** The body of the loop that reclaims a slot, for one slot. *)
Definition reclaims (room : Room.t) (reconnectToken : string) (s : PlayerSlot)
  : option RoomPlayer.t :=
  match Room.players room s with
  | Some player =>
      if bool_decide (RoomPlayer.token player = reconnectToken)
      then Some player else None
  | None => None
  end.

Definition reclaimSlot (now : Z) (m : RoomManager) (socketId roomCode : string)
  (room : Room.t) (s : PlayerSlot) (player : RoomPlayer.t)
  : RoomManager * option JoinResult.t :=
  let player :=
    RoomPlayer.mk (RoomPlayer.slot player) (RoomPlayer.token player)
                  (Some socketId) true in
  let room := Room.set_player room s (Some player) in
  let room := setTankConnected room s true in
  let m := set_socketBindings m
             (<[socketId := SocketBinding.mk roomCode s]> (socketBindings m)) in
  let room := resumeFromPauseIfReady now room in
  (set_rooms m (<[roomCode := room]> (rooms m)),
   Some (JoinResult.mk room s (RoomPlayer.token player) false)).

Definition joinRoom (now : Z) (m : RoomManager) (socketId roomCode : string)
  (reconnectToken : option string) : RoomManager * option JoinResult.t :=
  let m := detachSocket now m socketId in
  match rooms m !! roomCode with
  | None => (m, None)
  | Some room =>
    let reclaimed :=
      match reconnectToken with
      | Some tok =>
          if bool_decide (tok = EmptyString) then None
          else
            match reclaims room tok A with
            | Some player => Some (A, player)
            | None =>
                match reclaims room tok B with
                | Some player => Some (B, player)
                | None => None
                end
            end
      | None => None
      end in
    match reclaimed with
    | Some (s, player) => reclaimSlot now m socketId roomCode room s player
    | None =>
      let slotToAssign :=
        match Room.playerA room with
        | Some _ => match Room.playerB room with Some _ => None | None => Some B end
        | None => Some A
        end in
      match slotToAssign with
      | None => (m, None)
      | Some slotToAssign =>
        let '(token, rnd) := Rng.randomToken (Room.random room) in
        let room := Room.set_random room rnd in
        let room :=
          Room.set_player room slotToAssign
            (Some (RoomPlayer.mk slotToAssign token (Some socketId) true)) in
        let room := setTankConnected room slotToAssign true in
        let m := set_socketBindings m
                   (<[socketId := SocketBinding.mk roomCode slotToAssign]>
                      (socketBindings m)) in
        let shouldStart :=
          bool_decide (is_Some (Room.playerA room))
          && bool_decide (is_Some (Room.playerB room))
          && bool_decide (phase (Room.state room) = lobby) in
        let room := if shouldStart then startMatch now room else room in
        (set_rooms m (<[roomCode := room]> (rooms m)),
         Some (JoinResult.mk room slotToAssign token shouldStart))
      end
    end
  end.

Definition rejoinRoom (now : Z) (m : RoomManager) (socketId roomCode : string)
  (reconnectToken : string) : RoomManager * option JoinResult.t :=
  joinRoom now m socketId roomCode (Some reconnectToken).

Definition applyAim (m : RoomManager) (socketId : string) (angleDeg power : R)
  : RoomManager * option Room.t :=
  match socketBindings m !! socketId with
  | None => (m, None)
  | Some info =>
    match rooms m !! SocketBinding.roomCode info with
    | None => (m, None)
    | Some room =>
      if bool_decide (phase (Room.state room) <> aiming) then (m, None)
      else if bool_decide (activeSlot (Room.state room) <> SocketBinding.slot info)
      then (m, None)
      else
        let s := SocketBinding.slot info in
        let st := Room.state room in
        let st :=
          set_tanks st (set_tank (tanks st) s
            (set_angleDeg (tank_of (tanks st) s) (clampAngle angleDeg))) in
        let st :=
          set_tanks st (set_tank (tanks st) s
            (set_power (tank_of (tanks st) s) (clampPower power))) in
        let room := Room.set_state room st in
        (set_rooms m (<[SocketBinding.roomCode info := room]> (rooms m)),
         Some room)
    end
  end.

Definition fire (m : RoomManager) (socketId : string)
  : RoomManager * option Room.t :=
  match socketBindings m !! socketId with
  | None => (m, None)
  | Some info =>
    match rooms m !! SocketBinding.roomCode info with
    | None => (m, None)
    | Some room =>
      if bool_decide (phase (Room.state room) <> aiming)
         || bool_decide (activeSlot (Room.state room) <> SocketBinding.slot info)
      then (m, None)
      else
        let room := fireForSlot room (SocketBinding.slot info) in
        (set_rooms m (<[SocketBinding.roomCode info := room]> (rooms m)),
         Some room)
    end
  end.

Definition requestRematch (now : Z) (m : RoomManager) (socketId : string)
  : RoomManager * option string :=
  match socketBindings m !! socketId with
  | None => (m, Some "NOT_IN_ROOM")
  | Some info =>
    match rooms m !! SocketBinding.roomCode info with
    | None => (m, Some "ROOM_UNAVAILABLE")
    | Some room =>
      if bool_decide (phase (Room.state room) <> match_end)
      then (m, Some "REMATCH_NOT_AVAILABLE")
      else if negb (playerConnected room (SocketBinding.slot info))
      then (m, Some "PLAYER_NOT_CONNECTED")
      else
        let room :=
          Room.set_rematchVotes room
            (Room.rematchVotes room ∪ {[SocketBinding.slot info]}) in
        let hasBothPlayers :=
          bool_decide (is_Some (Room.playerA room))
          && bool_decide (is_Some (Room.playerB room)) in
        let bothConnected := playerConnected room A && playerConnected room B in
        let bothAccepted :=
          bool_decide (A ∈ Room.rematchVotes room)
          && bool_decide (B ∈ Room.rematchVotes room) in
        let room :=
          if hasBothPlayers && bothConnected && bothAccepted
          then startMatch now room else room in
        (set_rooms m (<[SocketBinding.roomCode info := room]> (rooms m)), None)
    end
  end.

(** ** The queries of the manager *)

Definition getPlayers (r : Room.t) : list (PlayerSlot * bool) :=
  foldl (fun players s =>
           match Room.players r s with
           | Some player => players ++ [(s, RoomPlayer.connected player)]
           | None => players
           end) [] [A; B].

Definition getSlotBySocketId (m : RoomManager) (socketId : string)
  : option PlayerSlot :=
  match socketBindings m !! socketId with
  | Some info => Some (SocketBinding.slot info)
  | None => None
  end.

Definition getRoomBySocketId (m : RoomManager) (socketId : string)
  : option Room.t :=
  match socketBindings m !! socketId with
  | None => None
  | Some info => rooms m !! SocketBinding.roomCode info
  end.

(** ** The events a manager reacts to

    Requests of a socket, and the timers of the room stored under a
    code.  A timer fires only while its handle is pending. *)

Inductive Event :=
| CreateRoom (socketId : string)
| JoinRoom (socketId roomCode : string) (reconnectToken : option string)
| LeaveRoom (socketId : string)
| LockAim (socketId : string) (angleDeg power : R)
| Fire (socketId : string)
| RequestRematch (socketId : string)
| TurnTimeout (roomCode : string)
| SimulationTick (roomCode : string)
| RoundDelay (roomCode : string)
| ReconnectTimeout (roomCode : string).

(** Run a timer callback on the room stored under [key]. *)
Definition onRoom (m : RoomManager) (key : string)
  (ready : Room.t -> bool) (callback : Room.t -> Room.t) : RoomManager :=
  match rooms m !! key with
  | Some room =>
      if ready room then set_rooms m (<[key := callback room]> (rooms m))
      else m
  | None => m
  end.

Definition step (now : Z) (m : RoomManager) (e : Event) : RoomManager :=
  match e with
  | CreateRoom socketId => (createRoom now m socketId).1
  | JoinRoom socketId roomCode tok => (joinRoom now m socketId roomCode tok).1
  | LeaveRoom socketId => leaveBySocketId now m socketId
  | LockAim socketId angleDeg power => (applyAim m socketId angleDeg power).1
  | Fire socketId => (fire m socketId).1
  | RequestRematch socketId => (requestRematch now m socketId).1
  | TurnTimeout key =>
      onRoom m key (fun r => bool_decide (Room.turnTimer r = Pending))
        (fun r => onTurnTimeout (Room.set_turnTimer r Spent))
  | SimulationTick key =>
      onRoom m key (fun r => bool_decide (Room.simulationTimer r = Pending))
        onSimulationTick
  | RoundDelay key =>
      onRoom m key (fun r => bool_decide (Room.roundDelays r <> 0%nat))
        (fun r => onRoundDelay now
                    (Room.set_roundDelays r (pred (Room.roundDelays r))))
  | ReconnectTimeout key =>
      onRoom m key (fun r => bool_decide (Room.reconnectTimer r = Pending))
        (fun r => onReconnectTimeout (Room.set_reconnectTimer r Spent))
  end.

(** [new RoomManager(io)], created at time [now]. *)
Definition newManager (now : Z) : RoomManager :=
  mkManager ∅ ∅ (Rng.mulberry32 now).

Inductive reachable : RoomManager -> Prop :=
| reachable_new (now : Z) : reachable (newManager now)
| reachable_step (now : Z) (m : RoomManager) (e : Event) :
    reachable m -> reachable (step now m e).

(** ** Sample states

    A world of [w] columns, all at height [level]; a connected tank; a
    snapshot in flight with the given terrain, tanks and projectile. *)

Definition flatTerrain (w h : Z) (level : R) : TerrainState :=
  mkTerrain w h (replicate (Z.to_nat w) (Some level)).

Definition sampleTank (s : PlayerSlot) (tx ty thp : R) : TankState :=
  mkTank s tx ty 45 72 thp true.

Definition sampleState (t : TerrainState) (ta tb : TankState)
  (p : option ProjectileState) : GameState :=
  mkGame "ABCDE" projectile_flight A None t (mkWind 0) (mkTanks ta tb) p None.

(** ** Definitions for the statements

    What the properties below speak about: distances and per-slot
    outcomes of a blast, the height of a column, arrays filled within
    bounds, the turn-clock invariant, and the states used as examples. *)

(** The distance [applyBlastDamage] measures for the tank in [slot]. *)
Definition tankDistance (state : GameState) (impact : Vector2) (s : PlayerSlot)
  : R :=
  let tank := tank_of (tanks state) s in
  JsMath.hypot (x tank - vec_x impact) (y tank - vec_y impact).

(** What one slot contributes: the tank after the blast and its entry. *)
Definition blasted (state : GameState) (impact : Vector2) (s : PlayerSlot)
  : TankState * list DamageResult :=
  let tank := tank_of (tanks state) s in
  let d := tankDistance state impact s in
  if d <=? PHYSICS.blastRadius then
    let after := Rmax 0 (hp tank - blastDamage d) in
    (set_hp tank after, [mkDamage s (blastDamage d) after])
  else (tank, []).

(** Entry [j] after the body of the loop of [deformTerrain] ran at column
    [j] on an array whose entry [j] was [e]. *)
Definition columnAfter (height : Z) (impact : Vector2) (j : Z) (e : option R)
  : option R :=
  let craterRadius := PHYSICS.craterRadius in
  let dx := IZR j - vec_x impact in
  let chord := sqrt (Rmax 0 (craterRadius * craterRadius - dx * dx)) in
  let targetHeight := JsMath.round (vec_y impact + chord) in
  if IZR targetHeight >? default (IZR height) e
  then Some (IZR (clampZ targetHeight 0 height)) else e.

(** The height the code reads for column [j]: [heights[j] ?? height]. *)
Definition columnHeight (t : TerrainState) (j : Z) : R :=
  default (IZR (height t)) (JsArray.get (heights t) j).

(** A step in the ground at column 0, hit at x = 36.5 on the lower level. *)
Definition stepTerrain : TerrainState :=
  mkTerrain 40 600 (Some 200 :: replicate 39 (Some 300)).

(** One column stored below the bottom of the world. *)
Definition deepTerrain : TerrainState := mkTerrain 1 600 [Some 700].

(** Every entry of the first [length a] ones is a number within [lo, hi]. *)
Definition filled (lo hi : R) (a : JsArray.t) : Prop :=
  forall j, (0 <= j < Z.of_nat (length a))%Z ->
    exists v, JsArray.get a j = Some v /\ lo <= v <= hi.

Definition turnClockOk (s : GameState) : Prop :=
  is_Some (turnEndsAt s) <-> phase s = aiming.

Definition roomsOk (m : RoomManager) : Prop :=
  forall key r, rooms m !! key = Some r -> turnClockOk (Room.state r).

(** Two states with the same phase and the same deadline. *)
Definition sameClock (s s' : GameState) : Prop :=
  phase s' = phase s /\ turnEndsAt s' = turnEndsAt s.

(** The codes the loop of [createUniqueCode] draws in [n] rounds when
    each one is taken, and the generator after them. *)
Fixpoint drawn (n : nat) (rnd : Z) : list string * Z :=
  match n with
  | O => ([], rnd)
  | S n' =>
      let '(code, rnd) := Rng.randomCode rnd in
      let '(codes, rnd) := drawn n' rnd in
      (code :: codes, rnd)
  end.

(** The fallback code [createUniqueCode] builds from the generator [rnd]. *)
Definition fallbackCode (rnd : Z) : string :=
  padStart 5 "0"%char (decimal (Rng.floorScaled (Rng.next rnd).1 99999)).

(** A room as [createRoom] leaves it, waiting in the lobby under [code]. *)
Definition lobbyRoom (code : string) : Room.t :=
  setTankConnected
    (Room.mk code 0 0 A (createInitialState code 0 A)
       (Some (RoomPlayer.mk A "aaaaaaaaaaaaaaaaaaaaaaaa" (Some code) true))
       None ∅ NoTimer NoTimer NoTimer None 0 0)
    A true.



(** A room in which slot A is aiming, and a manager that holds it. *)
Definition aimingRoom : Room.t :=
  Room.mk "ABCDE" 7 7 B
    (mkGame "ABCDE" aiming A (Some 30000%Z) (flatTerrain 40 600 300) (mkWind 0)
            (mkTanks (sampleTank A 8 287 100) (sampleTank B 32 287 100))
            None None)
    (Some (RoomPlayer.mk A "aaaaaaaaaaaaaaaaaaaaaaaa" (Some "socket-a") true))
    (Some (RoomPlayer.mk B "bbbbbbbbbbbbbbbbbbbbbbbb" (Some "socket-b") true))
    ∅ Pending NoTimer NoTimer None 0 0.

Definition aimingManager : RoomManager :=
  mkManager {["ABCDE" := aimingRoom]}
            {["socket-a" := SocketBinding.mk "ABCDE" A;
              "socket-b" := SocketBinding.mk "ABCDE" B]} 0.

(** ** What holds of every room of the registry *)

(** The terrain of the world: 1000 columns, each a number within
    [180, 600]. *)
Definition terrainOk (t : TerrainState) : Prop :=
  width t = WORLD_WIDTH /\ height t = WORLD_HEIGHT /\
  length (heights t) = Z.to_nat WORLD_WIDTH /\
  filled 180 600 (heights t).

(** The column a tank is placed at. *)
Definition startColumn (s : PlayerSlot) : R :=
  match s with A => 180 | B => 820 end.

(** A tank of slot [s]: where it stands, and the ranges of its aim and
    health. *)
Definition tankOk (s : PlayerSlot) (k : TankState) : Prop :=
  slot k = s /\ x k = startColumn s /\
  MIN_ANGLE <= angleDeg k <= MAX_ANGLE /\ MIN_POWER <= power k <= MAX_POWER /\
  0 <= hp k <= STARTING_HP.

(** A tank that rests on the terrain. *)
Definition grounded (t : TerrainState) (k : TankState) : Prop :=
  y k = heightAt t (x k) - PHYSICS.tankRadius - 1.

(** Two tanks that differ in [connected] at most. *)
Definition sameBody (k k' : TankState) : Prop :=
  slot k' = slot k /\ x k' = x k /\ y k' = y k /\
  angleDeg k' = angleDeg k /\ power k' = power k /\ hp k' = hp k.

Definition worldOk (s : GameState) : Prop :=
  terrainOk (terrain s) /\
  (forall sl, tankOk sl (tank_of (tanks s) sl)) /\
  (forall sl, grounded (terrain s) (tank_of (tanks s) sl)).

(** A winner is recorded exactly at the end of a match, and both tanks
    are alive until then. *)
Definition outcomeOk (s : GameState) : Prop :=
  (is_Some (winnerSlot s) <-> phase s = match_end) /\
  (phase s <> match_end ->
   0 < hp (tankA (tanks s)) /\ 0 < hp (tankB (tanks s))).

Definition playerOk (s : PlayerSlot) (p : RoomPlayer.t) : Prop :=
  RoomPlayer.slot p = s /\
  (RoomPlayer.connected p = true <-> is_Some (RoomPlayer.socketId p)).

(** The room is stored under its own code, which its state repeats. *)
Definition idOk (key : string) (r : Room.t) : Prop :=
  Room.code r = key /\ roomCode (Room.state r) = key.

(** Every player sits in its own slot, and the tanks repeat which players
    are connected. *)
Definition playersOk (r : Room.t) : Prop :=
  (forall s p, Room.players r s = Some p -> playerOk s p) /\
  (forall s, connected (tank_of (tanks (Room.state r)) s) = playerConnected r s).

(** The simulation runs only while a projectile can fly, and a pause
    remembers a phase a match can resume in. *)
Definition flowOk (r : Room.t) : Prop :=
  outcomeOk (Room.state r) /\
  (Room.simulationTimer r = Pending ->
   phase (Room.state r) = projectile_flight \/ phase (Room.state r) = aiming) /\
  (forall snap, Room.pauseSnapshot r = Some snap ->
     PauseSnapshot.phaseBeforePause snap <> match_end /\
     PauseSnapshot.phaseBeforePause snap <> paused_reconnect).

Definition roomOk (key : string) (r : Room.t) : Prop :=
  idOk key r /\ playersOk r /\ worldOk (Room.state r) /\ flowOk r.

Definition roomsWf (m : RoomManager) : Prop :=
  forall key r, rooms m !! key = Some r -> roomOk key r.

(** The socket of the player in slot [s], if there is one. *)
Definition socketOf (r : Room.t) (s : PlayerSlot) : option string :=
  match Room.players r s with
  | Some p => RoomPlayer.socketId p
  | None => None
  end.

(** The socket of every player of the registry is bound to the room and
    the slot of that player. *)
Definition bindingsOk (m : RoomManager) : Prop :=
  forall key r s p sid,
    rooms m !! key = Some r -> Room.players r s = Some p ->
    RoomPlayer.socketId p = Some sid ->
    socketBindings m !! sid = Some (SocketBinding.mk key s).

(** The decimal digits. *)
Definition digits : list ascii := list_ascii_of_string "0123456789".

(** ** More states used as examples *)

(** A manager whose only room waits in the lobby for a second player. *)
Definition waitingManager : RoomManager :=
  mkManager {["ABCDE" := lobbyRoom "ABCDE"]}
            {["ABCDE" := SocketBinding.mk "ABCDE" A]} 0.

(** A room paused in slot A's turn while player B is away. *)
Definition pausedRoom : Room.t :=
  Room.mk "ABCDE" 7 7 B
    (mkGame "ABCDE" paused_reconnect A None (flatTerrain 40 600 300) (mkWind 0)
            (mkTanks (sampleTank A 8 287 100)
                     (set_connected (sampleTank B 32 287 100) false))
            None None)
    (Some (RoomPlayer.mk A "aaaaaaaaaaaaaaaaaaaaaaaa" (Some "socket-a") true))
    (Some (RoomPlayer.mk B "bbbbbbbbbbbbbbbbbbbbbbbb" None false))
    ∅ NoTimer Pending NoTimer
    (Some (PauseSnapshot.mk aiming (Some 12000%Z))) 0 0.

(** A room between two turns: slot A has shot, and the callback that
    starts the next turn has not run yet. *)
Definition roundEndRoom : Room.t :=
  Room.mk "ABCDE" 7 7 B
    (mkGame "ABCDE" round_end A None (flatTerrain 40 600 300) (mkWind 0)
            (mkTanks (sampleTank A 8 287 100) (sampleTank B 32 287 100))
            None None)
    (Some (RoomPlayer.mk A "aaaaaaaaaaaaaaaaaaaaaaaa" (Some "socket-a") true))
    (Some (RoomPlayer.mk B "bbbbbbbbbbbbbbbbbbbbbbbb" (Some "socket-b") true))
    ∅ NoTimer NoTimer NoTimer None 0 1.

(** * Properties *)

(** ** Comparisons, rounding and clamping *)

Lemma leb_true (a b : R) : (a <=? b) = true <-> a <= b.
Proof. unfold JsMath.leb. by rewrite bool_decide_eq_true. Qed.

Lemma leb_false (a b : R) : (a <=? b) = false <-> b < a.
Proof. unfold JsMath.leb. rewrite bool_decide_eq_false. lra. Qed.

Lemma ltb_true (a b : R) : (a <? b) = true <-> a < b.
Proof. unfold JsMath.ltb. by rewrite bool_decide_eq_true. Qed.

Lemma ltb_false (a b : R) : (a <? b) = false <-> b <= a.
Proof. unfold JsMath.ltb. rewrite bool_decide_eq_false. lra. Qed.

(** Decide every comparison of the goal from the hypotheses. *)
Ltac cmp :=
  repeat first
    [ rewrite (proj2 (leb_true _ _)) by lra
    | rewrite (proj2 (leb_false _ _)) by lra
    | rewrite (proj2 (ltb_true _ _)) by lra
    | rewrite (proj2 (ltb_false _ _)) by lra ];
  simpl.

Lemma round_eq (z : Z) (r : R) :
  IZR z - / 2 <= r < IZR z + / 2 -> JsMath.round r = z.
Proof. intros H. unfold JsMath.round. apply Zfloor_eq. lra. Qed.

Lemma round_IZR (z : Z) : JsMath.round (IZR z) = z.
Proof. apply round_eq. lra. Qed.

Lemma round_le (a b : R) : a <= b -> (JsMath.round a <= JsMath.round b)%Z.
Proof. intros H. unfold JsMath.round. apply Zfloor_le. lra. Qed.

Lemma round_between (lo hi : Z) (r : R) :
  IZR lo <= r <= IZR hi -> (lo <= JsMath.round r <= hi)%Z.
Proof.
  intros [Hlo Hhi]. split.
  - rewrite <- (round_IZR lo). by apply round_le.
  - rewrite <- (round_IZR hi). by apply round_le.
Qed.

Lemma clamp_between (n lo hi : R) : lo <= hi -> lo <= clamp n lo hi <= hi.
Proof.
  intros H. unfold clamp, Rmax, Rmin.
  repeat destruct (Rle_dec _ _); lra.
Qed.

Lemma clampZ_IZR (n lo hi : Z) :
  IZR (clampZ n lo hi) = clamp (IZR n) (IZR lo) (IZR hi).
Proof.
  unfold clampZ, clamp.
  destruct (Z.max_spec lo (Z.min hi n)) as [[H1 ->]|[H1 ->]];
  destruct (Z.min_spec hi n) as [[H2 H3]|[H2 H3]]; rewrite H3 in *;
  unfold Rmax, Rmin; repeat destruct (Rle_dec _ _);
  repeat match goal with
         | H : (_ < _)%Z |- _ => apply IZR_lt in H
         | H : (_ <= _)%Z |- _ => apply IZR_le in H
         end; try lra.
Qed.


(** ** The generator *)

Lemma next_word (t : Z) : (0 <= (Rng.next t).1 < 2 ^ 32)%Z.
Proof.
  unfold Rng.next, Rng.ushr, Rng.ToUint32. cbn [fst].
  rewrite Z.shiftr_0_r. apply Z.mod_pos_bound. lia.
Qed.

(** [Math.floor(random() * n)] is computed exactly on the integers. *)
Lemma floorScaled_floor (u n : Z) :
  JsMath.floor (Rng.value u * IZR n) = Rng.floorScaled u n.
Proof.
  unfold JsMath.floor, Rng.value, Rng.floorScaled. apply Zfloor_eq.
  pose proof (Z.div_mod (u * n) 4294967296 ltac:(lia)) as Hdm.
  pose proof (Z.mod_pos_bound (u * n) 4294967296 ltac:(lia)) as [Hr0 Hr1].
  set (q := (u * n / 4294967296)%Z) in *.
  set (r := (u * n mod 4294967296)%Z) in *.
  apply (f_equal IZR) in Hdm. rewrite plus_IZR, !mult_IZR in Hdm.
  apply IZR_le in Hr0. apply IZR_lt in Hr1.
  split.
  - apply (Rmult_le_reg_r 4294967296); [lra|].
    replace (IZR u / 4294967296 * IZR n * 4294967296) with (IZR u * IZR n) by lra.
    lra.
  - apply (Rmult_lt_reg_r 4294967296); [lra|].
    replace (IZR u / 4294967296 * IZR n * 4294967296) with (IZR u * IZR n) by lra.
    lra.
Qed.

(** ** C4: the winner of a round *)

(** C4. [resolveWinner] gives no winner while both tanks have positive
    health, the opponent of the last shooter when neither has, and the
    one tank with positive health otherwise. *)
Theorem resolveWinner_spec (state : GameState) (lastShooter : PlayerSlot) :
  let hpA := hp (tankA (tanks state)) in
  let hpB := hp (tankB (tanks state)) in
  (0 < hpA /\ 0 < hpB -> resolveWinner state lastShooter = None) /\
  (hpA <= 0 /\ hpB <= 0 ->
     resolveWinner state lastShooter = Some (oppositeSlot lastShooter)) /\
  (0 < hpA /\ hpB <= 0 -> resolveWinner state lastShooter = Some A) /\
  (hpA <= 0 /\ 0 < hpB -> resolveWinner state lastShooter = Some B).
Proof.
  intros hpA hpB. unfold resolveWinner. fold hpA hpB.
  repeat split; intros [Ha Hb]; by cmp.
Qed.

Lemma resolveWinner_spec_witness :
  resolveWinner
    (sampleState (flatTerrain 4 600 300) (sampleTank A 1 287 40)
       (sampleTank B 3 287 0) None) B = Some A.
Proof.
  apply (resolveWinner_spec
    (sampleState (flatTerrain 4 600 300) (sampleTank A 1 287 40)
       (sampleTank B 3 287 0) None) B).
  simpl. lra.
Defined.

(** ** C3, C8: blast damage *)

Lemma applyBlastDamage_unfold (state : GameState) (impact : Vector2) :
  applyBlastDamage state impact =
  (set_tanks state (mkTanks (blasted state impact A).1 (blasted state impact B).1),
   (blasted state impact A).2 ++ (blasted state impact B).2).
Proof.
  unfold applyBlastDamage, blasted, tankDistance. simpl.
  destruct state as [rc ph sl te tr wi [ta tb] pr ws]; simpl.
  set (dA := JsMath.hypot _ _). set (dB := JsMath.hypot _ _).
  destruct (Rle_dec dA PHYSICS.blastRadius) as [HA|HA];
  destruct (Rle_dec dB PHYSICS.blastRadius) as [HB|HB];
  cmp; unfold set_tanks; simpl.
  all: try (subst dB; cmp); try reflexivity.
Qed.

Lemma blastDamage_ge_1 (d : R) : 1 <= blastDamage d.
Proof. unfold blastDamage. apply Rmax_l. Qed.

Lemma blastDamage_antitone (d1 d2 : R) :
  d1 <= d2 -> blastDamage d2 <= blastDamage d1.
Proof.
  intros H. unfold blastDamage, PHYSICS.maxDamage, PHYSICS.blastRadius.
  apply Rle_max_compat_l, IZR_le, round_le. lra.
Qed.

Lemma blasted_within (state : GameState) (impact : Vector2) (s : PlayerSlot) :
  tankDistance state impact s <= PHYSICS.blastRadius ->
  blasted state impact s =
  let tank := tank_of (tanks state) s in
  let damage := blastDamage (tankDistance state impact s) in
  (set_hp tank (Rmax 0 (hp tank - damage)),
   [mkDamage s damage (Rmax 0 (hp tank - damage))]).
Proof. intros H. unfold blasted. by cmp. Qed.


Lemma blasted_slot (state : GameState) (impact : Vector2) (s : PlayerSlot) :
  Forall (fun r => dmg_slot r = s) (blasted state impact s).2.
Proof.
  unfold blasted. destruct (_ <=? _); simpl; repeat constructor.
Qed.

Lemma filter_all {X} (P : X -> Prop) `{!forall a, Decision (P a)} (l : list X) :
  Forall P l -> filter P l = l.
Proof.
  induction 1 as [|a l Ha _ IH]; [done|].
  by rewrite filter_cons_True, IH.
Qed.

Lemma filter_none {X} (P : X -> Prop) `{!forall a, Decision (P a)} (l : list X) :
  Forall (fun a => ~ P a) l -> filter P l = [].
Proof.
  induction 1 as [|a l Ha _ IH]; [done|].
  by rewrite filter_cons_False, IH.
Qed.

Lemma results_of_slot (state : GameState) (impact : Vector2) (s : PlayerSlot) :
  filter (fun r => dmg_slot r = s) (applyBlastDamage state impact).2 =
  (blasted state impact s).2.
Proof.
  rewrite applyBlastDamage_unfold. simpl. rewrite filter_app.
  pose proof (blasted_slot state impact A) as HA.
  pose proof (blasted_slot state impact B) as HB.
  destruct s.
  - rewrite (filter_all _ _ HA), (filter_none _ (blasted state impact B).2).
    + by rewrite app_nil_r.
    + eapply Forall_impl; [exact HB|]. simpl. congruence.
  - rewrite (filter_all _ _ HB), (filter_none _ (blasted state impact A).2).
    + done.
    + eapply Forall_impl; [exact HA|]. simpl. congruence.
Qed.

Lemma tank_after_blast (state : GameState) (impact : Vector2) (s : PlayerSlot) :
  tank_of (tanks (applyBlastDamage state impact).1) s =
  (blasted state impact s).1.
Proof. rewrite applyBlastDamage_unfold. by destruct s. Qed.



Lemma hypot_axis (a : R) : 0 <= a -> JsMath.hypot a 0 = a.
Proof.
  intros H. unfold JsMath.hypot. replace (a * a + 0 * 0) with (a * a) by lra.
  by apply sqrt_square.
Qed.

(** Tanks 83 and 84 away from an impact at the origin. *)
Lemma blast_83_84 :
  let state := sampleState (flatTerrain 200 600 13)
                 (sampleTank A 83 0 100) (sampleTank B 84 0 100) None in
  let impact := mkVector2 0 0 in
  tankDistance state impact A < tankDistance state impact B /\
  tankDistance state impact B <= PHYSICS.blastRadius /\
  (applyBlastDamage state impact).2 = [mkDamage A 1 99; mkDamage B 1 99].
Proof.
  intros state impact.
  assert (HA : tankDistance state impact A = 83).
  { unfold tankDistance. simpl. rewrite !Rminus_0_r. apply hypot_axis. lra. }
  assert (HB : tankDistance state impact B = 84).
  { unfold tankDistance. simpl. rewrite !Rminus_0_r. apply hypot_axis. lra. }
  assert (H1 : blastDamage 83 = 1).
  { unfold blastDamage, PHYSICS.maxDamage, PHYSICS.blastRadius.
    rewrite (round_eq 1) by lra. apply Rmax_left. lra. }
  assert (H2 : blastDamage 84 = 1).
  { unfold blastDamage, PHYSICS.maxDamage, PHYSICS.blastRadius.
    rewrite (round_eq 0) by lra. apply Rmax_left. lra. }
  rewrite HA, HB. unfold PHYSICS.blastRadius.
  split; [lra|]. split; [lra|].
  rewrite applyBlastDamage_unfold. simpl.
  rewrite !blasted_within by (rewrite ?HA, ?HB; unfold PHYSICS.blastRadius; lra).
  simpl. rewrite HA, HB, H1, H2.
  replace (100 - 1) with 99 by lra. by rewrite Rmax_right by lra.
Qed.

(** C8, as stated, fails: with the impact at the origin, a tank 83 away
    and a tank 84 away are both within the blast radius, the first is
    strictly nearer, yet both take 1 damage. *)
Lemma blast_damage_not_strict :
  let state := sampleState (flatTerrain 200 600 13)
                 (sampleTank A 83 0 100) (sampleTank B 84 0 100) None in
  let impact := mkVector2 0 0 in
  tankDistance state impact A < tankDistance state impact B /\
  tankDistance state impact B <= PHYSICS.blastRadius /\
  (applyBlastDamage state impact).2 = [mkDamage A 1 99; mkDamage B 1 99] /\
  ~ amount (mkDamage B 1 99) < amount (mkDamage A 1 99).
Proof.
  destruct blast_83_84 as (H1 & H2 & H3). repeat split; try done. simpl. lra.
Qed.

(** C8, amended. When both tanks are within [blastRadius] of the impact
    and one is at most as far from it as the other, the nearer one is
    assigned at least as much damage as the farther one; every amount
    assigned is at least 1. *)
Theorem blast_damage_monotone (state : GameState) (impact : Vector2) :
  let results := (applyBlastDamage state impact).2 in
  (forall (near far : PlayerSlot) (rn rf : DamageResult),
     tankDistance state impact near <= PHYSICS.blastRadius ->
     tankDistance state impact far <= PHYSICS.blastRadius ->
     tankDistance state impact near <= tankDistance state impact far ->
     rn ∈ results -> dmg_slot rn = near ->
     rf ∈ results -> dmg_slot rf = far ->
     amount rf <= amount rn) /\
  Forall (fun r => 1 <= amount r) results.
Proof.
  intros results. split.
  - intros near far rn rf Hn Hf Hle Hrn Hsn Hrf Hsf.
    assert (Hin : forall s r, tankDistance state impact s <= PHYSICS.blastRadius ->
              r ∈ results -> dmg_slot r = s ->
              amount r = blastDamage (tankDistance state impact s)).
    { intros s r Hs Hr Hsl.
      assert (Hr' : r ∈ filter (fun r => dmg_slot r = s) results)
        by (apply list_elem_of_filter; done).
      subst results. rewrite results_of_slot, blasted_within in Hr' by done.
      simpl in Hr'. apply list_elem_of_singleton in Hr'. by subst r. }
    rewrite (Hin near rn), (Hin far rf) by done.
    by apply blastDamage_antitone.
  - subst results. rewrite applyBlastDamage_unfold. simpl.
    apply Forall_app. split.
    + unfold blasted. destruct (_ <=? _); simpl; [|constructor].
      constructor; [|constructor]. simpl. apply blastDamage_ge_1.
    + unfold blasted. destruct (_ <=? _); simpl; [|constructor].
      constructor; [|constructor]. simpl. apply blastDamage_ge_1.
Qed.

Lemma blast_damage_monotone_witness :
  let state := sampleState (flatTerrain 200 600 13)
                 (sampleTank A 83 0 100) (sampleTank B 84 0 100) None in
  let impact := mkVector2 0 0 in
  amount (mkDamage B 1 99) <= amount (mkDamage A 1 99).
Proof.
  intros state impact.
  destruct blast_83_84 as (Hlt & HB & Hres).
  fold state impact in Hlt, HB, Hres.
  apply (proj1 (blast_damage_monotone state impact) A B); try done.
  - lra.
  - lra.
  - rewrite Hres. apply list_elem_of_here.
  - rewrite Hres. apply list_elem_of_further, list_elem_of_here.
Defined.

(** ** C1: one step of the projectile *)



(** ** Arrays *)

Lemma get_negative (a : JsArray.t) (i : Z) : (i < 0)%Z -> JsArray.get a i = None.
Proof. intros H. unfold JsArray.get. by rewrite (proj2 (Z.ltb_lt _ _)). Qed.

Lemma get_lookup (a : JsArray.t) (i : Z) :
  (0 <= i)%Z -> JsArray.get a i = mjoin (a !! Z.to_nat i).
Proof. intros H. unfold JsArray.get. by rewrite (proj2 (Z.ltb_ge _ _)). Qed.

Lemma get_beyond (a : JsArray.t) (i : Z) :
  (Z.of_nat (length a) <= i)%Z -> JsArray.get a i = None.
Proof.
  intros H. rewrite get_lookup by lia.
  rewrite lookup_ge_None_2; [done|lia].
Qed.

Lemma length_set (a : JsArray.t) (i : Z) (v : R) :
  (0 <= i)%Z ->
  length (JsArray.set a i v) = (length a `max` S (Z.to_nat i))%nat.
Proof.
  intros H. unfold JsArray.set. rewrite (proj2 (Z.ltb_ge _ _)) by done.
  by rewrite length_insert, length_resize.
Qed.

Lemma length_set_inside (a : JsArray.t) (i : Z) (v : R) :
  (0 <= i < Z.of_nat (length a))%Z -> length (JsArray.set a i v) = length a.
Proof. intros H. rewrite length_set by lia. lia. Qed.

Lemma get_set_same (a : JsArray.t) (i : Z) (v : R) :
  (0 <= i)%Z -> JsArray.get (JsArray.set a i v) i = Some v.
Proof.
  intros H. rewrite get_lookup by done. unfold JsArray.set.
  rewrite (proj2 (Z.ltb_ge _ _)) by done.
  rewrite list_lookup_insert_eq; [done|]. rewrite length_resize. lia.
Qed.

Lemma get_set_other (a : JsArray.t) (i j : Z) (v : R) :
  j <> i -> JsArray.get (JsArray.set a i v) j = JsArray.get a j.
Proof.
  intros Hne. unfold JsArray.set.
  destruct (Z.ltb_spec i 0) as [Hi|Hi]; [done|].
  destruct (Z.ltb_spec j 0) as [Hj|Hj]; [by rewrite !get_negative|].
  rewrite !get_lookup by done.
  rewrite list_lookup_insert_ne by lia.
  set (n := (length a `max` S (Z.to_nat i))%nat).
  destruct (decide (Z.to_nat j < length a)%nat) as [Hin|Hout].
  - rewrite lookup_resize; [done|lia|done].
  - rewrite (lookup_ge_None_2 a) by lia.
    destruct (decide (Z.to_nat j < n)%nat).
    + rewrite lookup_resize_new; [done|lia|done].
    + rewrite lookup_resize_old; [done|lia].
Qed.

(** A loop whose body at column [c] writes at most entry [c], with a
    value that depends on entry [c] alone. *)
Section PointwiseLoop.

Variable body : JsArray.t -> Z -> JsArray.t.
Variable update : Z -> option R -> option R.

Hypothesis body_same :
  forall a c, (0 <= c)%Z -> JsArray.get (body a c) c = update c (JsArray.get a c).
Hypothesis body_other :
  forall a c j, j <> c -> JsArray.get (body a c) j = JsArray.get a j.

Lemma loop_get (cols : list Z) (a : JsArray.t) (j : Z) :
  NoDup cols -> Forall (fun c => 0 <= c)%Z cols ->
  JsArray.get (foldl body a cols) j =
  if decide (j ∈ cols) then update j (JsArray.get a j) else JsArray.get a j.
Proof.
  intros Hnd. revert a. induction Hnd as [|c cols Hc Hnd IH]; intros a Hpos.
  - simpl. destruct (decide (j ∈ [])) as [Hin|_]; [|done].
    by apply not_elem_of_nil in Hin.
  - apply Forall_cons in Hpos as [Hc0 Hpos]. simpl. rewrite IH by done.
    destruct (decide (j = c)) as [->|Hne].
    + destruct (decide (c ∈ cols)) as [|_]; [done|].
      destruct (decide (c ∈ c :: cols)) as [_|Hout]; [by apply body_same|].
      destruct Hout. apply list_elem_of_here.
    + rewrite body_other by done.
      destruct (decide (j ∈ cols)) as [Hin|Hout];
      destruct (decide (j ∈ c :: cols)) as [Hin'|Hout']; try done.
      * destruct Hout'. by apply list_elem_of_further.
      * apply elem_of_cons in Hin' as [?|?]; done.
Qed.

End PointwiseLoop.

(** ** C5: cratering *)

Lemma deformColumn_same (h : Z) (impact : Vector2) (a : JsArray.t) (c : Z) :
  (0 <= c)%Z ->
  JsArray.get (deformColumn h impact a c) c =
  columnAfter h impact c (JsArray.get a c).
Proof.
  intros Hc. unfold deformColumn, columnAfter.
  destruct (_ <? _); [by apply get_set_same|done].
Qed.

Lemma deformColumn_other (h : Z) (impact : Vector2) (a : JsArray.t) (c j : Z) :
  j <> c -> JsArray.get (deformColumn h impact a c) j = JsArray.get a j.
Proof.
  intros Hne. unfold deformColumn.
  destruct (_ <? _); [by apply get_set_other|done].
Qed.

Lemma craterColumns_elem (t : TerrainState) (impact : Vector2) (j : Z) :
  j ∈ craterColumns t impact <->
  (clampZ (JsMath.floor (vec_x impact - PHYSICS.craterRadius)) 0 (width t - 1)
     <= j <=
   clampZ (JsMath.ceil (vec_x impact + PHYSICS.craterRadius)) 0 (width t - 1))%Z.
Proof. unfold craterColumns. rewrite elem_of_seqZ. lia. Qed.

Lemma craterColumns_nonneg (t : TerrainState) (impact : Vector2) :
  Forall (fun c => 0 <= c)%Z (craterColumns t impact).
Proof.
  apply Forall_forall. intros j [Hj _]%craterColumns_elem.
  unfold clampZ in Hj. lia.
Qed.

Lemma deformTerrain_get (state : GameState) (impact : Vector2) (j : Z) :
  JsArray.get (heights (terrain (deformTerrain state impact))) j =
  if decide (j ∈ craterColumns (terrain state) impact)
  then columnAfter (height (terrain state)) impact j
         (JsArray.get (heights (terrain state)) j)
  else JsArray.get (heights (terrain state)) j.
Proof.
  unfold deformTerrain. simpl.
  apply (loop_get _ (columnAfter (height (terrain state)) impact)).
  - intros a c Hc. by apply deformColumn_same.
  - intros a c k Hne. by apply deformColumn_other.
  - apply NoDup_seqZ.
  - apply craterColumns_nonneg.
Qed.

Lemma columnAfter_raises (h : Z) (impact : Vector2) (j : Z) (e : option R) :
  (forall v, e = Some v -> v <= IZR h) ->
  default (IZR h) e <= default (IZR h) (columnAfter h impact j e).
Proof.
  intros Hle. unfold columnAfter.
  set (target := JsMath.round _).
  destruct (Rlt_dec (default (IZR h) e) (IZR target)) as [Hlt|Hge]; cmp; [|lra].
  assert (Hcap : default (IZR h) e <= IZR h).
  { destruct e as [v|]; simpl; [by apply Hle|lra]. }
  rewrite clampZ_IZR. unfold clamp, Rmax, Rmin.
  repeat destruct (Rle_dec _ _); lra.
Qed.

(** C5, amended.  Provided no stored height exceeds the world height,
    [deformTerrain] lowers no column: every column's height after the call
    is at least its height before.  A column outside the range of columns
    the loop visits is unchanged; for an impact whose x lies in
    [0, width - 1] these include every column at distance
    [craterRadius + 1] or more from the impact's x.  Nothing but the
    heights changes. *)
Theorem deformTerrain_monotone (state : GameState) (impact : Vector2) :
  let t := terrain state in
  let t' := terrain (deformTerrain state impact) in
  let start :=
    clampZ (JsMath.floor (vec_x impact - PHYSICS.craterRadius)) 0 (width t - 1) in
  let end_ :=
    clampZ (JsMath.ceil (vec_x impact + PHYSICS.craterRadius)) 0 (width t - 1) in
  ((forall j v, JsArray.get (heights t) j = Some v -> v <= IZR (height t)) ->
   forall j, columnHeight t j <= columnHeight t' j) /\
  (forall j, (j < start \/ end_ < j)%Z ->
     JsArray.get (heights t') j = JsArray.get (heights t) j) /\
  (0 <= vec_x impact <= IZR (width t) - 1 ->
   forall j, PHYSICS.craterRadius + 1 <= Rabs (IZR j - vec_x impact) ->
     JsArray.get (heights t') j = JsArray.get (heights t) j) /\
  deformTerrain state impact = set_terrain state (set_heights t (heights t')).
Proof.
  intros t t' start end_.
  assert (Hout : forall j, (j < start \/ end_ < j)%Z ->
            JsArray.get (heights t') j = JsArray.get (heights t) j).
  { intros j Hj. subst t'. rewrite deformTerrain_get.
    destruct (decide _) as [Hin|_]; [|done].
    apply craterColumns_elem in Hin. fold t start end_ in Hin. lia. }
  split; [|split; [exact Hout|split; [|reflexivity]]].
  - intros Hcap j. unfold columnHeight. subst t'. rewrite deformTerrain_get.
    change (height (terrain (deformTerrain state impact))) with (height t).
    destruct (decide _) as [_|_]; [|fold t; lra].
    apply columnAfter_raises. intros v. apply Hcap.
  - intros [Hx0 Hxw] j Hfar. apply Hout.
    subst start end_. unfold clampZ, JsMath.floor, JsMath.ceil.
    pose proof (Zfloor_bound (vec_x impact - PHYSICS.craterRadius)) as Hf.
    pose proof (Zceil_bound (vec_x impact + PHYSICS.craterRadius)) as Hc.
    set (f := Zfloor _) in *. set (c := Zceil _) in *.
    unfold PHYSICS.craterRadius in *.
    rewrite <- minus_IZR in Hxw.
    destruct (Rcase_abs (IZR j - vec_x impact)) as [Hneg|Hpos].
    + rewrite (Rabs_left _ Hneg) in Hfar. left.
      assert (j < f)%Z by (apply lt_IZR; lra).
      assert (j < width t - 1)%Z by (apply lt_IZR; lra).
      lia.
    + rewrite (Rabs_right _ Hpos) in Hfar. right.
      assert (c < j)%Z by (apply lt_IZR; lra).
      assert (0 < j)%Z by (apply lt_IZR; lra).
      lia.
Qed.

Lemma get_flat (n : nat) (level : R) (j : Z) (v : R) :
  JsArray.get (replicate n (Some level)) j = Some v -> v = level.
Proof.
  unfold JsArray.get. destruct (_ <? _)%Z; [done|].
  destruct (replicate n (Some level) !! Z.to_nat j) as [e|] eqn:He; [|done].
  apply lookup_replicate in He as [-> _]. simpl. congruence.
Qed.

Lemma floor_eq (z : Z) (r : R) : IZR z <= r < IZR z + 1 -> JsMath.floor r = z.
Proof. apply Zfloor_eq. Qed.

Lemma ceil_eq (z : Z) (r : R) : IZR z - 1 < r <= IZR z -> JsMath.ceil r = z.
Proof.
  intros H. unfold JsMath.ceil, Zceil.
  rewrite (Zfloor_eq (- z)); [lia|]. rewrite opp_IZR. lra.
Qed.

Lemma crater_on_stepTerrain :
  let state := sampleState stepTerrain (sampleTank A 8 287 100)
                 (sampleTank B 32 287 100) None in
  JsArray.get (heights (terrain (deformTerrain state (mkVector2 (73 / 2) 300)))) 0
  = Some 300.
Proof.
  intros state. rewrite deformTerrain_get.
  destruct (decide _) as [_|Hout].
  - unfold columnAfter, PHYSICS.craterRadius. simpl.
    rewrite Rmax_left by lra. rewrite sqrt_0.
    rewrite (round_eq 300) by lra. by cmp.
  - destruct Hout. apply craterColumns_elem. simpl.
    unfold PHYSICS.craterRadius.
    rewrite (floor_eq 0), (ceil_eq 73) by lra. unfold clampZ. lia.
Qed.

Lemma crater_on_deepTerrain :
  let state := sampleState deepTerrain (sampleTank A 0 687 100)
                 (sampleTank B 0 687 100) None in
  JsArray.get (heights (terrain (deformTerrain state (mkVector2 0 800)))) 0
  = Some 600.
Proof.
  intros state. rewrite deformTerrain_get.
  destruct (decide _) as [_|Hout].
  - unfold columnAfter, PHYSICS.craterRadius. simpl.
    replace (36 * 36 - (0 - 0) * (0 - 0)) with (36 * 36) by lra.
    rewrite Rmax_right by lra. rewrite sqrt_square by lra.
    rewrite (round_eq 836) by lra. by cmp.
  - destruct Hout. apply craterColumns_elem. simpl.
    unfold PHYSICS.craterRadius.
    rewrite (floor_eq (-36)), (ceil_eq 36) by lra. unfold clampZ. lia.
Qed.

Lemma crater_from_outside :
  let state := sampleState stepTerrain (sampleTank A 8 287 100)
                 (sampleTank B 32 287 100) None in
  JsArray.get (heights (terrain (deformTerrain state (mkVector2 (-100) 300)))) 0
  = Some 300.
Proof.
  intros state. rewrite deformTerrain_get.
  destruct (decide _) as [_|Hout].
  - unfold columnAfter, PHYSICS.craterRadius. simpl.
    rewrite Rmax_left by lra. rewrite sqrt_0.
    rewrite (round_eq 300) by lra. by cmp.
  - destruct Hout. apply craterColumns_elem. simpl.
    unfold PHYSICS.craterRadius.
    rewrite (floor_eq (-136)), (ceil_eq (-64)) by lra. unfold clampZ. lia.
Qed.

(** C5, as stated, fails.  On [stepTerrain], column 0 is 36.5 away from
    an impact at x = 36.5, farther than [craterRadius], and its height
    changes from 200 to 300; it does so too for an impact at x = -100,
    left of the world.  On [deepTerrain], column 0 goes from 700 down to
    600. *)
Lemma deformTerrain_not_as_claimed :
  (let state := sampleState stepTerrain (sampleTank A 8 287 100)
                  (sampleTank B 32 287 100) None in
   let impact := mkVector2 (73 / 2) 300 in
   PHYSICS.craterRadius < Rabs (IZR 0 - vec_x impact) /\
   JsArray.get (heights (terrain state)) 0 = Some 200 /\
   JsArray.get (heights (terrain (deformTerrain state impact))) 0 = Some 300 /\
   Some 300 <> Some 200) /\
  (let state := sampleState stepTerrain (sampleTank A 8 287 100)
                  (sampleTank B 32 287 100) None in
   let impact := mkVector2 (-100) 300 in
   PHYSICS.craterRadius + 1 <= Rabs (IZR 0 - vec_x impact) /\
   JsArray.get (heights (terrain state)) 0 = Some 200 /\
   JsArray.get (heights (terrain (deformTerrain state impact))) 0 = Some 300) /\
  (let state := sampleState deepTerrain (sampleTank A 0 687 100)
                  (sampleTank B 0 687 100) None in
   let impact := mkVector2 0 800 in
   columnHeight (terrain state) 0 = 700 /\
   columnHeight (terrain (deformTerrain state impact)) 0 = 600 /\
   600 < 700).
Proof.
  split; [|split].
  - intros state impact. split; [|split; [done|split]].
    + simpl. unfold PHYSICS.craterRadius. rewrite Rabs_left; lra.
    + apply crater_on_stepTerrain.
    + intros [=]. lra.
  - intros state impact. split; [|split; [done|]].
    + simpl. unfold PHYSICS.craterRadius. rewrite Rabs_right; lra.
    + apply crater_from_outside.
  - intros state impact. split; [done|split; [|lra]].
    unfold columnHeight. subst state impact. by rewrite crater_on_deepTerrain.
Qed.

Lemma deformTerrain_monotone_witness :
  let state := sampleState (flatTerrain 40 600 300) (sampleTank A 8 287 100)
                 (sampleTank B 32 287 100) None in
  columnHeight (terrain state) 20
  <= columnHeight (terrain (deformTerrain state (mkVector2 20 300))) 20.
Proof.
  intros state.
  apply (proj1 (deformTerrain_monotone state (mkVector2 20 300))).
  intros j v Hv. apply get_flat in Hv. subst v. simpl. lra.
Defined.

(** ** C10: terrain reads stay inside the array *)




Lemma deformColumn_length (h : Z) (impact : Vector2) (a : JsArray.t) (c : Z) :
  (0 <= c < Z.of_nat (length a))%Z ->
  length (deformColumn h impact a c) = length a.
Proof.
  intros Hc. unfold deformColumn.
  destruct (_ <? _); [by apply length_set_inside|done].
Qed.

Lemma deformTerrain_length (state : GameState) (impact : Vector2) :
  (1 <= width (terrain state))%Z ->
  length (heights (terrain state)) = Z.to_nat (width (terrain state)) ->
  length (heights (terrain (deformTerrain state impact)))
  = length (heights (terrain state)).
Proof.
  intros Hw Hlen. unfold deformTerrain. simpl.
  assert (Hin : Forall (fun c => 0 <= c < Z.of_nat (length (heights (terrain state))))%Z
                  (craterColumns (terrain state) impact)).
  { apply Forall_forall. intros c Hc%craterColumns_elem.
    unfold clampZ in Hc. lia. }
  revert Hin. generalize (craterColumns (terrain state) impact).
  generalize (heights (terrain state)).
  intros a cols. revert a. induction cols as [|c cols IH]; intros a Hin; [done|].
  apply Forall_cons in Hin as [Hc Hin]. simpl.
  rewrite IH; rewrite deformColumn_length; done.
Qed.



(** ** C2: terrain generation *)

Lemma loop_length (body : JsArray.t -> Z -> JsArray.t) (n : nat) :
  (forall a c, length a = n -> (0 <= c < Z.of_nat n)%Z -> length (body a c) = n) ->
  forall cols a,
    length a = n -> Forall (fun c => 0 <= c < Z.of_nat n)%Z cols ->
    length (foldl body a cols) = n.
Proof.
  intros Hbody cols. induction cols as [|c cols IH]; intros a Ha Hin; [done|].
  apply Forall_cons in Hin as [Hc Hin]. simpl. apply IH; [|done].
  by apply Hbody.
Qed.

Lemma filled_Forall (lo hi : R) (a : JsArray.t) :
  filled lo hi a -> Forall (fun e => exists v, e = Some v /\ lo <= v <= hi) a.
Proof.
  intros Hf. apply Forall_lookup. intros i e He.
  destruct (Hf (Z.of_nat i)) as (v & Hv & Hb).
  { apply lookup_lt_Some in He. lia. }
  rewrite get_lookup, Nat2Z.id, He in Hv by lia. simpl in Hv.
  exists v. by subst e.
Qed.

Lemma first_loop_filled (f : Z -> R) (lo hi : R) (w : Z) :
  (0 <= w)%Z -> (forall x, lo <= f x <= hi) ->
  let a := foldl (fun hs x => JsArray.set hs x (f x))
                 (JsArray.make (Z.to_nat w)) (seqZ 0 w) in
  length a = Z.to_nat w /\ filled lo hi a.
Proof.
  intros Hw Hf a.
  assert (Hlen : length a = Z.to_nat w).
  { apply loop_length.
    - intros b c Hb Hc. rewrite length_set_inside; [done|lia].
    - unfold JsArray.make. by rewrite length_replicate.
    - apply Forall_forall. intros c Hc%elem_of_seqZ. lia. }
  split; [done|]. intros j Hj. exists (f j). split; [|done].
  subst a.
  rewrite (loop_get (fun hs x => JsArray.set hs x (f x)) (fun x _ => Some (f x))).
  - destruct (decide _) as [_|Hout]; [done|].
    destruct Hout. apply elem_of_seqZ. lia.
  - intros b c Hc. by apply get_set_same.
  - intros b c k Hne. by apply get_set_other.
  - apply NoDup_seqZ.
  - apply Forall_forall. intros c Hc%elem_of_seqZ. lia.
Qed.

Lemma smoothAt_length (base : R) (a : JsArray.t) (x : Z) :
  (0 <= x < Z.of_nat (length a))%Z -> length (smoothAt base a x) = length a.
Proof. intros Hx. unfold smoothAt. by apply length_set_inside. Qed.

Lemma smoothAt_filled (base : R) (lo hi : Z) (a : JsArray.t) (x : Z) :
  (0 <= x < Z.of_nat (length a))%Z ->
  filled (IZR lo) (IZR hi) a -> filled (IZR lo) (IZR hi) (smoothAt base a x).
Proof.
  intros Hx Hf j Hj. rewrite smoothAt_length in Hj by done.
  destruct (decide (j = x)) as [->|Hne].
  - unfold smoothAt. rewrite get_set_same by lia.
    eexists. split; [done|].
    destruct (Hf x Hx) as (c & Hc & Hcb). rewrite Hc. simpl.
    assert (Hp : exists p, default c (JsArray.get a (x - 1)) = p
                           /\ IZR lo <= p <= IZR hi).
    { destruct (decide (0 <= x - 1)%Z) as [Hin|Hout].
      - destruct (Hf (x - 1)%Z) as (p & -> & Hpb); [lia|]. by exists p.
      - rewrite get_negative by lia. by exists c. }
    assert (Hn : exists n, default c (JsArray.get a (x + 1)) = n
                           /\ IZR lo <= n <= IZR hi).
    { destruct (decide (x + 1 < Z.of_nat (length a))%Z) as [Hin|Hout].
      - destruct (Hf (x + 1)%Z) as (n & -> & Hnb); [lia|]. by exists n.
      - rewrite get_beyond by lia. by exists c. }
    destruct Hp as (p & -> & Hpb). destruct Hn as (n & -> & Hnb).
    assert (Hr : (lo <= JsMath.round ((p + c + n) / 3) <= hi)%Z)
      by (apply round_between; lra).
    split; apply IZR_le; lia.
  - unfold smoothAt. rewrite get_set_other by done. apply Hf. lia.
Qed.

Lemma smoothing_filled (base : R) (lo hi : Z) (cols : list Z) (a : JsArray.t) :
  Forall (fun c => 0 <= c < Z.of_nat (length a))%Z cols ->
  filled (IZR lo) (IZR hi) a ->
  length (foldl (smoothAt base) a cols) = length a /\
  filled (IZR lo) (IZR hi) (foldl (smoothAt base) a cols).
Proof.
  revert a. induction cols as [|c cols IH]; intros a Hin Hf; [done|].
  apply Forall_cons in Hin as [Hc Hin]. simpl.
  destruct (IH (smoothAt base a c)) as [Hlen Hfil].
  - by rewrite smoothAt_length.
  - by apply smoothAt_filled.
  - split; [|done]. by rewrite Hlen, smoothAt_length.
Qed.

Lemma waveHeight_bounds (seed : R) (h x : Z) :
  (JsMath.round (IZR h * (3 / 10)) <= h - 20)%Z ->
  IZR (JsMath.round (IZR h * (3 / 10))) <= waveHeight seed h x <= IZR (h - 20).
Proof.
  intros Hh. unfold waveHeight. rewrite minus_IZR.
  apply clamp_between. apply IZR_le in Hh. by rewrite minus_IZR in Hh.
Qed.

(** C2, amended.  For every seed, every [width] that is a valid array
    length and every [height] with [round(0.3 * height) <= height - 20],
    [generateTerrain] returns an array of [width] entries, each a number
    within [round(0.3 * height), height - 20], hence within
    [0.3 * height, height - 20] when [0.3 * height] does not round down
    (as for the world, 600 high); the same arguments give the same
    array. *)
Theorem generateTerrain_bounds (seed : R) (w h : Z) :
  (0 <= w < 2 ^ 32)%Z -> (JsMath.round (IZR h * (3 / 10)) <= h - 20)%Z ->
  exists t,
    generateTerrain seed w h = Some t /\
    width t = w /\ height t = h /\ length (heights t) = Z.to_nat w /\
    Forall (fun e => exists v, e = Some v /\
              IZR (JsMath.round (IZR h * (3 / 10))) <= v <= IZR h - 20)
           (heights t) /\
    (IZR h * (3 / 10) <= IZR (JsMath.round (IZR h * (3 / 10))) ->
     Forall (fun e => exists v, e = Some v /\
               IZR h * (3 / 10) <= v <= IZR h - 20) (heights t)) /\
    (forall seed', seed' = seed -> generateTerrain seed' w h = Some t).
Proof.
  intros Hw Hh. unfold generateTerrain.
  rewrite bool_decide_eq_true_2 by done.
  eexists. split; [done|]. simpl.
  destruct (first_loop_filled (waveHeight seed h)
              (IZR (JsMath.round (IZR h * (3 / 10)))) (IZR (h - 20)) w)
    as [Hlen Hfil]; [lia|by intros; apply waveHeight_bounds|].
  set (a := foldl _ (JsArray.make _) _) in *.
  destruct (smoothing_filled (IZR h * (62 / 100))
              (JsMath.round (IZR h * (3 / 10))) (h - 20) (seqZ 1 (w - 2)) a)
    as [Hlen' Hfil'].
  { apply Forall_forall. intros c Hc%elem_of_seqZ. lia. }
  { done. }
  apply filled_Forall in Hfil'. rewrite minus_IZR in Hfil'.
  split; [done|]. split; [done|]. split; [lia|]. split; [done|]. split.
  - intros Hlo. eapply Forall_impl; [exact Hfil'|].
    intros e (v & -> & Hv). exists v. split; [done|]. lra.
  - by intros seed' ->.
Qed.

Lemma waveHeight_20 (seed : R) (x : Z) : waveHeight seed 20 x = 6.
Proof.
  unfold waveHeight, clamp.
  replace (20 * (3 / 10)) with (IZR 6) by lra. rewrite round_IZR.
  apply Rmax_left. etransitivity; [apply Rmin_l|lra].
Qed.

Lemma terrain_3_20 :
  generateTerrain 0 3 20 = Some (mkTerrain 3 20 [Some 6; Some 6; Some 6]).
Proof.
  unfold generateTerrain. rewrite bool_decide_eq_true_2 by lia.
  do 2 f_equal.
  change (seqZ 0 3) with [0; 1; 2]%Z. change (seqZ 1 (3 - 2)) with [1%Z].
  cbn [foldl]. rewrite !waveHeight_20.
  change (JsArray.set (JsArray.set (JsArray.set (JsArray.make (Z.to_nat 3))
            0 6) 1 6) 2 6) with [Some 6; Some 6; Some 6].
  unfold smoothAt.
  change (JsArray.get [Some 6; Some 6; Some 6] 1) with (Some 6).
  change (JsArray.get [Some 6; Some 6; Some 6] (1 - 1)) with (Some 6).
  change (JsArray.get [Some 6; Some 6; Some 6] (1 + 1)) with (Some 6).
  cbn [default from_option]. unfold Datatypes.id. rewrite (round_eq 6) by lra. reflexivity.
Qed.

Lemma sin_lower_bound : / 2 <= sin (5439 / 10000).
Proof.
  assert (Hpi : 3 < PI) by (pose proof PI2_3_2; lra).
  destruct (SIN (5439 / 10000)) as [Hlb _]; [lra|lra|].
  eapply Rle_trans; [|exact Hlb].
  unfold sin_lb, sin_approx, sin_term. cbn [sum_f_R0 Nat.mul Nat.add].
  rewrite !INR_IZR_INZ.
  replace (Z.of_nat (fact 1)) with 1%Z by (vm_compute; reflexivity).
  replace (Z.of_nat (fact 3)) with 6%Z by (vm_compute; reflexivity).
  replace (Z.of_nat (fact 5)) with 120%Z by (vm_compute; reflexivity).
  replace (Z.of_nat (fact 7)) with 5040%Z by (vm_compute; reflexivity).
  cbn [pow]. lra.
Qed.

Lemma waveHeight_31 : waveHeight (-70) 31 0 = 9.
Proof.
  assert (Hpi : 3 < PI) by (pose proof PI2_3_2; lra).
  assert (HA : 0 <= sin (819 / 10000)) by (apply sin_ge_0; lra).
  pose proof sin_lower_bound as HB.
  assert (HC : 0 <= sin (27391 / 10000)) by (apply sin_ge_0; lra).
  unfold waveHeight.
  replace ((0 + -70 * (13 / 100)) * (9 / 1000)) with (- (819 / 10000)) by lra.
  replace ((0 + -70 * (37 / 100)) * (21 / 1000)) with (- (5439 / 10000)) by lra.
  replace ((0 + -70 * (91 / 100)) * (43 / 1000)) with (- (27391 / 10000)) by lra.
  rewrite !sin_neg. rewrite (round_eq 9 (31 * (3 / 10))) by lra.
  set (n := JsMath.round _).
  assert (Hn : (n <= 9)%Z).
  { rewrite <- (round_IZR 9). apply round_le. lra. }
  apply IZR_le in Hn. unfold clamp, Rmax, Rmin.
  repeat destruct (Rle_dec _ _); lra.
Qed.

Lemma terrain_1_31 :
  generateTerrain (-70) 1 31 = Some (mkTerrain 1 31 [Some 9]).
Proof.
  unfold generateTerrain. rewrite bool_decide_eq_true_2 by lia.
  do 2 f_equal.
  change (seqZ 0 1) with [0%Z]. change (seqZ 1 (1 - 2)) with (@nil Z).
  cbn [foldl]. rewrite waveHeight_31. reflexivity.
Qed.

(** C2, as stated, fails.  A world 20 high gets columns of height 6,
    above [height - 20 = 0].  A world 31 high gets, for the seed -70, a
    column of height 9, below [0.3 * height = 9.3].  A negative width
    gives no array at all. *)
Lemma generateTerrain_out_of_range :
  (generateTerrain 0 3 20 = Some (mkTerrain 3 20 [Some 6; Some 6; Some 6]) /\
   ~ (IZR 20 * (3 / 10) <= 6 <= IZR 20 - 20)) /\
  (generateTerrain (-70) 1 31 = Some (mkTerrain 1 31 [Some 9]) /\
   ~ (IZR 31 * (3 / 10) <= 9 <= IZR 31 - 20)) /\
  generateTerrain 0 (-1) 600 = None.
Proof.
  split; [|split].
  - split; [apply terrain_3_20|lra].
  - split; [apply terrain_1_31|lra].
  - unfold generateTerrain. by rewrite bool_decide_eq_false_2 by lia.
Qed.

Lemma generateTerrain_bounds_witness :
  exists t, generateTerrain 12345 WORLD_WIDTH WORLD_HEIGHT = Some t /\
    length (heights t) = 1000%nat /\
    Forall (fun e => exists v, e = Some v /\ 180 <= v <= 580) (heights t).
Proof.
  assert (Hr : JsMath.round (IZR WORLD_HEIGHT * (3 / 10)) = 180%Z)
    by (apply round_eq; unfold WORLD_HEIGHT; lra).
  destruct (generateTerrain_bounds 12345 WORLD_WIDTH WORLD_HEIGHT)
    as (t & Ht & _ & _ & Hlen & Hall & _).
  - unfold WORLD_WIDTH. lia.
  - rewrite Hr. unfold WORLD_HEIGHT. lia.
  - exists t. split; [done|]. split; [done|].
    rewrite Hr in Hall. unfold WORLD_HEIGHT in Hall.
    eapply Forall_impl; [exact Hall|].
    intros e (v & -> & Hv). exists v. split; [done|]. lra.
Defined.

(** ** C6: the turn deadline is set exactly while aiming *)

Lemma sameClock_ok (s s' : GameState) :
  sameClock s s' -> turnClockOk s -> turnClockOk s'.
Proof. intros [Hp Ht]. unfold turnClockOk. by rewrite Hp, Ht. Qed.

Lemma stepProjectile_clock (s : GameState) (dt : R) :
  sameClock s (stepProjectile s dt).1.
Proof.
  unfold stepProjectile. destruct (projectile s) as [p|]; [|done].
  destruct (negb (active p)); [done|]. cbv zeta.
  repeat (match goal with |- context [if ?b then _ else _] => destruct b end);
    done.
Qed.

Lemma enterTurn_ok (now : Z) (s : GameState) (sl : PlayerSlot) (w : R) :
  turnClockOk (enterTurn now s sl w).
Proof. unfold turnClockOk. simpl. split; [done|]. by eexists. Qed.

Lemma setPhase_ok (s : GameState) (ph : GamePhase) :
  ph <> aiming -> turnClockOk (setPhase s ph).
Proof.
  intros Hne. unfold setPhase, turnClockOk.
  rewrite bool_decide_eq_true_2 by done. simpl.
  split; [by intros [? [=]]|done].
Qed.

Lemma ended_ok (s : GameState) (ph : GamePhase) (w : option PlayerSlot) :
  ph <> aiming ->
  turnClockOk (set_turnEndsAt (set_winnerSlot (set_phase s ph) w) None).
Proof. intros Hne. unfold turnClockOk. simpl. split; [by intros [? [=]]|done]. Qed.

Lemma scheduleTurnTimeout_state (r : Room.t) :
  Room.state (scheduleTurnTimeout r) = Room.state r.
Proof. unfold scheduleTurnTimeout. by destruct (_ || _). Qed.

Lemma setTankConnected_clock (r : Room.t) (s : PlayerSlot) (c : bool) :
  sameClock (Room.state r) (Room.state (setTankConnected r s c)).
Proof. split; reflexivity. Qed.

Lemma setTankConnected_ok (r : Room.t) (s : PlayerSlot) (c : bool) :
  turnClockOk (Room.state r) ->
  turnClockOk (Room.state (setTankConnected r s c)).
Proof. apply sameClock_ok, setTankConnected_clock. Qed.

Lemma startMatch_ok (now : Z) (r : Room.t) : turnClockOk (Room.state (startMatch now r)).
Proof.
  unfold startMatch. destruct (Rng.next _) as [u rnd].
  destruct (pickWind _) as [w rnd'].
  rewrite scheduleTurnTimeout_state. apply enterTurn_ok.
Qed.

Lemma fireForSlot_ok (r : Room.t) (s : PlayerSlot) :
  turnClockOk (Room.state r) -> turnClockOk (Room.state (fireForSlot r s)).
Proof.
  intros Hok. unfold fireForSlot. destruct (bool_decide _); [done|].
  simpl. apply (sameClock_ok (setPhase (Room.state r) projectile_flight));
    [done|].
  by apply setPhase_ok.
Qed.

Lemma onTurnTimeout_ok (r : Room.t) :
  turnClockOk (Room.state r) -> turnClockOk (Room.state (onTurnTimeout r)).
Proof.
  intros Hok. unfold onTurnTimeout. destruct (bool_decide _); [done|].
  by apply fireForSlot_ok.
Qed.

Lemma resolveImpact_ok (r : Room.t) (point : Vector2) :
  turnClockOk (Room.state (resolveImpact r point)).
Proof.
  unfold resolveImpact. destruct (applyBlastDamage _ _) as [st damage].
  simpl. destruct (resolveWinner st _) as [winner|]; simpl.
  - by apply ended_ok.
  - by apply setPhase_ok.
Qed.

Lemma onSimulationTick_ok (r : Room.t) :
  turnClockOk (Room.state r) -> turnClockOk (Room.state (onSimulationTick r)).
Proof.
  intros Hok. unfold onSimulationTick.
  pose proof (stepProjectile_clock (Room.state r) (1 / IZR TICK_RATE)) as Hc.
  destruct (stepProjectile _ _) as [st [i|]].
  - apply resolveImpact_ok.
  - simpl in *. by apply (sameClock_ok (Room.state r)).
Qed.

Lemma onRoundDelay_ok (now : Z) (r : Room.t) :
  turnClockOk (Room.state r) -> turnClockOk (Room.state (onRoundDelay now r)).
Proof.
  intros Hok. unfold onRoundDelay. destruct (_ || _); [done|].
  destruct (pickWind _) as [w rnd].
  rewrite scheduleTurnTimeout_state. apply enterTurn_ok.
Qed.

Lemma onReconnectTimeout_ok (r : Room.t) :
  turnClockOk (Room.state r) ->
  turnClockOk (Room.state (onReconnectTimeout r)).
Proof.
  intros Hok. unfold onReconnectTimeout.
  destruct (bool_decide (_ <> _)) eqn:Hph; [done|].
  apply bool_decide_eq_false in Hph. apply dec_stable in Hph.
  destruct (findDisconnectedSlot r); [|done].
  unfold turnClockOk in *. simpl. rewrite Hph in Hok. split; [|done].
  intros Hsome. by apply Hok in Hsome.
Qed.

Lemma pauseForReconnect_ok (now : Z) (r : Room.t) (s : PlayerSlot) :
  turnClockOk (Room.state r) ->
  turnClockOk (Room.state (pauseForReconnect now r s)).
Proof.
  intros Hok. unfold pauseForReconnect. destruct (_ || _); [done|].
  unfold turnClockOk. simpl. split; [by intros [? [=]]|done].
Qed.

Lemma resumeFromPauseIfReady_ok (now : Z) (r : Room.t) :
  turnClockOk (Room.state r) ->
  turnClockOk (Room.state (resumeFromPauseIfReady now r)).
Proof.
  intros Hok. unfold resumeFromPauseIfReady.
  destruct (bool_decide (_ <> _)) eqn:Hph; [done|].
  apply bool_decide_eq_false in Hph. apply dec_stable in Hph.
  destruct (findDisconnectedSlot r); [done|].
  assert (Hnone : turnEndsAt (Room.state r) = None).
  { destruct (turnEndsAt (Room.state r)) eqn:He; [|done].
    assert (Ha : phase (Room.state r) = aiming) by (apply Hok; by eexists).
    congruence. }
  cbv zeta. cbn [clearReconnectTimer Room.pauseSnapshot Room.set_reconnectTimer].
  destruct (Room.pauseSnapshot r) as [[before remaining]|].
  - cbn [PauseSnapshot.phaseBeforePause PauseSnapshot.remainingTurnMs].
    destruct before; cbn [bool_decide decide_rel GamePhase_eq_dec];
      try rewrite !bool_decide_eq_false_2 by done;
      try rewrite !bool_decide_eq_true_2 by done.
    all: try (destruct (pickWind _) as [w rnd]).
    all: rewrite ?scheduleTurnTimeout_state; simpl.
    all: unfold turnClockOk; simpl; rewrite ?Hnone.
    all: try (split; [by intros [? [=]]|done]).
    all: try (split; [done|by eexists]).
  - rewrite scheduleTurnTimeout_state. simpl. rewrite Hnone.
    unfold turnClockOk. simpl. split; [done|by eexists].
Qed.

Lemma createInitialState_lobby (c : string) (sd : Z) (s : PlayerSlot) :
  phase (createInitialState c sd s) = lobby /\
  turnEndsAt (createInitialState c sd s) = None.
Proof. split; reflexivity. Qed.

Opaque createInitialState.

Lemma createInitialState_ok (c : string) (sd : Z) (s : PlayerSlot) :
  turnClockOk (createInitialState c sd s).
Proof.
  destruct (createInitialState_lobby c sd s) as [Hp Ht].
  unfold turnClockOk. rewrite Hp, Ht. split; [by intros [? [=]]|done].
Qed.

Lemma roomsOk_insert (m : RoomManager) (key : string) (r : Room.t) :
  roomsOk m -> turnClockOk (Room.state r) ->
  roomsOk (set_rooms m (<[key := r]> (rooms m))).
Proof.
  intros Hm Hr k r'. simpl. rewrite lookup_insert_Some.
  intros [[_ <-]|[_ Hk]]; [done|]. by apply (Hm k).
Qed.

Lemma roomsOk_delete (m : RoomManager) (key : string) :
  roomsOk m -> roomsOk (set_rooms m (delete key (rooms m))).
Proof.
  intros Hm k r'. simpl. rewrite lookup_delete_Some.
  intros [_ Hk]. by apply (Hm k).
Qed.

Lemma roomsOk_same_rooms (m m' : RoomManager) :
  rooms m' = rooms m -> roomsOk m -> roomsOk m'.
Proof. intros Heq Hm k r. rewrite Heq. apply Hm. Qed.

Lemma roomsOk_rooms_insert (m m' : RoomManager) (key : string) (r : Room.t) :
  rooms m' = <[key := r]> (rooms m) ->
  roomsOk m -> turnClockOk (Room.state r) -> roomsOk m'.
Proof.
  intros Heq Hm Hr. apply (roomsOk_same_rooms (set_rooms m (<[key := r]> (rooms m)))).
  - done.
  - by apply roomsOk_insert.
Qed.

Lemma destroyRoomIfEmpty_ok (m : RoomManager) (key : string) (r : Room.t) :
  roomsOk m -> turnClockOk (Room.state r) ->
  roomsOk (destroyRoomIfEmpty m key r).
Proof.
  intros Hm Hr. unfold destroyRoomIfEmpty. destruct (_ || _).
  - by apply roomsOk_insert.
  - apply (roomsOk_delete (set_rooms m _)). by apply roomsOk_insert.
Qed.

Lemma leaveBySocketId_ok (now : Z) (m : RoomManager) (socketId : string) :
  roomsOk m -> roomsOk (leaveBySocketId now m socketId).
Proof.
  intros Hm. unfold leaveBySocketId.
  destruct (socketBindings m !! socketId) as [binding|]; [|done].
  set (m1 := set_socketBindings m _).
  assert (Hm1 : roomsOk m1) by (by apply (roomsOk_same_rooms m)).
  cbv zeta. destruct (rooms m1 !! _) as [room|] eqn:Hroom; [|done].
  pose proof (Hm1 _ _ Hroom) as Hr.
  destruct (Room.players room _) as [player|]; [|done].
  destruct (bool_decide (_ <> _)); [done|].
  destruct (bool_decide (_ = lobby)); [by apply destroyRoomIfEmpty_ok|].
  destruct (bool_decide (_ = match_end)); [by apply destroyRoomIfEmpty_ok|].
  apply roomsOk_insert; [done|]. by apply pauseForReconnect_ok.
Qed.

Lemma createUniqueCode_rooms (m : RoomManager) :
  rooms (createUniqueCode m).2 = rooms m.
Proof.
  unfold createUniqueCode. destruct (tryCodes _ _ _) as [[c|] rnd]; [done|].
  by destruct (Rng.next rnd).
Qed.

Lemma createRoom_ok (now : Z) (m : RoomManager) (socketId : string) :
  roomsOk m -> roomsOk (createRoom now m socketId).1.
Proof.
  intros Hm. unfold createRoom.
  pose proof (leaveBySocketId_ok now m socketId Hm) as Hm1.
  unfold detachSocket. set (m1 := leaveBySocketId now m socketId) in *.
  pose proof (createUniqueCode_rooms m1) as Hrooms.
  destruct (createUniqueCode m1) as [code m2]. simpl in Hrooms.
  destruct (Rng.next (random m2)) as [u rnd].
  destruct (Rng.randomToken _) as [token rnd']. cbv zeta. cbn [fst].
  eapply (roomsOk_rooms_insert m1).
  - cbn [rooms set_rooms set_socketBindings]. rewrite Hrooms. reflexivity.
  - done.
  - apply setTankConnected_ok.
    cbn [Room.state Room.set_player Room.set_random].
    apply createInitialState_ok.
Qed.

Lemma joinRoom_ok (now : Z) (m : RoomManager) (socketId roomCode : string)
  (tok : option string) :
  roomsOk m -> roomsOk (joinRoom now m socketId roomCode tok).1.
Proof.
  intros Hm. unfold joinRoom.
  pose proof (leaveBySocketId_ok now m socketId Hm) as Hm1.
  unfold detachSocket. set (m1 := leaveBySocketId now m socketId) in *.
  cbv zeta. destruct (rooms m1 !! roomCode) as [room|] eqn:Hroom; [|done].
  pose proof (Hm1 _ _ Hroom) as Hr.
  match goal with |- context [match ?c with Some _ => _ | None => _ end] =>
    destruct c as [[s player]|] end.
  - unfold reclaimSlot. simpl.
    apply (roomsOk_insert (set_socketBindings m1 _)); [done|].
    by apply resumeFromPauseIfReady_ok.
  - match goal with |- context [match ?c with Some _ => _ | None => _ end] =>
      destruct c as [s|] end; [|done].
    destruct (Rng.randomToken _) as [token rnd]. simpl.
    apply (roomsOk_insert (set_socketBindings m1 _)); [done|].
    destruct (_ && _); [apply startMatch_ok|done].
Qed.

Lemma applyAim_ok (m : RoomManager) (socketId : string) (a p : R) :
  roomsOk m -> roomsOk (applyAim m socketId a p).1.
Proof.
  intros Hm. unfold applyAim.
  destruct (socketBindings m !! socketId) as [info|]; [|done].
  destruct (rooms m !! _) as [room|] eqn:Hroom; [|done].
  destruct (bool_decide _); [done|]. destruct (bool_decide _); [done|].
  simpl. apply roomsOk_insert; [done|]. by apply (Hm _ _ Hroom).
Qed.

Lemma fire_ok (m : RoomManager) (socketId : string) :
  roomsOk m -> roomsOk (fire m socketId).1.
Proof.
  intros Hm. unfold fire.
  destruct (socketBindings m !! socketId) as [info|]; [|done].
  destruct (rooms m !! _) as [room|] eqn:Hroom; [|done].
  destruct (_ || _); [done|]. simpl.
  apply roomsOk_insert; [done|]. apply fireForSlot_ok. by apply (Hm _ _ Hroom).
Qed.

Lemma requestRematch_ok (now : Z) (m : RoomManager) (socketId : string) :
  roomsOk m -> roomsOk (requestRematch now m socketId).1.
Proof.
  intros Hm. unfold requestRematch.
  destruct (socketBindings m !! socketId) as [info|]; [|done].
  destruct (rooms m !! _) as [room|] eqn:Hroom; [|done].
  destruct (bool_decide _); [done|]. destruct (negb _); [done|].
  cbv zeta. cbn [fst]. apply roomsOk_insert; [done|].
  destruct (_ && _); [apply startMatch_ok|]. by apply (Hm _ _ Hroom).
Qed.

Lemma onRoom_ok (m : RoomManager) (key : string) (ready : Room.t -> bool)
  (callback : Room.t -> Room.t) :
  (forall r, turnClockOk (Room.state r) -> turnClockOk (Room.state (callback r))) ->
  roomsOk m -> roomsOk (onRoom m key ready callback).
Proof.
  intros Hcb Hm. unfold onRoom.
  destruct (rooms m !! key) as [room|] eqn:Hroom; [|done].
  destruct (ready room); [|done].
  apply roomsOk_insert; [done|]. apply Hcb. by apply (Hm _ _ Hroom).
Qed.

Lemma step_ok (now : Z) (m : RoomManager) (e : Event) :
  roomsOk m -> roomsOk (step now m e).
Proof.
  intros Hm. destruct e; simpl.
  - by apply createRoom_ok.
  - by apply joinRoom_ok.
  - by apply leaveBySocketId_ok.
  - by apply applyAim_ok.
  - by apply fire_ok.
  - by apply requestRematch_ok.
  - apply onRoom_ok; [|done]. intros r Hr. by apply onTurnTimeout_ok.
  - apply onRoom_ok; [|done]. intros r Hr. by apply onSimulationTick_ok.
  - apply onRoom_ok; [|done]. intros r Hr. by apply onRoundDelay_ok.
  - apply onRoom_ok; [|done]. intros r Hr. by apply onReconnectTimeout_ok.
Qed.

(** C6.  In every state the manager can reach from its creation through
    requests of sockets and firings of room timers, every room of the
    registry has [turnEndsAt] set if and only if its phase is [aiming]. *)
Theorem turnEndsAt_iff_aiming (m : RoomManager) :
  reachable m ->
  forall key r, rooms m !! key = Some r ->
    (turnEndsAt (Room.state r) <> None <-> phase (Room.state r) = aiming).
Proof.
  intros Hreach.
  assert (Hok : roomsOk m).
  { induction Hreach as [now|now m e _ IH].
    - intros key r Hr. simpl in Hr. by rewrite lookup_empty in Hr.
    - by apply step_ok. }
  intros key r Hr. specialize (Hok key r Hr). unfold turnClockOk in Hok.
  rewrite <- Hok. split.
  - intros Hne. by destruct (turnEndsAt (Room.state r)); [eexists|].
  - by intros [d ->].
Qed.

Lemma createRoom_stores (now : Z) (m : RoomManager) (socketId : string) :
  let res := createRoom now m socketId in
  let room := JoinResult.room res.2 in
  rooms res.1 !! Room.code room = Some room /\
  JoinResult.slot res.2 = A /\
  phase (Room.state room) = lobby /\
  Room.createdAt room = now.
Proof.
  unfold createRoom. destruct (createUniqueCode _) as [code m2].
  destruct (Rng.next (random m2)) as [u rnd].
  destruct (Rng.randomToken _) as [token rnd']. cbv zeta.
  cbn [fst snd JoinResult.room JoinResult.slot rooms set_rooms set_socketBindings].
  split; [|split; [reflexivity|split; [|reflexivity]]].
  - apply lookup_insert_eq.
  - rewrite (proj1 (setTankConnected_clock _ _ _)).
    cbn [Room.state Room.set_player Room.set_random].
    apply createInitialState_lobby.
Qed.

Lemma turnEndsAt_iff_aiming_witness :
  let res := createRoom 1000 (newManager 0) "socket-a" in
  let room := JoinResult.room res.2 in
  turnEndsAt (Room.state room) <> None <-> phase (Room.state room) = aiming.
Proof.
  intros res room.
  apply (turnEndsAt_iff_aiming (step 1000 (newManager 0) (CreateRoom "socket-a")))
    with (key := Room.code room).
  - apply reachable_step, reachable_new.
  - apply (createRoom_stores 1000 (newManager 0) "socket-a").
Defined.

(** ** C7: locking the aim *)


(** ** C9: room codes *)


Opaque lobbyRoom.

Lemma tryCodes_fresh (n : nat) (taken : gmap string Room.t) (rnd rnd' : Z)
  (code : string) :
  tryCodes n taken rnd = (Some code, rnd') -> taken !! code = None.
Proof.
  revert rnd. induction n as [|n IH]; intros rnd; cbn [tryCodes]; [done|].
  destruct (Rng.randomCode rnd) as [c r].
  destruct (bool_decide (taken !! c = None)) eqn:Hc.
  - intros [= <- <-]. by apply bool_decide_eq_true in Hc.
  - apply IH.
Qed.

Lemma tryCodes_exhausted (n : nat) (taken : gmap string Room.t) (rnd : Z) :
  (forall c, c ∈ (drawn n rnd).1 -> is_Some (taken !! c)) ->
  tryCodes n taken rnd = (None, (drawn n rnd).2).
Proof.
  revert rnd. induction n as [|n IH]; intros rnd Hall;
    cbn [tryCodes drawn] in *; [done|].
  destruct (Rng.randomCode rnd) as [c r].
  destruct (drawn n r) as [cs r'] eqn:Hd. cbn [fst snd] in *.
  rewrite bool_decide_eq_false_2.
  - rewrite IH; [by rewrite Hd|]. intros c' Hc'. apply Hall.
    rewrite Hd in Hc'. by apply list_elem_of_further.
  - destruct (Hall c) as [v Hv]; [apply list_elem_of_here|]. by rewrite Hv.
Qed.


Lemma createUniqueCode_fresh_or_fallback (m : RoomManager) :
  let code := (createUniqueCode m).1 in
  rooms m !! code = None \/
  (tryCodes CODE_ATTEMPTS (rooms m) (random m) = (None, (drawn CODE_ATTEMPTS (random m)).2) /\
   code = fallbackCode (drawn CODE_ATTEMPTS (random m)).2).
Proof.
  unfold createUniqueCode.
  destruct (tryCodes CODE_ATTEMPTS (rooms m) (random m)) as [[c|] rnd] eqn:Ht.
  - left. cbn [fst]. apply tryCodes_fresh in Ht. exact Ht.
  - right.
    assert (Hall : forall c, c ∈ (drawn CODE_ATTEMPTS (random m)).1 ->
              is_Some (rooms m !! c)).
    { clear -Ht. revert Ht. generalize (random m) as r. generalize CODE_ATTEMPTS as n.
      induction n as [|n IH]; intros r Ht c Hc; cbn [tryCodes drawn] in *.
      - by apply not_elem_of_nil in Hc.
      - destruct (Rng.randomCode r) as [c0 r0].
        destruct (drawn n r0) as [cs r'] eqn:Hd. cbn [fst] in Hc.
        destruct (bool_decide (rooms m !! c0 = None)) eqn:Hb; [done|].
        apply bool_decide_eq_false in Hb.
        apply elem_of_cons in Hc as [->|Hc].
        + by destruct (rooms m !! c0); [eexists|].
        + apply (IH r0); [done|]. by rewrite Hd. }
    pose proof (tryCodes_exhausted _ _ _ Hall) as He. rewrite Ht in He.
    apply (f_equal snd) in He. cbn [snd] in He. subst rnd.
    split; [reflexivity|]. unfold fallbackCode. destruct (Rng.next _).
    reflexivity.
Qed.

Lemma createRoom_code (now : Z) (m : RoomManager) (socketId : string) :
  Room.code (JoinResult.room (createRoom now m socketId).2)
  = (createUniqueCode (detachSocket now m socketId)).1.
Proof.
  unfold createRoom. destruct (createUniqueCode _) as [code m2].
  destruct (Rng.next (random m2)) as [u rnd].
  by destruct (Rng.randomToken _) as [token rnd'].
Qed.

Lemma createRoom_code_fresh (now : Z) (m : RoomManager) (socketId : string) :
  let m1 := detachSocket now m socketId in
  let code := Room.code (JoinResult.room (createRoom now m socketId).2) in
  rooms m1 !! code = None \/
  code = fallbackCode (drawn CODE_ATTEMPTS (random m1)).2.
Proof.
  intros m1 code. subst code. rewrite createRoom_code. fold m1.
  destruct (createUniqueCode_fresh_or_fallback m1) as [H|[_ H]];
    [left|right]; exact H.
Qed.




(** * Further properties *)

(** ** Clamping the aim *)

(** X1.  [clampAngle] and [clampPower] always return a value inside
    [5, 175] and [20, 120].  Clamping a second time changes nothing; a
    value inside the range is returned as it is, and a value below or
    above the range goes to the nearer bound. *)
Theorem clamp_aim (v : R) :
  (MIN_ANGLE <= clampAngle v <= MAX_ANGLE /\
   MIN_POWER <= clampPower v <= MAX_POWER) /\
  (clampAngle (clampAngle v) = clampAngle v /\
   clampPower (clampPower v) = clampPower v) /\
  (MIN_ANGLE <= v <= MAX_ANGLE -> clampAngle v = v) /\
  (MIN_POWER <= v <= MAX_POWER -> clampPower v = v) /\
  (v <= MIN_ANGLE -> clampAngle v = MIN_ANGLE) /\
  (MAX_ANGLE <= v -> clampAngle v = MAX_ANGLE) /\
  (v <= MIN_POWER -> clampPower v = MIN_POWER) /\
  (MAX_POWER <= v -> clampPower v = MAX_POWER).
Proof.
  unfold clampAngle, clampPower, clamp, MIN_ANGLE, MAX_ANGLE, MIN_POWER,
    MAX_POWER, Rmax, Rmin.
  repeat split; intros; repeat destruct (Rle_dec _ _); lra.
Qed.

Lemma clamp_aim_witness : clampAngle 90 = 90 /\ clampPower 500 = MAX_POWER.
Proof.
  split.
  - apply (clamp_aim 90). unfold MIN_ANGLE, MAX_ANGLE. lra.
  - apply (clamp_aim 500). unfold MAX_POWER. lra.
Defined.

(** ** Launching a projectile *)

Lemma hypot_scaled (c s k : R) :
  0 <= k -> c * c + s * s = 1 -> JsMath.hypot (c * k) (s * k) = k.
Proof.
  intros Hk H1. unfold JsMath.hypot.
  replace (c * k * (c * k) + s * k * (s * k)) with ((c * c + s * s) * (k * k)) by ring.
  rewrite H1, Rmult_1_l. by apply sqrt_square.
Qed.

Lemma sin_cos_1 (a : R) : cos a * cos a + sin a * sin a = 1.
Proof. pose proof (sin2_cos2 a) as H. unfold Rsqr in H. lra. Qed.

Lemma aim_sin_pos (a : R) :
  MIN_ANGLE <= a <= MAX_ANGLE -> 0 < sin (a * PI / 180).
Proof.
  unfold MIN_ANGLE, MAX_ANGLE. intros Ha. pose proof PI_RGT_0 as Hpi.
  apply sin_gt_0; nra.
Qed.

(** X2.  [spawnProjectile] changes the projectile only.  The new
    projectile is active and owned by the firing slot; it starts at
    distance tankRadius + 5 = 17 from the centre of the firing tank, which
    is beyond the 16 pixels within which [stepProjectile] counts a hit on
    a tank; its speed is the clamped power times 2.8, hence within
    [56, 336]; and it starts upwards. *)
Theorem spawnProjectile_launch (state : GameState) (s : PlayerSlot) :
  let tank := tank_of (tanks state) s in
  exists p,
    spawnProjectile state s = set_projectile state (Some p) /\
    active p = true /\ owner p = s /\
    JsMath.hypot (vec_x (pos p) - x tank) (vec_y (pos p) - y tank)
      = PHYSICS.tankRadius + 5 /\
    hitsTank p tank = false /\
    JsMath.hypot (vec_x (vel p)) (vec_y (vel p))
      = clampPower (power tank) * PHYSICS.projectileSpeedScale /\
    56 <= JsMath.hypot (vec_x (vel p)) (vec_y (vel p)) <= 336 /\
    vec_y (vel p) < 0.
Proof.
  intros tank. unfold spawnProjectile. fold tank. cbv zeta.
  eexists. split; [reflexivity|]. cbn [active owner pos vel vec_x vec_y].
  assert (Ha : MIN_ANGLE <= clampAngle (angleDeg tank) <= MAX_ANGLE)
    by (apply clamp_between; unfold MIN_ANGLE, MAX_ANGLE; lra).
  assert (Hp : MIN_POWER <= clampPower (power tank) <= MAX_POWER)
    by (apply clamp_between; unfold MIN_POWER, MAX_POWER; lra).
  set (rad := clampAngle (angleDeg tank) * PI / 180).
  pose proof (aim_sin_pos _ Ha) as Hsin. fold rad in Hsin.
  pose proof (sin_cos_1 rad) as H1.
  unfold MIN_POWER, MAX_POWER in Hp.
  assert (Hd : JsMath.hypot
                 (x tank + cos rad * (PHYSICS.tankRadius + 5) - x tank)
                 (y tank - sin rad * (PHYSICS.tankRadius + 5) - y tank)
               = PHYSICS.tankRadius + 5).
  { replace (x tank + cos rad * (PHYSICS.tankRadius + 5) - x tank)
      with (cos rad * (PHYSICS.tankRadius + 5)) by ring.
    replace (y tank - sin rad * (PHYSICS.tankRadius + 5) - y tank)
      with (- sin rad * (PHYSICS.tankRadius + 5)) by ring.
    apply hypot_scaled; [unfold PHYSICS.tankRadius; lra|nra]. }
  assert (Hv : JsMath.hypot
                 (cos rad * (clampPower (power tank) * PHYSICS.projectileSpeedScale))
                 (- sin rad * (clampPower (power tank) * PHYSICS.projectileSpeedScale))
               = clampPower (power tank) * PHYSICS.projectileSpeedScale).
  { apply hypot_scaled; [unfold PHYSICS.projectileSpeedScale; nra|nra]. }
  repeat split; try done.
  - unfold hitsTank. cbn [pos vec_x vec_y]. rewrite Hd. apply leb_false.
    unfold PHYSICS.tankRadius, PHYSICS.projectileRadius. lra.
  - rewrite Hv. unfold PHYSICS.projectileSpeedScale. lra.
  - rewrite Hv. unfold PHYSICS.projectileSpeedScale. lra.
  - unfold PHYSICS.projectileSpeedScale. nra.
Qed.

(** ** The wind *)

Lemma value_range (t : Z) : 0 <= Rng.value (Rng.next t).1 < 1.
Proof.
  destruct (next_word t) as [H0 H1]. unfold Rng.value.
  apply IZR_le in H0. apply IZR_lt in H1.
  change (IZR (2 ^ 32)) with 4294967296 in H1.
  lra.
Qed.

Lemma pickWind_tenths (random : Z) :
  exists k : Z, (-240 <= k <= 240)%Z /\ (pickWind random).1 = IZR k / 10.
Proof.
  unfold pickWind. pose proof (value_range random) as Hv.
  destruct (Rng.next random) as [u rnd]. cbn [fst snd] in *.
  eexists. split; [|reflexivity]. apply round_between. lra.
Qed.

Lemma pickWind_bounds (random : Z) : -24 <= (pickWind random).1 <= 24.
Proof.
  destruct (pickWind_tenths random) as (k & [Hk0 Hk1] & ->).
  apply IZR_le in Hk0. apply IZR_le in Hk1. lra.
Qed.

(** X3.  The wind [pickWind] returns lies within [-24, 24] and is a
    whole number of tenths; [pickWind] takes one draw from the
    generator. *)
Theorem pickWind_range (random : Z) :
  let w := (pickWind random).1 in
  -24 <= w <= 24 /\
  (exists k : Z, (-240 <= k <= 240)%Z /\ w = IZR k / 10) /\
  (pickWind random).2 = (Rng.next random).2.
Proof.
  cbv zeta. split; [apply pickWind_bounds|]. split; [apply pickWind_tenths|].
  unfold pickWind. by destruct (Rng.next random).
Qed.

(** ** A step of the projectile changes the projectile only *)

(** X4.  [stepProjectile] changes nothing of the state but the
    projectile.  With no projectile, or with an inactive one, it returns
    [null] and leaves the state as it was; otherwise the projectile stays
    active and keeps its owner. *)
Theorem stepProjectile_frame (state : GameState) (dt : R) :
  let res := stepProjectile state dt in
  res.1 = set_projectile state (projectile res.1) /\
  match projectile state with
  | None => res = (state, None)
  | Some p =>
      if active p then
        exists p', projectile res.1 = Some p' /\
          active p' = true /\ owner p' = owner p
      else res = (state, None)
  end.
Proof.
  unfold stepProjectile. destruct (projectile state) as [p|] eqn:Hp.
  2: { split; [|done]. destruct state; simpl in *. by subst. }
  destruct (active p) eqn:Ha; cbn [negb].
  2: { split; [|done]. destruct state; simpl in *. by subst. }
  cbv zeta.
  repeat (match goal with |- context [if ?b then _ else _] => destruct b end);
    (split; [reflexivity|]); eexists; (split; [reflexivity|]); by simpl.
Qed.

(** ** Cratering twice *)

Lemma columnAfter_idem (h : Z) (impact : Vector2) (j : Z) (e : option R) :
  columnAfter h impact j (columnAfter h impact j e) = columnAfter h impact j e.
Proof.
  unfold columnAfter. cbv zeta.
  set (target := IZR (JsMath.round _)).
  destruct (default (IZR h) e <? target) eqn:He.
  - match goal with |- (if ?b then _ else _) = _ => destruct b end;
      reflexivity.
  - by rewrite He.
Qed.

Lemma craterColumns_width (t t' : TerrainState) (impact : Vector2) :
  width t' = width t -> craterColumns t' impact = craterColumns t impact.
Proof. intros H. unfold craterColumns. by rewrite H. Qed.

(** X5.  Cratering the same impact a second time changes no column:
    every entry of the height array, and so every height [heightAt]
    reads, is what the first call left.  The width and the height of the
    terrain are kept, and so is all of the state but the terrain. *)
Theorem deformTerrain_idempotent (state : GameState) (impact : Vector2) :
  let once := deformTerrain state impact in
  let twice := deformTerrain once impact in
  (forall j, JsArray.get (heights (terrain twice)) j
             = JsArray.get (heights (terrain once)) j) /\
  (forall x, heightAt (terrain twice) x = heightAt (terrain once) x) /\
  width (terrain twice) = width (terrain state) /\
  height (terrain twice) = height (terrain state) /\
  twice = set_terrain state (terrain twice).
Proof.
  intros once twice.
  assert (Hget : forall j, JsArray.get (heights (terrain twice)) j
                           = JsArray.get (heights (terrain once)) j).
  { intros j. subst twice. rewrite deformTerrain_get.
    rewrite (craterColumns_width (terrain state)) by reflexivity.
    subst once. rewrite deformTerrain_get.
    change (height (terrain (deformTerrain state impact)))
      with (height (terrain state)).
    destruct (decide (j ∈ craterColumns (terrain state) impact)); [|done].
    apply columnAfter_idem. }
  split; [exact Hget|]. split; [|by repeat split].
  intros x0. unfold heightAt. cbv zeta. rewrite Hget. reflexivity.
Qed.



(** ** Blast damage stays within bounds *)

Lemma blastDamage_le_max (d : R) : 0 <= d -> blastDamage d <= PHYSICS.maxDamage.
Proof.
  intros Hd. unfold blastDamage, PHYSICS.maxDamage, PHYSICS.blastRadius.
  assert (H : (JsMath.round (55 * (1 - d / 84)) <= 55)%Z).
  { pose proof (round_le (55 * (1 - d / 84)) (IZR 55)) as Hr.
    rewrite round_IZR in Hr. apply Hr. lra. }
  apply IZR_le in H. unfold Rmax. destruct (Rle_dec _ _); lra.
Qed.

Lemma blastDamage_integer (d : R) : exists k : Z, blastDamage d = IZR k.
Proof.
  unfold blastDamage. cbv zeta. unfold Rmax.
  destruct (Rle_dec _ _); [by eexists|by exists 1%Z].
Qed.

Lemma tankDistance_nonneg (state : GameState) (impact : Vector2) (s : PlayerSlot) :
  0 <= tankDistance state impact s.
Proof. unfold tankDistance, JsMath.hypot. apply sqrt_pos. Qed.

Lemma blasted_bounds (state : GameState) (impact : Vector2) (s : PlayerSlot) :
  let tank := tank_of (tanks state) s in
  let res := blasted state impact s in
  res.1 = set_hp tank (hp res.1) /\
  (hp res.1 = hp tank \/ hp res.1 = Rmax 0 (hp tank - blastDamage (tankDistance state impact s))) /\
  Forall (fun r => 1 <= amount r <= PHYSICS.maxDamage /\ 0 <= hpAfter r /\
                   (exists k : Z, amount r = IZR k) /\
                   dmg_slot r = s /\ hpAfter r = hp res.1) res.2.
Proof.
  intros tank res. subst res. unfold blasted. fold tank.
  destruct (_ <=? _).
  - cbn [fst snd hp set_hp]. split; [done|]. split; [by right|].
    constructor; [|constructor]. cbn [amount hpAfter dmg_slot].
    split; [split; [apply blastDamage_ge_1|
                    apply blastDamage_le_max, tankDistance_nonneg]|].
    split; [apply Rmax_l|]. split; [apply blastDamage_integer|done].
  - cbn [fst snd]. split; [by destruct tank|]. split; [by left|constructor].
Qed.

(** X7.  Every entry [applyBlastDamage] returns carries a damage that is
    a whole number within [1, 55] and a remaining health that is not
    negative.  A blast changes nothing of a tank but its health; a tank
    whose health was not negative keeps a health between 0 and what it
    had, and loses 55 at most. *)
Theorem applyBlastDamage_bounds (state : GameState) (impact : Vector2)
  (s : PlayerSlot) :
  let tank := tank_of (tanks state) s in
  let tank' := tank_of (tanks (applyBlastDamage state impact).1) s in
  Forall (fun r => 1 <= amount r <= PHYSICS.maxDamage /\ 0 <= hpAfter r /\
                   exists k : Z, amount r = IZR k)
         (applyBlastDamage state impact).2 /\
  tank' = set_hp tank (hp tank') /\
  (0 <= hp tank ->
   0 <= hp tank' <= hp tank /\ hp tank - PHYSICS.maxDamage <= hp tank').
Proof.
  intros tank tank'. subst tank'. rewrite tank_after_blast.
  rewrite applyBlastDamage_unfold. cbn [snd].
  destruct (blasted_bounds state impact s) as (Hset & Hhp & _).
  split; [|split; [exact Hset|]].
  - apply Forall_app. split.
    + destruct (blasted_bounds state impact A) as (_ & _ & H).
      eapply Forall_impl; [exact H|]. intros r (? & ? & ? & _). done.
    + destruct (blasted_bounds state impact B) as (_ & _ & H).
      eapply Forall_impl; [exact H|]. intros r (? & ? & ? & _). done.
  - intros H0. fold tank in Hhp.
    pose proof (blastDamage_ge_1 (tankDistance state impact s)) as H1.
    pose proof (blastDamage_le_max _ (tankDistance_nonneg state impact s)) as H2.
    unfold PHYSICS.maxDamage in *.
    destruct Hhp as [->| ->]; [lra|].
    unfold Rmax. destruct (Rle_dec _ _); lra.
Qed.

Lemma applyBlastDamage_bounds_witness :
  let state := sampleState (flatTerrain 200 600 300)
                 (sampleTank A 100 287 100) (sampleTank B 190 287 100) None in
  let after := (applyBlastDamage state (mkVector2 100 287)).1 in
  0 <= hp (tankA (tanks after)) <= 100.
Proof.
  intros state after.
  apply (applyBlastDamage_bounds state (mkVector2 100 287) A). simpl. lra.
Defined.

(** X8.  No single blast decides a match between two tanks that both have
    more than 55 points of health (a fresh tank has 100): [resolveWinner]
    finds no winner after it. *)
Theorem full_health_survives (state : GameState) (impact : Vector2)
  (shooter : PlayerSlot) :
  PHYSICS.maxDamage < hp (tankA (tanks state)) ->
  PHYSICS.maxDamage < hp (tankB (tanks state)) ->
  resolveWinner (applyBlastDamage state impact).1 shooter = None.
Proof.
  intros HA HB. unfold PHYSICS.maxDamage in *.
  pose proof (blastDamage_le_max _ (tankDistance_nonneg state impact A)) as HdA.
  pose proof (blastDamage_le_max _ (tankDistance_nonneg state impact B)) as HdB.
  unfold PHYSICS.maxDamage in *.
  destruct (blasted_bounds state impact A) as (_ & HhA & _).
  destruct (blasted_bounds state impact B) as (_ & HhB & _).
  cbn [tank_of] in HhA, HhB.
  unfold resolveWinner. cbv zeta.
  change (tankA (tanks (applyBlastDamage state impact).1))
    with (tank_of (tanks (applyBlastDamage state impact).1) A).
  change (tankB (tanks (applyBlastDamage state impact).1))
    with (tank_of (tanks (applyBlastDamage state impact).1) B).
  rewrite !tank_after_blast.
  assert (0 < hp (blasted state impact A).1).
  { destruct HhA as [->| ->]; [lra|]. unfold Rmax. destruct (Rle_dec _ _); lra. }
  assert (0 < hp (blasted state impact B).1).
  { destruct HhB as [->| ->]; [lra|]. unfold Rmax. destruct (Rle_dec _ _); lra. }
  by cmp.
Qed.

Lemma full_health_survives_witness :
  resolveWinner
    (applyBlastDamage
       (sampleState (flatTerrain 200 600 300) (sampleTank A 100 287 100)
          (sampleTank B 190 287 100) None) (mkVector2 100 287)).1 A = None.
Proof.
  apply full_health_survives; simpl; unfold PHYSICS.maxDamage; lra.
Defined.

(** ** Codes and tokens *)

Lemma floorScaled_range (u n : Z) :
  (0 <= u < 2 ^ 32)%Z -> (0 < n)%Z -> (0 <= Rng.floorScaled u n < n)%Z.
Proof.
  intros Hu Hn. unfold Rng.floorScaled. split.
  - apply Z.div_pos; lia.
  - apply Z.div_lt_upper_bound; [lia|]. nia.
Qed.

Lemma string_get_elem (s : string) (n : nat) (c : ascii) :
  String.get n s = Some c -> c ∈ list_ascii_of_string s.
Proof.
  revert n. induction s as [|a s IH]; intros n; [done|].
  destruct n as [|n]; simpl.
  - intros [= ->]. apply list_elem_of_here.
  - intros H. apply list_elem_of_further. by apply (IH n).
Qed.

Lemma string_get_inside (s : string) (n : nat) :
  (n < String.length s)%nat -> is_Some (String.get n s).
Proof.
  revert n. induction s as [|a s IH]; intros n; simpl; [lia|].
  destruct n as [|n]; [by eexists|]. intros H. apply IH. lia.
Qed.

Lemma charAt_elem (chars : string) (i : Z) (d : ascii) :
  (0 <= i < Z.of_nat (String.length chars))%Z ->
  Rng.charAt chars i d ∈ list_ascii_of_string chars.
Proof.
  intros Hi. unfold Rng.charAt.
  destruct (string_get_inside chars (Z.to_nat i)) as [c Hc]; [lia|].
  rewrite Hc. simpl. by apply string_get_elem in Hc.
Qed.

Lemma chars_snoc (acc : string) (c : ascii) :
  list_ascii_of_string (acc +:+ String c EmptyString)
  = list_ascii_of_string acc ++ [c].
Proof. induction acc as [|a acc IH]; simpl; [done|]. by rewrite IH. Qed.

Lemma length_chars (s : string) :
  String.length s = length (list_ascii_of_string s).
Proof. induction s as [|a s IH]; simpl; [done|]. by rewrite IH. Qed.

Lemma draw_spec (chars : string) (d : ascii) (n : nat) (acc : string) (t : Z) :
  (0 < String.length chars)%nat ->
  let res := Rng.draw chars d n acc t in
  String.length res.1 = (String.length acc + n)%nat /\
  (Forall (fun c => c ∈ list_ascii_of_string chars) (list_ascii_of_string acc) ->
   Forall (fun c => c ∈ list_ascii_of_string chars) (list_ascii_of_string res.1)) /\
  res.2 = (t + Z.of_nat n * 0x6d2b79f5)%Z.
Proof.
  intros Hchars. revert acc t. induction n as [|n IH]; intros acc t.
  - cbn [Rng.draw fst snd]. split; [lia|]. split; [done|lia].
  - cbn [Rng.draw]. pose proof (next_word t) as Hw.
    assert (Ht : (Rng.next t).2 = (t + 0x6d2b79f5)%Z) by reflexivity.
    destruct (Rng.next t) as [u t']. cbn [fst snd] in Hw, Ht. cbv zeta.
    destruct (IH (acc +:+ String
                (Rng.charAt chars
                   (Rng.floorScaled u (Z.of_nat (String.length chars))) d)
                EmptyString) t') as (Hlen & Hall & Hgen).
    split; [|split].
    + rewrite Hlen, !length_chars, chars_snoc, length_app. simpl. lia.
    + intros Hacc. apply Hall. rewrite chars_snoc. apply Forall_app.
      split; [done|]. constructor; [|constructor].
      apply charAt_elem, floorScaled_range; [done|lia].
    + rewrite Hgen, Ht. lia.
Qed.

Lemma randomCode_shape (t : Z) :
  String.length (Rng.randomCode t).1 = 5%nat /\
  Forall (fun c => c ∈ list_ascii_of_string "ABCDEFGHJKMNPQRSTUVWXYZ23456789")
         (list_ascii_of_string (Rng.randomCode t).1) /\
  (Rng.randomCode t).2 = (t + 5 * 0x6d2b79f5)%Z.
Proof.
  unfold Rng.randomCode.
  destruct (draw_spec "ABCDEFGHJKMNPQRSTUVWXYZ23456789" "A" 5 EmptyString t)
    as (Hlen & Hall & Hgen); [simpl; lia|].
  split; [exact Hlen|]. split; [apply Hall; constructor|exact Hgen].
Qed.

Lemma randomToken_shape (t : Z) :
  String.length (Rng.randomToken t).1 = 24%nat /\
  Forall (fun c => c ∈ list_ascii_of_string "abcdefghijklmnopqrstuvwxyz0123456789")
         (list_ascii_of_string (Rng.randomToken t).1) /\
  (Rng.randomToken t).2 = (t + 24 * 0x6d2b79f5)%Z.
Proof.
  unfold Rng.randomToken.
  destruct (draw_spec "abcdefghijklmnopqrstuvwxyz0123456789" "0" 24 EmptyString t)
    as (Hlen & Hall & Hgen); [simpl; lia|].
  split; [exact Hlen|]. split; [apply Hall; constructor|exact Hgen].
Qed.


Lemma pretty_N_char_digit (x : N) : pretty_N_char x ∈ digits.
Proof.
  unfold pretty_N_char, digits.
  repeat case_match; apply list_elem_of_In; simpl; tauto.
Qed.

Lemma pretty_N_go_shape (k : nat) (x : N) (s : string) :
  (x < 10 ^ N.of_nat k)%N ->
  (String.length (pretty_N_go x s) <= String.length s + k)%nat /\
  (Forall (fun c => c ∈ digits) (list_ascii_of_string s) ->
   Forall (fun c => c ∈ digits) (list_ascii_of_string (pretty_N_go x s))).
Proof.
  revert x s. induction k as [|k IH]; intros x s Hx.
  - assert (x = 0%N) as -> by (simpl in Hx; lia).
    rewrite pretty_N_go_0. split; [lia|done].
  - destruct (decide (x = 0%N)) as [->|Hne].
    { rewrite pretty_N_go_0. split; [lia|done]. }
    rewrite pretty_N_go_step by lia.
    destruct (IH (x `div` 10)%N (String (pretty_N_char (x `mod` 10)) s))
      as [Hlen Hall].
    { apply N.Div0.div_lt_upper_bound.
      replace (N.of_nat (S k)) with (N.succ (N.of_nat k)) in Hx by lia.
      rewrite N.pow_succ_r' in Hx. lia. }
    split; [simpl in Hlen; lia|].
    intros Hs. apply Hall. simpl. constructor; [apply pretty_N_char_digit|done].
Qed.

Lemma decimal_shape (n : Z) :
  (0 <= n < 100000)%Z ->
  (String.length (decimal n) <= 5)%nat /\
  Forall (fun c => c ∈ digits) (list_ascii_of_string (decimal n)).
Proof.
  intros Hn.
  assert (Hd : decimal n = pretty n) by reflexivity. rewrite Hd.
  destruct n as [|p|p]; [| |lia].
  - split; [simpl; lia|]. constructor; [|constructor]. apply list_elem_of_In. simpl. tauto.
  - change (pretty (Z.pos p)) with (pretty (N.pos p)).
    unfold pretty, pretty_N. rewrite decide_False by done.
    destruct (pretty_N_go_shape 5 (N.pos p) EmptyString) as [Hlen Hall];
      [simpl; lia|].
    split; [exact Hlen|apply Hall; constructor].
Qed.

Lemma chars_of_list (l : list ascii) :
  list_ascii_of_string (string_of_list_ascii l) = l.
Proof. apply list_ascii_of_string_of_list_ascii. Qed.

Lemma chars_append (a b : string) :
  list_ascii_of_string (a +:+ b)
  = list_ascii_of_string a ++ list_ascii_of_string b.
Proof. induction a as [|c a IH]; simpl; [done|]. by rewrite IH. Qed.

Lemma padStart_shape (s : string) :
  (String.length s <= 5)%nat ->
  Forall (fun c => c ∈ digits) (list_ascii_of_string s) ->
  String.length (padStart 5 "0" s) = 5%nat /\
  Forall (fun c => c ∈ digits) (list_ascii_of_string (padStart 5 "0" s)).
Proof.
  intros Hlen Hall. unfold padStart.
  rewrite !length_chars, chars_append, chars_of_list in *.
  split.
  - rewrite length_app, length_replicate. lia.
  - apply Forall_app. split; [|done]. apply Forall_replicate.
    apply list_elem_of_In. simpl. tauto.
Qed.

Lemma tryCodes_drawn (n : nat) (taken : gmap string Room.t) (rnd rnd' : Z)
  (code : string) :
  tryCodes n taken rnd = (Some code, rnd') ->
  exists t, code = (Rng.randomCode t).1.
Proof.
  revert rnd. induction n as [|n IH]; intros rnd; cbn [tryCodes]; [done|].
  destruct (Rng.randomCode rnd) as [c r] eqn:Hc.
  destruct (bool_decide (taken !! c = None)).
  - intros [= <- <-]. exists rnd. by rewrite Hc.
  - apply IH.
Qed.

Lemma createUniqueCode_code (m : RoomManager) :
  let code := (createUniqueCode m).1 in
  String.length code = 5%nat /\
  (Forall (fun c => c ∈ list_ascii_of_string "ABCDEFGHJKMNPQRSTUVWXYZ23456789")
          (list_ascii_of_string code) \/
   Forall (fun c => c ∈ digits) (list_ascii_of_string code)).
Proof.
  unfold createUniqueCode.
  destruct (tryCodes CODE_ATTEMPTS (rooms m) (random m)) as [[c|] rnd] eqn:Ht.
  - cbn [fst]. apply tryCodes_drawn in Ht as [t ->].
    destruct (randomCode_shape t) as (Hlen & Hall & _).
    split; [exact Hlen|left; exact Hall].
  - pose proof (next_word rnd) as Hw.
    destruct (Rng.next rnd) as [u r]. cbn [fst] in *.
    destruct (decimal_shape (Rng.floorScaled u 99999)) as [Hlen Hall].
    { pose proof (floorScaled_range u 99999 Hw). lia. }
    destruct (padStart_shape _ Hlen Hall) as [Hlen' Hall'].
    split; [exact Hlen'|right; exact Hall'].
Qed.

Lemma createUniqueCode_bindings (m : RoomManager) :
  socketBindings (createUniqueCode m).2 = socketBindings m.
Proof.
  unfold createUniqueCode. destruct (tryCodes _ _ _) as [[c|] rnd]; [done|].
  by destruct (Rng.next rnd).
Qed.

(** X10.  The code [createUniqueCode] returns always has five
    characters: all of them from the alphabet of [randomCode] or, for the
    fallback code, all of them decimal digits.  The registry and the
    bindings are not touched. *)
Theorem createUniqueCode_shape (m : RoomManager) :
  let code := (createUniqueCode m).1 in
  String.length code = 5%nat /\
  (Forall (fun c => c ∈ list_ascii_of_string "ABCDEFGHJKMNPQRSTUVWXYZ23456789")
          (list_ascii_of_string code) \/
   Forall (fun c => c ∈ list_ascii_of_string "0123456789")
          (list_ascii_of_string code)) /\
  rooms (createUniqueCode m).2 = rooms m /\
  socketBindings (createUniqueCode m).2 = socketBindings m.
Proof.
  destruct (createUniqueCode_code m) as [Hlen Hall].
  split; [exact Hlen|]. split; [exact Hall|].
  split; [apply createUniqueCode_rooms|apply createUniqueCode_bindings].
Qed.

(** ** The world of a room *)

Lemma worldTerrain_ok (seed : R) : terrainOk (worldTerrain seed).
Proof.
  unfold worldTerrain, generateTerrain.
  rewrite bool_decide_eq_true_2 by (unfold WORLD_WIDTH; lia).
  cbn [default from_option]. unfold Datatypes.id.
  assert (Hr : JsMath.round (IZR WORLD_HEIGHT * (3 / 10)) = 180%Z).
  { apply round_eq. unfold WORLD_HEIGHT. lra. }
  destruct (first_loop_filled (waveHeight seed WORLD_HEIGHT)
              (IZR 180) (IZR 580) WORLD_WIDTH)
    as [Hlen Hfil]; [unfold WORLD_WIDTH; lia| |].
  { intros c. pose proof (waveHeight_bounds seed WORLD_HEIGHT c) as Hb.
    rewrite Hr in Hb. apply Hb. unfold WORLD_HEIGHT. lia. }
  set (a := foldl _ (JsArray.make _) _) in *.
  destruct (smoothing_filled (IZR WORLD_HEIGHT * (62 / 100)) 180 580
              (seqZ 1 (WORLD_WIDTH - 2)) a) as [Hlen' Hfil'].
  { apply Forall_forall. intros c Hc%elem_of_seqZ. unfold WORLD_WIDTH in *. lia. }
  { done. }
  split; [reflexivity|]. split; [reflexivity|]. cbn [heights].
  split; [lia|]. intros j Hj. destruct (Hfil' j Hj) as (v & Hv & Hb).
  exists v. split; [exact Hv|lra].
Qed.

Lemma heightAt_filled (t : TerrainState) (x0 : R) :
  terrainOk t -> 180 <= heightAt t x0 <= 600.
Proof.
  intros (Hw & Hh & Hlen & Hfil). unfold heightAt. cbv zeta.
  destruct (Hfil (clampZ (JsMath.round x0) 0 (width t - 1))) as (v & -> & Hv).
  { rewrite Hlen, Hw. unfold WORLD_WIDTH, clampZ. lia. }
  exact Hv.
Qed.

Lemma worldOk_frame (s s' : GameState) :
  terrain s' = terrain s ->
  (forall sl, sameBody (tank_of (tanks s) sl) (tank_of (tanks s') sl)) ->
  worldOk s -> worldOk s'.
Proof.
  intros Ht Hk (Hter & Htank & Hg). unfold worldOk. rewrite Ht.
  split; [exact Hter|]. split; intros sl;
    destruct (Hk sl) as (H1 & H2 & H3 & H4 & H5 & H6).
  - destruct (Htank sl) as (? & ? & ? & ? & ?).
    unfold tankOk. rewrite H1, H2, H4, H5, H6. done.
  - specialize (Hg sl). unfold grounded in *. rewrite H2, H3. exact Hg.
Qed.

Lemma worldOk_same_tanks (s s' : GameState) :
  terrain s' = terrain s -> tanks s' = tanks s -> worldOk s -> worldOk s'.
Proof.
  intros Ht Hk. apply worldOk_frame; [exact Ht|]. intros sl. rewrite Hk.
  by repeat split.
Qed.

Lemma updateTankGrounding_unfold (s : GameState) :
  updateTankGrounding s =
  set_tanks s
    (mkTanks (set_y (tankA (tanks s)) (tankYForX s (x (tankA (tanks s)))))
             (set_y (tankB (tanks s)) (tankYForX s (x (tankB (tanks s)))))).
Proof. reflexivity. Qed.

Lemma grounding_ok (s : GameState) :
  terrainOk (terrain s) -> (forall sl, tankOk sl (tank_of (tanks s) sl)) ->
  worldOk (updateTankGrounding s).
Proof.
  intros Hter Htank. rewrite updateTankGrounding_unfold.
  split; [exact Hter|]. split; intros [|]; cbn.
  - apply (Htank A).
  - apply (Htank B).
  - reflexivity.
  - reflexivity.
Qed.

Lemma start_columns (t : TerrainState) :
  width t = WORLD_WIDTH ->
  IZR (JsMath.round (IZR (width t) * (18 / 100))) = 180 /\
  IZR (JsMath.round (IZR (width t) * (82 / 100))) = 820.
Proof.
  intros ->. unfold WORLD_WIDTH.
  rewrite (round_eq 180) by lra. rewrite (round_eq 820) by lra. done.
Qed.

Lemma createInitialState_fields (c : string) (sd : Z) (s : PlayerSlot) :
  let t := worldTerrain (IZR sd) in
  createInitialState c sd s =
  updateTankGrounding
    (mkGame c lobby s None t (mkWind 0)
       (mkTanks
          (mkTank A (IZR (JsMath.round (IZR (width t) * (18 / 100)))) 0
                  45 72 STARTING_HP false)
          (mkTank B (IZR (JsMath.round (IZR (width t) * (82 / 100)))) 0
                  135 72 STARTING_HP false))
       None None).
Proof. reflexivity. Qed.

Lemma createInitialState_world (c : string) (sd : Z) (s : PlayerSlot) :
  worldOk (createInitialState c sd s).
Proof.
  rewrite createInitialState_fields. cbv zeta.
  pose proof (worldTerrain_ok (IZR sd)) as Hter.
  destruct (start_columns _ (proj1 Hter)) as [HA HB].
  apply grounding_ok; [exact Hter|].
  intros [|]; cbn [tanks tank_of tankA tankB]; unfold tankOk;
    cbn [slot x angleDeg power hp]; rewrite ?HA, ?HB;
    unfold startColumn, MIN_ANGLE, MAX_ANGLE, MIN_POWER, MAX_POWER, STARTING_HP;
    repeat split; lra.
Qed.

Lemma createInitialState_start (c : string) (sd : Z) (s : PlayerSlot) :
  let st := createInitialState c sd s in
  roomCode st = c /\ phase st = lobby /\ activeSlot st = s /\
  turnEndsAt st = None /\ projectile st = None /\ winnerSlot st = None /\
  terrain st = worldTerrain (IZR sd) /\ wind st = mkWind 0 /\
  (forall sl,
     let k := tank_of (tanks st) sl in
     hp k = STARTING_HP /\ power k = 72 /\
     angleDeg k = match sl with A => 45 | B => 135 end /\
     connected k = false).
Proof.
  rewrite createInitialState_fields. cbv zeta.
  repeat split; try reflexivity; destruct sl; reflexivity.
Qed.

Lemma deformTerrain_terrainOk (s : GameState) (impact : Vector2) :
  terrainOk (terrain s) -> terrainOk (terrain (deformTerrain s impact)).
Proof.
  intros (Hw & Hh & Hlen & Hfil).
  assert (Hlen' : length (heights (terrain (deformTerrain s impact)))
                  = length (heights (terrain s))).
  { apply deformTerrain_length; rewrite Hw; [unfold WORLD_WIDTH; lia|done]. }
  split; [exact Hw|]. split; [exact Hh|]. split; [by rewrite Hlen'|].
  intros j Hj. rewrite Hlen' in Hj. rewrite deformTerrain_get.
  destruct (Hfil j Hj) as (v & Hv & Hb). rewrite Hv.
  destruct (decide _); [|by exists v].
  unfold columnAfter. cbv zeta. cbn [default from_option]. unfold Datatypes.id.
  match goal with |- context [if ?b then _ else _] => destruct b eqn:He end;
    [|by exists v].
  eexists. split; [reflexivity|]. apply ltb_true in He.
  rewrite clampZ_IZR, Hh. unfold WORLD_HEIGHT.
  set (target := IZR (JsMath.round _)) in *.
  unfold clamp, Rmax, Rmin. repeat destruct (Rle_dec _ _); lra.
Qed.

Lemma blasted_world (s : GameState) (impact : Vector2) (sl : PlayerSlot) :
  let k := tank_of (tanks s) sl in
  let k' := (blasted s impact sl).1 in
  slot k' = slot k /\ x k' = x k /\ y k' = y k /\
  angleDeg k' = angleDeg k /\ power k' = power k /\ connected k' = connected k /\
  (0 <= hp k -> 0 <= hp k' <= hp k).
Proof.
  cbv zeta. unfold blasted. cbv zeta. destruct (_ <=? _); cbn [fst].
  - repeat split; try reflexivity; cbn [hp set_hp]; [apply Rmax_l|].
    pose proof (blastDamage_ge_1 (tankDistance s impact sl)).
    unfold Rmax. destruct (Rle_dec _ _); lra.
  - repeat split; try reflexivity; lra.
Qed.

Lemma applyBlastDamage_world (s : GameState) (impact : Vector2) :
  worldOk s -> worldOk (applyBlastDamage s impact).1.
Proof.
  intros (Hter & Htank & Hg). rewrite applyBlastDamage_unfold. cbn [fst].
  split; [exact Hter|].
  assert (Hk : forall sl,
            tank_of (mkTanks (blasted s impact A).1 (blasted s impact B).1) sl
            = (blasted s impact sl).1) by (by intros [|]).
  split; intros sl; cbn [tanks set_tanks terrain]; rewrite Hk;
    destruct (blasted_world s impact sl) as (H1 & H2 & H3 & H4 & H5 & _ & H6).
  - destruct (Htank sl) as (? & ? & ? & ? & Hhp).
    pose proof (H6 (proj1 Hhp)) as Hhp'.
    unfold tankOk. rewrite H1, H2, H4, H5. repeat split; try tauto; lra.
  - specialize (Hg sl). unfold grounded in *. rewrite H2, H3. exact Hg.
Qed.

(** ** Rooms stay well formed *)

Lemma idOk_frame (key : string) (r r' : Room.t) :
  Room.code r' = Room.code r ->
  roomCode (Room.state r') = roomCode (Room.state r) ->
  idOk key r -> idOk key r'.
Proof. intros Hc Hs [H1 H2]. split; congruence. Qed.

Lemma playersOk_frame (r r' : Room.t) :
  (forall s, Room.players r' s = Room.players r s) ->
  (forall s, connected (tank_of (tanks (Room.state r')) s)
             = connected (tank_of (tanks (Room.state r)) s)) ->
  playersOk r -> playersOk r'.
Proof.
  intros Hp Hc [H1 H2]. split.
  - intros s p. rewrite Hp. apply H1.
  - intros s. rewrite Hc, H2. unfold playerConnected. by rewrite Hp.
Qed.

Lemma outcomeOk_playing (s : GameState) (ph : GamePhase) :
  ph <> match_end -> winnerSlot s = None ->
  0 < hp (tankA (tanks s)) /\ 0 < hp (tankB (tanks s)) ->
  phase s = ph -> outcomeOk s.
Proof.
  intros Hne Hw Hhp Hph. split.
  - rewrite Hw, Hph. split; [by intros [? [=]]|done].
  - intros _. exact Hhp.
Qed.

Lemma outcomeOk_ended (s : GameState) :
  is_Some (winnerSlot s) -> phase s = match_end -> outcomeOk s.
Proof. intros Hw Hph. split; [done|]. intros Hne. done. Qed.

(** What [outcomeOk] gives while the match is not over. *)
Lemma outcomeOk_open (s : GameState) :
  outcomeOk s -> phase s <> match_end ->
  winnerSlot s = None /\ 0 < hp (tankA (tanks s)) /\ 0 < hp (tankB (tanks s)).
Proof.
  intros [Hw Hhp] Hne. split; [|by apply Hhp].
  destruct (winnerSlot s) eqn:He; [|done].
  exfalso. apply Hne, Hw. by eexists.
Qed.

Lemma fireForSlot_roomOk (key : string) (r : Room.t) (s : PlayerSlot) :
  roomOk key r -> roomOk key (fireForSlot r s).
Proof.
  intros (Hid & Hpl & Hwo & Hout & Hsim & Hsnap). unfold fireForSlot.
  destruct (bool_decide _) eqn:Hph; [done|].
  apply bool_decide_eq_false in Hph. apply dec_stable in Hph.
  destruct (outcomeOk_open _ Hout) as (Hw & Hhp); [by rewrite Hph|].
  split; [|split; [|split; [|split; [|split]]]].
  - by apply (idOk_frame key r).
  - by apply (playersOk_frame r).
  - by apply (worldOk_same_tanks (Room.state r)).
  - by apply (outcomeOk_playing _ projectile_flight).
  - intros _. by left.
  - exact Hsnap.
Qed.

Lemma roomOk_frame (key : string) (r r' : Room.t) :
  Room.code r' = Room.code r -> Room.state r' = Room.state r ->
  (forall s, Room.players r' s = Room.players r s) ->
  (Room.simulationTimer r' = Pending -> Room.simulationTimer r = Pending) ->
  Room.pauseSnapshot r' = Room.pauseSnapshot r ->
  roomOk key r -> roomOk key r'.
Proof.
  intros Hc Hs Hp Hsim Hsn (Hid & Hpl & Hwo & Hout & Hsi & Hsnap).
  split; [|split; [|split; [|split; [|split]]]].
  - apply (idOk_frame key r); [done|by rewrite Hs|done].
  - apply (playersOk_frame r); [done|by rewrite Hs|done].
  - by rewrite Hs.
  - by rewrite Hs.
  - rewrite Hs. intros Hp'. by apply Hsi, Hsim.
  - rewrite Hsn. exact Hsnap.
Qed.

Lemma stepProjectile_projectile_only (s : GameState) (dt : R) :
  (stepProjectile s dt).1 = set_projectile s (projectile (stepProjectile s dt).1).
Proof.
  unfold stepProjectile. destruct (projectile s) as [p|] eqn:Hp.
  2: { destruct s; simpl in *. by subst. }
  destruct (negb (active p)).
  { destruct s; simpl in *. by subst. }
  cbv zeta.
  repeat (match goal with |- context [if ?b then _ else _] => destruct b end);
    reflexivity.
Qed.

Lemma applyBlastDamage_connected (s : GameState) (impact : Vector2)
  (sl : PlayerSlot) :
  connected (tank_of (tanks (applyBlastDamage s impact).1) sl)
  = connected (tank_of (tanks s) sl).
Proof. rewrite tank_after_blast. apply (blasted_world s impact sl). Qed.

Lemma applyBlastDamage_rest (s : GameState) (impact : Vector2) :
  (applyBlastDamage s impact).1
  = set_tanks s (tanks (applyBlastDamage s impact).1).
Proof. by rewrite applyBlastDamage_unfold. Qed.

Lemma resolveWinner_None (s : GameState) (shooter : PlayerSlot) :
  resolveWinner s shooter = None ->
  0 < hp (tankA (tanks s)) /\ 0 < hp (tankB (tanks s)).
Proof.
  unfold resolveWinner. cbv zeta.
  destruct (0 <? hp (tankA (tanks s))) eqn:HA;
    destruct (0 <? hp (tankB (tanks s))) eqn:HB; cbn [andb].
  - intros _. by split; apply ltb_true.
  - by destruct (_ && _).
  - by destruct (_ && _).
  - by destruct (_ && _).
Qed.

Lemma resolveImpact_roomOk (key : string) (r : Room.t) (point : Vector2) :
  roomOk key r -> phase (Room.state r) <> match_end ->
  roomOk key (resolveImpact r point).
Proof.
  intros (Hid & Hpl & Hwo & Hout & Hsim & Hsnap) Hne.
  destruct (outcomeOk_open _ Hout Hne) as (Hw & _).
  unfold resolveImpact. cbv zeta.
  cbn [clearSimulation Room.state Room.set_simulationTimer Room.set_state].
  set (st1 := updateTankGrounding
                (deformTerrain (set_projectile (Room.state r) None) point)).
  assert (Hwo1 : worldOk st1).
  { apply grounding_ok.
    - apply deformTerrain_terrainOk. apply Hwo.
    - apply Hwo. }
  pose proof (applyBlastDamage_world st1 point Hwo1) as Hwo2.
  pose proof (applyBlastDamage_rest st1 point) as Hrest.
  pose proof (applyBlastDamage_connected st1 point) as Hcon.
  destruct (applyBlastDamage st1 point) as [st2 damage]. cbn [fst] in *.
  assert (Hcode : roomCode st2 = roomCode (Room.state r)) by (by rewrite Hrest).
  assert (Hwin : winnerSlot st2 = None) by (by rewrite Hrest).
  assert (Hcon2 : forall sl, connected (tank_of (tanks st2) sl)
                    = connected (tank_of (tanks (Room.state r)) sl)).
  { intros sl. rewrite Hcon. by destruct sl. }
  cbn [Room.state Room.set_state].
  destruct (resolveWinner st2 _) as [winner|] eqn:Hres.
  - split; [|split; [|split; [|split; [|split]]]].
    + by apply (idOk_frame key r).
    + by apply (playersOk_frame r).
    + by apply (worldOk_same_tanks st2).
    + apply outcomeOk_ended; [by eexists|reflexivity].
    + intros [=].
    + exact Hsnap.
  - apply resolveWinner_None in Hres.
    split; [|split; [|split; [|split; [|split]]]].
    + apply (idOk_frame key r); [done| |done].
      unfold setPhase. by rewrite bool_decide_eq_true_2.
    + apply (playersOk_frame r); [done| |done].
      unfold setPhase. by rewrite bool_decide_eq_true_2.
    + apply (worldOk_same_tanks st2); [| |done];
        unfold setPhase; by rewrite bool_decide_eq_true_2.
    + apply (outcomeOk_playing _ round_end); [done| | |];
        unfold setPhase; by rewrite bool_decide_eq_true_2.
    + intros [=].
    + exact Hsnap.
Qed.

Lemma onSimulationTick_roomOk (key : string) (r : Room.t) :
  roomOk key r -> Room.simulationTimer r = Pending ->
  roomOk key (onSimulationTick r).
Proof.
  intros Hok Hpending. unfold onSimulationTick.
  pose proof (stepProjectile_projectile_only (Room.state r) (1 / IZR TICK_RATE))
    as Hstep.
  destruct (stepProjectile _ _) as [st impact]. cbn [fst] in Hstep.
  assert (Hok1 : roomOk key (Room.set_state r st)).
  { destruct Hok as (Hid & Hpl & Hwo & Hout & Hsim & Hsnap).
    split; [|split; [|split; [|split; [|split]]]].
    - apply (idOk_frame key r); [done|by rewrite Hstep|done].
    - apply (playersOk_frame r); [done|by rewrite Hstep|done].
    - apply (worldOk_same_tanks (Room.state r)); [by rewrite Hstep..|done].
    - cbn [Room.state Room.set_state]. rewrite Hstep.
      destruct Hout as [H1 H2]. split; [exact H1|exact H2].
    - cbn [Room.state Room.set_state Room.simulationTimer]. rewrite Hstep.
      exact Hsim.
    - exact Hsnap. }
  destruct impact as [i|]; [|exact Hok1].
  apply resolveImpact_roomOk; [exact Hok1|].
  cbn [Room.state Room.set_state]. rewrite Hstep. cbn [phase set_projectile].
  destruct Hok as (_ & _ & _ & _ & Hsim & _).
  destruct (Hsim Hpending) as [-> | ->]; done.
Qed.

Lemma onTurnTimeout_roomOk (key : string) (r : Room.t) :
  roomOk key r -> roomOk key (onTurnTimeout (Room.set_turnTimer r Spent)).
Proof.
  intros Hok.
  assert (Hok1 : roomOk key (Room.set_turnTimer r Spent))
    by (by apply (roomOk_frame key r)).
  unfold onTurnTimeout. destruct (bool_decide _); [exact Hok1|].
  by apply fireForSlot_roomOk.
Qed.

Lemma enterTurn_roomOk (key : string) (now : Z) (r : Room.t) (sl : PlayerSlot)
  (rnd : Z) (wr : R) :
  roomOk key r -> phase (Room.state r) <> match_end ->
  roomOk key
    (scheduleTurnTimeout
       (Room.set_state (Room.set_random r rnd)
          (enterTurn now (Room.state r) sl wr))).
Proof.
  intros (Hid & Hpl & Hwo & Hout & Hsim & Hsnap) Hne.
  destruct (outcomeOk_open _ Hout Hne) as (Hw & Hhp).
  assert (Hst : Room.state (scheduleTurnTimeout
                  (Room.set_state (Room.set_random r rnd)
                     (enterTurn now (Room.state r) sl wr)))
                = enterTurn now (Room.state r) sl wr)
    by apply scheduleTurnTimeout_state.
  assert (Hrest : forall r0, Room.code (scheduleTurnTimeout r0) = Room.code r0 /\
            (forall s, Room.players (scheduleTurnTimeout r0) s = Room.players r0 s) /\
            Room.simulationTimer (scheduleTurnTimeout r0) = Room.simulationTimer r0 /\
            Room.pauseSnapshot (scheduleTurnTimeout r0) = Room.pauseSnapshot r0).
  { intros r0. unfold scheduleTurnTimeout. destruct (_ || _); repeat split;
      by intros []. }
  destruct (Hrest (Room.set_state (Room.set_random r rnd)
                     (enterTurn now (Room.state r) sl wr)))
    as (Hc & Hp & Hs & Hn).
  split; [|split; [|split; [|split; [|split]]]].
  - apply (idOk_frame key r); [by rewrite Hc|by rewrite Hst|done].
  - apply (playersOk_frame r); [by intros s; rewrite Hp|by rewrite Hst|done].
  - rewrite Hst. by apply (worldOk_same_tanks (Room.state r)).
  - rewrite Hst. by apply (outcomeOk_playing _ aiming).
  - rewrite Hst. intros _. by right.
  - rewrite Hn. exact Hsnap.
Qed.

Lemma onRoundDelay_roomOk (key : string) (now : Z) (r : Room.t) (n : nat) :
  roomOk key r -> roomOk key (onRoundDelay now (Room.set_roundDelays r n)).
Proof.
  intros Hok.
  assert (Hok1 : roomOk key (Room.set_roundDelays r n))
    by (by apply (roomOk_frame key r)).
  unfold onRoundDelay.
  destruct (bool_decide (_ = paused_reconnect)) eqn:H1; [exact Hok1|].
  destruct (bool_decide (_ = match_end)) eqn:H2; [exact Hok1|].
  cbn [orb]. apply bool_decide_eq_false in H2.
  destruct (pickWind _) as [w rnd].
  by apply (enterTurn_roomOk key now (Room.set_roundDelays r n)).
Qed.

Lemma onReconnectTimeout_roomOk (key : string) (r : Room.t) :
  roomOk key r ->
  roomOk key (onReconnectTimeout (Room.set_reconnectTimer r Spent)).
Proof.
  intros Hok.
  assert (Hok1 : roomOk key (Room.set_reconnectTimer r Spent))
    by (by apply (roomOk_frame key r)).
  unfold onReconnectTimeout.
  destruct (bool_decide (_ <> _)) eqn:Hph; [exact Hok1|].
  apply bool_decide_eq_false in Hph. apply dec_stable in Hph.
  destruct (findDisconnectedSlot _) as [d|]; [|exact Hok1].
  destruct Hok1 as (Hid & Hpl & Hwo & Hout & Hsim & Hsnap).
  split; [|split; [|split; [|split; [|split]]]].
  - by apply (idOk_frame key r).
  - by apply (playersOk_frame r).
  - by apply (worldOk_same_tanks (Room.state r)).
  - apply outcomeOk_ended; [by eexists|reflexivity].
  - intros Hp. destruct (Hsim Hp) as [H|H]; rewrite Hph in H; done.
  - exact Hsnap.
Qed.

Lemma pauseForReconnect_roomOk (key : string) (now : Z) (r : Room.t)
  (s : PlayerSlot) :
  roomOk key r -> roomOk key (pauseForReconnect now r s).
Proof.
  intros Hok. unfold pauseForReconnect.
  destruct (bool_decide (_ = paused_reconnect)) eqn:H1; [exact Hok|].
  destruct (bool_decide (_ = match_end)) eqn:H2; [exact Hok|].
  cbn [orb]. apply bool_decide_eq_false in H1, H2.
  destruct Hok as (Hid & Hpl & Hwo & Hout & Hsim & Hsnap).
  destruct (outcomeOk_open _ Hout H2) as (Hw & Hhp).
  split; [|split; [|split; [|split; [|split]]]].
  - by apply (idOk_frame key r).
  - by apply (playersOk_frame r).
  - by apply (worldOk_same_tanks (Room.state r)).
  - by apply (outcomeOk_playing _ paused_reconnect).
  - intros [=].
  - intros snap [= <-]. by split.
Qed.

Lemma scheduleTurnTimeout_rest (r : Room.t) :
  Room.code (scheduleTurnTimeout r) = Room.code r /\
  (forall s, Room.players (scheduleTurnTimeout r) s = Room.players r s) /\
  Room.simulationTimer (scheduleTurnTimeout r) = Room.simulationTimer r /\
  Room.pauseSnapshot (scheduleTurnTimeout r) = Room.pauseSnapshot r.
Proof.
  unfold scheduleTurnTimeout. destruct (_ || _); repeat split; by intros [].
Qed.

Lemma scheduleTurnTimeout_roomOk (key : string) (r : Room.t) :
  roomOk key r -> roomOk key (scheduleTurnTimeout r).
Proof.
  destruct (scheduleTurnTimeout_rest r) as (Hc & Hp & Hs & Hn).
  apply roomOk_frame; try done; [apply scheduleTurnTimeout_state|].
  by rewrite Hs.
Qed.

Lemma resumeFromPauseIfReady_roomOk (key : string) (now : Z) (r : Room.t) :
  roomOk key r -> roomOk key (resumeFromPauseIfReady now r).
Proof.
  intros Hok. unfold resumeFromPauseIfReady.
  destruct (bool_decide (_ <> _)) eqn:Hph; [exact Hok|].
  apply bool_decide_eq_false in Hph. apply dec_stable in Hph.
  destruct (findDisconnectedSlot r); [exact Hok|].
  destruct Hok as (Hid & Hpl & Hwo & Hout & Hsim & Hsnap).
  destruct (outcomeOk_open _ Hout) as (Hw & Hhp); [by rewrite Hph|].
  assert (Hnosim : Room.simulationTimer r <> Pending).
  { intros Hp. destruct (Hsim Hp) as [H|H]; rewrite Hph in H; done. }
  cbv zeta. cbn [clearReconnectTimer Room.pauseSnapshot Room.set_reconnectTimer].
  destruct (Room.pauseSnapshot r) as [[before remaining]|] eqn:Hsn.
  - destruct (Hsnap _ eq_refl) as [Hb1 Hb2].
    cbn [PauseSnapshot.phaseBeforePause PauseSnapshot.remainingTurnMs] in *.
    set (r1 := Room.set_state _ (set_phase _ before)).
    assert (Hok1 : roomOk key r1).
    { split; [|split; [|split; [|split; [|split]]]].
      - by apply (idOk_frame key r).
      - by apply (playersOk_frame r).
      - by apply (worldOk_same_tanks (Room.state r)).
      - by apply (outcomeOk_playing _ before).
      - intros Hp. done.
      - intros snap [=]. }
    assert (Hph1 : phase (Room.state r1) = before) by reflexivity.
    clearbody r1.
    set (r2 := if bool_decide (before = aiming) then _ else r1).
    assert (Hok2 : roomOk key r2 /\ phase (Room.state r2) = before).
    { subst r2. destruct (bool_decide (before = aiming)); [|done].
      rewrite scheduleTurnTimeout_state. split; [|exact Hph1].
      apply scheduleTurnTimeout_roomOk.
      destruct Hok1 as (Hid1 & Hpl1 & Hwo1 & Hout1 & Hsim1 & Hsnap1).
      split; [|split; [|split; [|split; [|split]]]].
      - by apply (idOk_frame key r1).
      - by apply (playersOk_frame r1).
      - by apply (worldOk_same_tanks (Room.state r1)).
      - destruct Hout1 as [Ho1 Ho2]. split; [exact Ho1|exact Ho2].
      - exact Hsim1.
      - exact Hsnap1. }
    destruct Hok2 as [Hok2 Hph2]. clearbody r2.
    set (r3 := if bool_decide (before = projectile_flight) then _ else r2).
    assert (Hok3 : roomOk key r3 /\ phase (Room.state r3) = before).
    { subst r3. destruct (bool_decide (before = projectile_flight)) eqn:Hf;
        [|done].
      apply bool_decide_eq_true in Hf. split; [|exact Hph2].
      destruct Hok2 as (Hid2 & Hpl2 & Hwo2 & Hout2 & Hsim2 & Hsnap2).
      split; [|split; [|split; [|split; [|split]]]]; try done.
      intros _. left. cbn [restartSimulation Room.state Room.set_simulationTimer
                           clearSimulation]. congruence. }
    destruct Hok3 as [Hok3 Hph3]. clearbody r3.
    destruct (bool_decide (before = round_end)); [|exact Hok3].
    destruct (pickWind _) as [w rnd].
    apply (enterTurn_roomOk key now r3); [exact Hok3|]. by rewrite Hph3.
  - apply scheduleTurnTimeout_roomOk.
    split; [|split; [|split; [|split; [|split]]]].
    + apply (idOk_frame key r); [done| |done].
      cbn [Room.state Room.set_state Room.set_pauseSnapshot].
      by destruct (turnEndsAt _).
    + apply (playersOk_frame r); [done| |done].
      cbn [Room.state Room.set_state Room.set_pauseSnapshot].
      by destruct (turnEndsAt _).
    + cbn [Room.state Room.set_state Room.set_pauseSnapshot].
      apply (worldOk_same_tanks (Room.state r)); [| |done];
        by destruct (turnEndsAt _).
    + cbn [Room.state Room.set_state Room.set_pauseSnapshot].
      apply (outcomeOk_playing _ aiming); [done|..];
        by destruct (turnEndsAt _).
    + intros _. right.
      cbn [Room.state Room.set_state Room.set_pauseSnapshot].
      by destruct (turnEndsAt _).
    + intros snap [=].
Qed.

Lemma syncTankConnections_unfold (r : Room.t) :
  syncTankConnections r =
  Room.set_state r
    (set_tanks (Room.state r)
       (mkTanks
          (set_connected (tankA (tanks (Room.state r))) (playerConnected r A))
          (set_connected (tankB (tanks (Room.state r))) (playerConnected r B)))).
Proof. reflexivity. Qed.

(** The room [startMatch] builds around the fresh state [st0]. *)
Lemma started_roomOk (key : string) (now : Z) (r : Room.t) (st0 : GameState)
  (sl : PlayerSlot) (w : R) (rnd : Z) :
  Room.code r = key ->
  (forall s p, Room.players r s = Some p -> playerOk s p) ->
  roomCode st0 = key -> worldOk st0 -> winnerSlot st0 = None ->
  0 < hp (tankA (tanks st0)) /\ 0 < hp (tankB (tanks st0)) ->
  Room.state r = st0 -> Room.pauseSnapshot r = None ->
  let r1 := syncTankConnections r in
  let r2 := Room.set_random r1 rnd in
  let r3 := Room.set_state r2 (enterTurn now (Room.state r2) sl w) in
  roomOk key (scheduleTurnTimeout (clearSimulation (clearTurnTimer r3))).
Proof.
  intros Hid1 Hp1 Hc0 Hw0 Hwin0 Hhp0 Hst Hsn. cbv zeta.
  rewrite syncTankConnections_unfold, Hst.
  apply scheduleTurnTimeout_roomOk.
  unfold clearSimulation, clearTurnTimer.
  split; [|split; [|split; [|split; [|split]]]].
  - split; [exact Hid1|exact Hc0].
  - split; [exact Hp1|]. intros [|]; reflexivity.
  - apply (worldOk_frame st0); [reflexivity| |exact Hw0].
    intros [|]; by repeat split.
  - apply (outcomeOk_playing _ aiming); [done|exact Hwin0|exact Hhp0|done].
  - intros [=].
  - intros snap. cbn. rewrite Hsn. intros [=].
Qed.

Lemma startMatch_roomOk (key : string) (now : Z) (r : Room.t) :
  roomOk key r -> roomOk key (startMatch now r).
Proof.
  intros Hok. unfold startMatch.
  destruct (Rng.next _) as [u rnd]. cbv zeta.
  destruct (pickWind _) as [w rnd'].
  set (st0 := createInitialState _ _ _).
  apply (started_roomOk key now _ st0).
  - apply Hok.
  - apply Hok.
  - subst st0. etrans; [apply createInitialState_start|]. apply Hok.
  - apply createInitialState_world.
  - apply createInitialState_start.
  - destruct (createInitialState_start (Room.code r)
                (Rng.floorScaled u 1000000000) (Room.nextStartingSlot r))
      as (_ & _ & _ & _ & _ & _ & _ & _ & Hk0).
    destruct (Hk0 A) as (HA & _). destruct (Hk0 B) as (HB & _).
    cbn [tank_of] in HA, HB. subst st0.
    cbn [Room.code Room.seed Room.set_start Room.set_random].
    rewrite HA, HB. unfold STARTING_HP. lra.
  - reflexivity.
  - reflexivity.
Qed.

Lemma setPlayer_roomOk (key : string) (r : Room.t) (s : PlayerSlot)
  (p : RoomPlayer.t) :
  roomOk key r -> playerOk s p ->
  roomOk key (setTankConnected (Room.set_player r s (Some p)) s
                (RoomPlayer.connected p)).
Proof.
  intros (Hid & Hpl & Hwo & Hout & Hsim & Hsnap) Hp.
  split; [|split; [|split; [|split; [|split]]]].
  - by apply (idOk_frame key r).
  - destruct Hpl as [Hp1 Hp2]. split.
    + intros s' p'.
      destruct s, s'; cbn;
        first [intros [= <-]; exact Hp | apply (Hp1 A) | apply (Hp1 B)].
    + intros s'. specialize (Hp2 s'). unfold playerConnected in *.
      destruct s, s'; cbn in *; done.
  - apply (worldOk_frame (Room.state r)); [reflexivity| |exact Hwo].
    intros sl. destruct s, sl; by repeat split.
  - destruct Hout as [H1 H2]. split; [exact H1|].
    intros Hne. destruct (H2 Hne) as [HA HB]. by destruct s.
  - exact Hsim.
  - exact Hsnap.
Qed.

Lemma aim_roomOk (key : string) (r : Room.t) (s : PlayerSlot) (a p : R) :
  roomOk key r ->
  let st := Room.state r in
  let st :=
    set_tanks st (set_tank (tanks st) s
      (set_angleDeg (tank_of (tanks st) s) (clampAngle a))) in
  let st :=
    set_tanks st (set_tank (tanks st) s
      (set_power (tank_of (tanks st) s) (clampPower p))) in
  roomOk key (Room.set_state r st).
Proof.
  intros (Hid & Hpl & Hwo & Hout & Hsim & Hsnap). cbv zeta.
  assert (Ha : MIN_ANGLE <= clampAngle a <= MAX_ANGLE)
    by (apply clamp_between; unfold MIN_ANGLE, MAX_ANGLE; lra).
  assert (Hp : MIN_POWER <= clampPower p <= MAX_POWER)
    by (apply clamp_between; unfold MIN_POWER, MAX_POWER; lra).
  split; [|split; [|split; [|split; [|split]]]].
  - by apply (idOk_frame key r).
  - apply (playersOk_frame r); [done| |done]. intros sl. by destruct s, sl.
  - destruct Hwo as (Hter & Htank & Hg). split; [exact Hter|].
    split; intros sl.
    + destruct (Htank sl) as (H1 & H2 & H3 & H4 & H5).
      destruct s, sl; cbn; unfold tankOk; cbn; repeat split; tauto.
    + specialize (Hg sl). destruct s, sl; exact Hg.
  - destruct Hout as [H1 H2]. split; [exact H1|].
    intros Hne. destruct (H2 Hne) as [HA HB]. by destruct s.
  - exact Hsim.
  - exact Hsnap.
Qed.

Lemma newRoom_roomOk (code : string) (seed rnd now : Z) :
  roomOk code
    (Room.mk code seed rnd A (createInitialState code seed A)
       None None ∅ NoTimer NoTimer NoTimer None now 0).
Proof.
  pose proof (createInitialState_world code seed A) as Hw0.
  destruct (createInitialState_start code seed A)
    as (Hc0 & Hph0 & _ & _ & _ & Hwin0 & _ & _ & Hk0).
  split; [|split; [|split; [|split; [|split]]]].
  - split; [reflexivity|exact Hc0].
  - split; [by intros [|] p|]. intros sl. destruct (Hk0 sl) as (_ & _ & _ & Hc).
    cbn [Room.state]. rewrite Hc. by destruct sl.
  - exact Hw0.
  - cbn [Room.state]. apply (outcomeOk_playing _ lobby); [done|exact Hwin0| |exact Hph0].
    destruct (Hk0 A) as (HA & _). destruct (Hk0 B) as (HB & _).
    cbn [tank_of] in HA, HB. rewrite HA, HB. unfold STARTING_HP. lra.
  - intros [=].
  - intros snap [=].
Qed.

(** ** The registry stays well formed *)

Lemma roomsWf_insert (m : RoomManager) (key : string) (r : Room.t) :
  roomsWf m -> roomOk key r -> roomsWf (set_rooms m (<[key := r]> (rooms m))).
Proof.
  intros Hm Hr k r'. cbn [rooms set_rooms]. rewrite lookup_insert_Some.
  intros [[<- <-]|[_ Hk]]; [done|]. by apply (Hm k).
Qed.

Lemma roomsWf_same_rooms (m m' : RoomManager) :
  rooms m' = rooms m -> roomsWf m -> roomsWf m'.
Proof. intros Heq Hm k r. rewrite Heq. apply Hm. Qed.

Lemma destroyRoomIfEmpty_wf (m : RoomManager) (key : string) (r : Room.t) :
  roomsWf m -> roomOk key r -> roomsWf (destroyRoomIfEmpty m key r).
Proof.
  intros Hm Hr. unfold destroyRoomIfEmpty. destruct (_ || _).
  - by apply roomsWf_insert.
  - cbv zeta. intros k r'. cbn [rooms set_rooms].
    rewrite lookup_delete_Some, lookup_insert_Some.
    intros [_ [[<- <-]|[_ Hk]]]; [|by apply (Hm k)].
    by apply (roomOk_frame key r).
Qed.

Lemma left_roomOk (key : string) (r : Room.t) (s : PlayerSlot)
  (player : RoomPlayer.t) :
  roomOk key r -> Room.players r s = Some player ->
  roomOk key
    (setTankConnected
       (Room.set_player r s
          (Some (RoomPlayer.mk (RoomPlayer.slot player) (RoomPlayer.token player)
                   None false))) s false).
Proof.
  intros Hr Hp.
  apply (setPlayer_roomOk key r s
           (RoomPlayer.mk (RoomPlayer.slot player) (RoomPlayer.token player)
              None false)); [exact Hr|].
  destruct Hr as (_ & [Hpl _] & _). destruct (Hpl s player Hp) as [Hs _].
  split; [exact Hs|]. cbn. split; [done|]. by intros [? [=]].
Qed.

Lemma back_roomOk (key : string) (r : Room.t) (s : PlayerSlot)
  (player : RoomPlayer.t) (socketId : string) :
  roomOk key r -> Room.players r s = Some player ->
  roomOk key
    (setTankConnected
       (Room.set_player r s
          (Some (RoomPlayer.mk (RoomPlayer.slot player) (RoomPlayer.token player)
                   (Some socketId) true))) s true).
Proof.
  intros Hr Hp.
  apply (setPlayer_roomOk key r s
           (RoomPlayer.mk (RoomPlayer.slot player) (RoomPlayer.token player)
              (Some socketId) true)); [exact Hr|].
  destruct Hr as (_ & [Hpl _] & _). destruct (Hpl s player Hp) as [Hs _].
  split; [exact Hs|]. cbn. split; [by eexists|done].
Qed.

Lemma seated_roomOk (key : string) (r : Room.t) (s : PlayerSlot)
  (token socketId : string) (rnd : Z) :
  roomOk key r ->
  roomOk key
    (setTankConnected
       (Room.set_player (Room.set_random r rnd) s
          (Some (RoomPlayer.mk s token (Some socketId) true))) s true).
Proof.
  intros Hr.
  apply (setPlayer_roomOk key (Room.set_random r rnd) s
           (RoomPlayer.mk s token (Some socketId) true)).
  - by apply (roomOk_frame key r).
  - split; [reflexivity|]. cbn. split; [by eexists|done].
Qed.

Lemma leaveBySocketId_wf (now : Z) (m : RoomManager) (socketId : string) :
  roomsWf m -> roomsWf (leaveBySocketId now m socketId).
Proof.
  intros Hm. unfold leaveBySocketId.
  destruct (socketBindings m !! socketId) as [binding|]; [|done].
  set (m1 := set_socketBindings m _).
  assert (Hm1 : roomsWf m1) by (by apply (roomsWf_same_rooms m)).
  cbv zeta. destruct (rooms m1 !! _) as [room|] eqn:Hroom; [|done].
  pose proof (Hm1 _ _ Hroom) as Hr.
  destruct (Room.players room _) as [player|] eqn:Hp; [|done].
  destruct (bool_decide (_ <> _)); [done|].
  pose proof (left_roomOk _ _ _ _ Hr Hp) as Hr1.
  destruct (bool_decide (_ = lobby)); [by apply destroyRoomIfEmpty_wf|].
  destruct (bool_decide (_ = match_end)).
  - apply destroyRoomIfEmpty_wf; [done|].
    by eapply roomOk_frame; [..|exact Hr1].
  - apply roomsWf_insert; [done|]. by apply pauseForReconnect_roomOk.
Qed.

Lemma createRoom_wf (now : Z) (m : RoomManager) (socketId : string) :
  roomsWf m -> roomsWf (createRoom now m socketId).1.
Proof.
  intros Hm. unfold createRoom.
  pose proof (leaveBySocketId_wf now m socketId Hm) as Hm1.
  unfold detachSocket. set (m1 := leaveBySocketId now m socketId) in *.
  pose proof (createUniqueCode_rooms m1) as Hrooms.
  destruct (createUniqueCode m1) as [code m2]. cbn [snd] in Hrooms.
  destruct (Rng.next (random m2)) as [u rnd].
  destruct (Rng.randomToken _) as [token rnd']. cbv zeta. cbn [fst].
  intros k r'. cbn [rooms set_rooms set_socketBindings]. rewrite Hrooms.
  rewrite lookup_insert_Some. intros [[<- <-]|[_ Hk]]; [|by apply (Hm1 k)].
  apply (setPlayer_roomOk code _ A (RoomPlayer.mk A token (Some socketId) true)).
  - eapply roomOk_frame; [..|apply (newRoom_roomOk code
                                      (Rng.floorScaled u 1000000000)
                                      rnd' now)]; done.
  - split; [reflexivity|]. cbn. split; [by eexists|done].
Qed.

Lemma joinRoom_wf (now : Z) (m : RoomManager) (socketId roomCode : string)
  (tok : option string) :
  roomsWf m -> roomsWf (joinRoom now m socketId roomCode tok).1.
Proof.
  intros Hm. unfold joinRoom.
  pose proof (leaveBySocketId_wf now m socketId Hm) as Hm1.
  unfold detachSocket. set (m1 := leaveBySocketId now m socketId) in *.
  cbv zeta. destruct (rooms m1 !! roomCode) as [room|] eqn:Hroom; [|done].
  pose proof (Hm1 _ _ Hroom) as Hr.
  match goal with |- context [match ?c with Some _ => _ | None => _ end] =>
    destruct c as [[s player]|] eqn:Hrec end.
  - assert (Hp : Room.players room s = Some player).
    { destruct tok as [t|]; [|done]. destruct (bool_decide (t = _)); [done|].
      unfold reclaims in Hrec.
      destruct (Room.players room A) as [pa|] eqn:HA.
      - destruct (bool_decide (RoomPlayer.token pa = t)).
        + by injection Hrec as <- <-.
        + destruct (Room.players room B) as [pb|] eqn:HB; [|done].
          destruct (bool_decide (RoomPlayer.token pb = t)); [|done].
          by injection Hrec as <- <-.
      - destruct (Room.players room B) as [pb|] eqn:HB; [|done].
        destruct (bool_decide (RoomPlayer.token pb = t)); [|done].
        by injection Hrec as <- <-. }
    unfold reclaimSlot. cbv zeta. cbn [fst].
    apply (roomsWf_insert (set_socketBindings m1 _)); [done|].
    apply resumeFromPauseIfReady_roomOk. by apply back_roomOk.
  - match goal with |- context [match ?c with Some _ => _ | None => _ end] =>
      destruct c as [s|] end; [|done].
    destruct (Rng.randomToken _) as [token rnd]. cbv zeta. cbn [fst].
    apply (roomsWf_insert (set_socketBindings m1 _)); [done|].
    pose proof (seated_roomOk roomCode room s token socketId rnd Hr) as Hr1.
    destruct (_ && _); [by apply startMatch_roomOk|exact Hr1].
Qed.

Lemma applyAim_wf (m : RoomManager) (socketId : string) (a p : R) :
  roomsWf m -> roomsWf (applyAim m socketId a p).1.
Proof.
  intros Hm. unfold applyAim.
  destruct (socketBindings m !! socketId) as [info|]; [|done].
  destruct (rooms m !! _) as [room|] eqn:Hroom; [|done].
  destruct (bool_decide _); [done|]. destruct (bool_decide _); [done|].
  cbv zeta. cbn [fst]. apply roomsWf_insert; [done|].
  apply (aim_roomOk _ room). by apply (Hm _ _ Hroom).
Qed.

Lemma fire_wf (m : RoomManager) (socketId : string) :
  roomsWf m -> roomsWf (fire m socketId).1.
Proof.
  intros Hm. unfold fire.
  destruct (socketBindings m !! socketId) as [info|]; [|done].
  destruct (rooms m !! _) as [room|] eqn:Hroom; [|done].
  destruct (_ || _); [done|]. cbv zeta. cbn [fst].
  apply roomsWf_insert; [done|]. apply fireForSlot_roomOk. by apply (Hm _ _ Hroom).
Qed.

Lemma requestRematch_wf (now : Z) (m : RoomManager) (socketId : string) :
  roomsWf m -> roomsWf (requestRematch now m socketId).1.
Proof.
  intros Hm. unfold requestRematch.
  destruct (socketBindings m !! socketId) as [info|]; [|done].
  destruct (rooms m !! _) as [room|] eqn:Hroom; [|done].
  destruct (bool_decide _); [done|]. destruct (negb _); [done|].
  cbv zeta. cbn [fst]. apply roomsWf_insert; [done|].
  assert (Hr1 : roomOk (SocketBinding.roomCode info)
                  (Room.set_rematchVotes room
                     (Room.rematchVotes room ∪ {[SocketBinding.slot info]}))).
  { eapply roomOk_frame; [..|exact (Hm _ _ Hroom)]; done. }
  destruct (_ && _); [by apply startMatch_roomOk|exact Hr1].
Qed.

Lemma onRoom_wf (m : RoomManager) (key : string) (ready : Room.t -> bool)
  (callback : Room.t -> Room.t) :
  (forall r, roomOk key r -> ready r = true -> roomOk key (callback r)) ->
  roomsWf m -> roomsWf (onRoom m key ready callback).
Proof.
  intros Hcb Hm. unfold onRoom.
  destruct (rooms m !! key) as [room|] eqn:Hroom; [|done].
  destruct (ready room) eqn:Hready; [|done].
  apply roomsWf_insert; [done|]. apply Hcb; [|done]. by apply (Hm _ _ Hroom).
Qed.

Lemma step_wf (now : Z) (m : RoomManager) (e : Event) :
  roomsWf m -> roomsWf (step now m e).
Proof.
  intros Hm. destruct e; cbn [step].
  - by apply createRoom_wf.
  - by apply joinRoom_wf.
  - by apply leaveBySocketId_wf.
  - by apply applyAim_wf.
  - by apply fire_wf.
  - by apply requestRematch_wf.
  - apply onRoom_wf; [|done]. intros r Hr _. by apply onTurnTimeout_roomOk.
  - apply onRoom_wf; [|done]. intros r Hr Hp%bool_decide_eq_true.
    by apply onSimulationTick_roomOk.
  - apply onRoom_wf; [|done]. intros r Hr _. by apply onRoundDelay_roomOk.
  - apply onRoom_wf; [|done]. intros r Hr _. by apply onReconnectTimeout_roomOk.
Qed.

Lemma reachable_wf (m : RoomManager) : reachable m -> roomsWf m.
Proof.
  induction 1 as [now|now m e _ IH].
  - intros key r Hr. cbn in Hr. by rewrite lookup_empty in Hr.
  - by apply step_wf.
Qed.

(** X11.  In every state the manager can reach, a room is stored under
    its own code, and the state of the room carries the same code. *)
Theorem reachable_registry_keys (m : RoomManager) :
  reachable m ->
  forall key r, rooms m !! key = Some r ->
    Room.code r = key /\ roomCode (Room.state r) = key.
Proof.
  intros Hreach key r Hr. apply (reachable_wf m Hreach key r Hr).
Qed.

Lemma reachable_registry_keys_witness :
  let res := createRoom 1000 (newManager 0) "socket-a" in
  let room := JoinResult.room res.2 in
  roomCode (Room.state room) = Room.code room.
Proof.
  intros res room.
  apply (reachable_registry_keys (step 1000 (newManager 0) (CreateRoom "socket-a"))).
  - apply reachable_step, reachable_new.
  - apply (createRoom_stores 1000 (newManager 0) "socket-a").
Defined.

(** X12.  In every state the manager can reach, the terrain of every room
    is 1000 wide and 600 high and has 1000 entries, each of them a number
    within [180, 600]; so every height [heightAt] reads is within
    [180, 600]. *)
Theorem reachable_terrain (m : RoomManager) :
  reachable m ->
  forall key r, rooms m !! key = Some r ->
    let t := terrain (Room.state r) in
    width t = 1000%Z /\ height t = 600%Z /\ length (heights t) = 1000%nat /\
    Forall (fun e => exists v, e = Some v /\ 180 <= v <= 600) (heights t) /\
    (forall x0, 180 <= heightAt t x0 <= 600).
Proof.
  intros Hreach key r Hr.
  destruct (reachable_wf m Hreach key r Hr) as (_ & _ & (Hter & _) & _).
  pose proof Hter as (Hw & Hh & Hlen & Hfil).
  cbv zeta. split; [exact Hw|]. split; [exact Hh|].
  split; [rewrite Hlen; unfold WORLD_WIDTH; lia|].
  split; [by apply filled_Forall|]. intros x0. by apply heightAt_filled.
Qed.

Lemma reachable_terrain_witness :
  let res := createRoom 1000 (newManager 0) "socket-a" in
  let room := JoinResult.room res.2 in
  length (heights (terrain (Room.state room))) = 1000%nat.
Proof.
  intros res room.
  apply (reachable_terrain (step 1000 (newManager 0) (CreateRoom "socket-a"))
           (reachable_step _ _ _ (reachable_new 0)) (Room.code room) room).
  apply (createRoom_stores 1000 (newManager 0) "socket-a").
Defined.

(** X13.  In every state the manager can reach, the tanks of every room
    stand at x = 180 (slot A) and x = 820 (slot B) and rest on the
    terrain: y = heightAt(x) - tankRadius - 1, which is within
    [167, 587]. *)
Theorem reachable_tanks_grounded (m : RoomManager) :
  reachable m ->
  forall key r, rooms m !! key = Some r ->
    forall s,
      let k := tank_of (tanks (Room.state r)) s in
      slot k = s /\ x k = match s with A => 180 | B => 820 end /\
      y k = heightAt (terrain (Room.state r)) (x k) - PHYSICS.tankRadius - 1 /\
      167 <= y k <= 587.
Proof.
  intros Hreach key r Hr s.
  destruct (reachable_wf m Hreach key r Hr) as (_ & _ & (Hter & Htank & Hg) & _).
  destruct (Htank s) as (Hs & Hx & _). specialize (Hg s). unfold grounded in Hg.
  pose proof (heightAt_filled _ (x (tank_of (tanks (Room.state r)) s)) Hter) as Hh.
  cbv zeta. split; [exact Hs|]. split; [exact Hx|]. split; [exact Hg|].
  rewrite Hg. unfold PHYSICS.tankRadius. lra.
Qed.

Lemma reachable_tanks_grounded_witness :
  let res := createRoom 1000 (newManager 0) "socket-a" in
  let room := JoinResult.room res.2 in
  x (tankB (tanks (Room.state room))) = 820.
Proof.
  intros res room.
  apply (reachable_tanks_grounded
           (step 1000 (newManager 0) (CreateRoom "socket-a"))
           (reachable_step _ _ _ (reachable_new 0)) (Room.code room) room
           (proj1 (createRoom_stores 1000 (newManager 0) "socket-a")) B).
Defined.

(** X14.  In every state the manager can reach, every tank has its angle
    within [5, 175], its power within [20, 120] and its health within
    [0, 100]. *)
Theorem reachable_tank_ranges (m : RoomManager) :
  reachable m ->
  forall key r, rooms m !! key = Some r ->
    forall s,
      let k := tank_of (tanks (Room.state r)) s in
      5 <= angleDeg k <= 175 /\ 20 <= power k <= 120 /\ 0 <= hp k <= 100.
Proof.
  intros Hreach key r Hr s.
  destruct (reachable_wf m Hreach key r Hr) as (_ & _ & (_ & Htank & _) & _).
  destruct (Htank s) as (_ & _ & Ha & Hp & Hhp). done.
Qed.

Lemma reachable_tank_ranges_witness :
  let res := createRoom 1000 (newManager 0) "socket-a" in
  let room := JoinResult.room res.2 in
  0 <= hp (tankA (tanks (Room.state room))) <= 100.
Proof.
  intros res room.
  apply (reachable_tank_ranges
           (step 1000 (newManager 0) (CreateRoom "socket-a"))
           (reachable_step _ _ _ (reachable_new 0)) (Room.code room) room
           (proj1 (createRoom_stores 1000 (newManager 0) "socket-a")) A).
Defined.

(** X15.  In every state the manager can reach, the [connected] flag of a
    tank is that of the player of its slot (false for an empty slot);
    every player record sits in the slot it names and is connected
    exactly when it holds a socket. *)
Theorem reachable_connected (m : RoomManager) :
  reachable m ->
  forall key r, rooms m !! key = Some r ->
    forall s,
      connected (tank_of (tanks (Room.state r)) s) = playerConnected r s /\
      (forall p, Room.players r s = Some p ->
         RoomPlayer.slot p = s /\
         (RoomPlayer.connected p = true <-> RoomPlayer.socketId p <> None)).
Proof.
  intros Hreach key r Hr s.
  destruct (reachable_wf m Hreach key r Hr) as (_ & (Hp1 & Hp2) & _).
  split; [apply Hp2|]. intros p Hp. destruct (Hp1 s p Hp) as [Hs Hc].
  split; [exact Hs|]. rewrite Hc. split.
  - by intros [sid ->].
  - intros Hne. by destruct (RoomPlayer.socketId p); [eexists|].
Qed.

Lemma reachable_connected_witness :
  let res := createRoom 1000 (newManager 0) "socket-a" in
  let room := JoinResult.room res.2 in
  connected (tankA (tanks (Room.state room))) = playerConnected room A.
Proof.
  intros res room.
  apply (reachable_connected
           (step 1000 (newManager 0) (CreateRoom "socket-a"))
           (reachable_step _ _ _ (reachable_new 0)) (Room.code room) room
           (proj1 (createRoom_stores 1000 (newManager 0) "socket-a")) A).
Defined.

(** X16.  In every state the manager can reach, a room has a winner
    recorded exactly when its phase is [match_end]; until then both tanks
    have health left, so that a tank without health means the match is
    over. *)
Theorem reachable_outcome (m : RoomManager) :
  reachable m ->
  forall key r, rooms m !! key = Some r ->
    let st := Room.state r in
    (winnerSlot st <> None <-> phase st = match_end) /\
    (phase st <> match_end ->
     0 < hp (tankA (tanks st)) /\ 0 < hp (tankB (tanks st))) /\
    (hp (tankA (tanks st)) <= 0 \/ hp (tankB (tanks st)) <= 0 ->
     phase st = match_end).
Proof.
  intros Hreach key r Hr.
  destruct (reachable_wf m Hreach key r Hr) as (_ & _ & _ & (Hw & Hhp) & _).
  cbv zeta. split; [|split; [exact Hhp|]].
  - rewrite <- Hw. split.
    + intros Hne. by destruct (winnerSlot (Room.state r)); [eexists|].
    + by intros [w ->].
  - intros Hdead.
    destruct (decide (phase (Room.state r) = match_end)) as [|Hne]; [done|].
    destruct (Hhp Hne). lra.
Qed.

Lemma reachable_outcome_witness :
  let res := createRoom 1000 (newManager 0) "socket-a" in
  let room := JoinResult.room res.2 in
  winnerSlot (Room.state room) <> None <-> phase (Room.state room) = match_end.
Proof.
  intros res room.
  apply (reachable_outcome
           (step 1000 (newManager 0) (CreateRoom "socket-a"))
           (reachable_step _ _ _ (reachable_new 0)) (Room.code room) room
           (proj1 (createRoom_stores 1000 (newManager 0) "socket-a"))).
Defined.

(** ** Leaving *)

Lemma destroyRoomIfEmpty_bindings (m : RoomManager) (key : string) (r : Room.t) :
  socketBindings (destroyRoomIfEmpty m key r) = socketBindings m /\
  random (destroyRoomIfEmpty m key r) = random m.
Proof. unfold destroyRoomIfEmpty. by destruct (_ || _). Qed.

Lemma leaveBySocketId_bindings (now : Z) (m : RoomManager) (socketId : string) :
  socketBindings (leaveBySocketId now m socketId)
  = delete socketId (socketBindings m).
Proof.
  unfold leaveBySocketId.
  destruct (socketBindings m !! socketId) as [binding|] eqn:Hb.
  2: { symmetry. by apply delete_id. }
  cbv zeta. destruct (rooms _ !! _) as [room|]; [|done].
  destruct (Room.players room _) as [player|]; [|done].
  destruct (bool_decide (_ <> _)); [done|].
  destruct (bool_decide (_ = lobby)); [apply destroyRoomIfEmpty_bindings|].
  destruct (bool_decide (_ = match_end)); [apply destroyRoomIfEmpty_bindings|].
  done.
Qed.

Lemma leaveBySocketId_unbound (now : Z) (m : RoomManager) (socketId : string) :
  socketBindings m !! socketId = None -> leaveBySocketId now m socketId = m.
Proof. intros H. unfold leaveBySocketId. by rewrite H. Qed.

(** X17.  [leaveBySocketId] removes the binding of the socket and no
    other binding.  Afterwards the socket resolves to no room and to no
    slot, its [applyAim] and [fire] are refused without any change, and
    leaving once more changes nothing.  A socket that was not bound
    leaves the manager as it was. *)
Theorem leaveBySocketId_twice (now now' : Z) (m : RoomManager)
  (socketId : string) :
  let m1 := leaveBySocketId now m socketId in
  socketBindings m1 = delete socketId (socketBindings m) /\
  getSlotBySocketId m1 socketId = None /\
  getRoomBySocketId m1 socketId = None /\
  leaveBySocketId now' m1 socketId = m1 /\
  (forall a p, applyAim m1 socketId a p = (m1, None)) /\
  fire m1 socketId = (m1, None) /\
  (socketBindings m !! socketId = None -> m1 = m).
Proof.
  intros m1.
  assert (Hb : socketBindings m1 !! socketId = None).
  { subst m1. rewrite leaveBySocketId_bindings. apply lookup_delete_eq. }
  split; [apply leaveBySocketId_bindings|].
  unfold getSlotBySocketId, getRoomBySocketId, applyAim, fire. rewrite Hb.
  repeat split; try done.
  - by apply leaveBySocketId_unbound.
  - apply leaveBySocketId_unbound.
Qed.

Lemma leaveBySocketId_twice_witness :
  leaveBySocketId 5 (newManager 0) "socket-a" = newManager 0.
Proof.
  apply (leaveBySocketId_twice 5 5 (newManager 0) "socket-a"). reflexivity.
Defined.

(** ** Firing *)

Lemma fireForSlot_aiming (r : Room.t) (s : PlayerSlot) :
  phase (Room.state r) = aiming ->
  fireForSlot r s =
  Room.set_simulationTimer
    (Room.set_state (Room.set_turnTimer r NoTimer)
       (spawnProjectile (setPhase (Room.state r) projectile_flight) s))
    Pending.
Proof.
  intros Hph. unfold fireForSlot.
  rewrite bool_decide_eq_false_2 by (by rewrite Hph; intros ?). reflexivity.
Qed.

(** X18.  When [fire] succeeds, the socket was bound to the active slot
    of a room in phase [aiming].  The room is then in [projectile_flight]
    with an active projectile of that slot, no deadline, the turn timer
    cleared and the simulation running; tanks and terrain are as before.
    A second [fire] and any [applyAim] of the same socket are then
    refused and change nothing: one shot per turn. *)
Theorem fire_once (m : RoomManager) (socketId : string) (r' : Room.t) :
  (fire m socketId).2 = Some r' ->
  let m' := (fire m socketId).1 in
  (exists info r,
     socketBindings m !! socketId = Some info /\
     rooms m !! SocketBinding.roomCode info = Some r /\
     phase (Room.state r) = aiming /\
     activeSlot (Room.state r) = SocketBinding.slot info /\
     r' = fireForSlot r (SocketBinding.slot info) /\
     (exists p, projectile (Room.state r') = Some p /\
        owner p = SocketBinding.slot info /\ active p = true) /\
     tanks (Room.state r') = tanks (Room.state r) /\
     terrain (Room.state r') = terrain (Room.state r)) /\
  phase (Room.state r') = projectile_flight /\
  turnEndsAt (Room.state r') = None /\
  Room.turnTimer r' = NoTimer /\ Room.simulationTimer r' = Pending /\
  getRoomBySocketId m' socketId = Some r' /\
  fire m' socketId = (m', None) /\
  (forall a p, applyAim m' socketId a p = (m', None)).
Proof.
  unfold fire.
  destruct (socketBindings m !! socketId) as [info|] eqn:Hinfo; [|done].
  destruct (rooms m !! SocketBinding.roomCode info) as [room|] eqn:Hroom; [|done].
  destruct (decide (phase (Room.state room) = aiming)) as [Hph|Hph].
  2: { by rewrite bool_decide_eq_true_2. }
  rewrite (bool_decide_eq_false_2 (phase (Room.state room) <> aiming))
    by (by intros ?).
  destruct (decide (activeSlot (Room.state room) = SocketBinding.slot info))
    as [Hact|Hact].
  2: { by rewrite bool_decide_eq_true_2. }
  rewrite bool_decide_eq_false_2 by (by intros ?).
  cbn [orb]. cbv zeta. cbn [fst snd]. intros [= <-].
  rewrite (fireForSlot_aiming _ _ Hph).
  assert (Hflight : phase (Room.state
            (Room.set_simulationTimer
               (Room.set_state (Room.set_turnTimer room NoTimer)
                  (spawnProjectile
                     (setPhase (Room.state room) projectile_flight)
                     (SocketBinding.slot info))) Pending)) = projectile_flight)
    by reflexivity.
  set (room' := Room.set_simulationTimer _ Pending) in *.
  split; [|split; [exact Hflight|split; [reflexivity|split; [reflexivity|
           split; [reflexivity|]]]]].
  - exists info, room. repeat split; try done.
    + subst room'. by rewrite (fireForSlot_aiming _ _ Hph).
    + eexists. repeat split; reflexivity.
  - assert (Hlook : rooms (set_rooms m (<[SocketBinding.roomCode info := room']>
                                          (rooms m)))
                    !! SocketBinding.roomCode info = Some room')
      by apply lookup_insert_eq.
    unfold getRoomBySocketId, applyAim.
    cbn [socketBindings set_rooms]. rewrite Hinfo, Hlook.
    rewrite Hflight. cbn [socketBindings set_rooms] in *.
    split; [reflexivity|]. split; [reflexivity|]. intros a p. reflexivity.
Qed.

Lemma fire_once_witness :
  phase (Room.state (fireForSlot aimingRoom A)) = projectile_flight.
Proof.
  apply (fire_once aimingManager "socket-a" (fireForSlot aimingRoom A)).
  reflexivity.
Defined.

(** ** Starting a match *)

Lemma scheduleTurnTimeout_aiming (r : Room.t) (d : Z) :
  phase (Room.state r) = aiming -> turnEndsAt (Room.state r) = Some d ->
  scheduleTurnTimeout r = Room.set_turnTimer r Pending.
Proof.
  intros Hph Hd. unfold scheduleTurnTimeout, clearTurnTimer.
  cbn [Room.state Room.set_turnTimer]. rewrite Hph, Hd.
  rewrite bool_decide_eq_false_2 by (by intros ?).
  rewrite bool_decide_eq_false_2 by done. reflexivity.
Qed.

Lemma startMatch_facts (now : Z) (r : Room.t) :
  let r' := startMatch now r in
  let st := Room.state r' in
  (phase st = aiming /\ activeSlot st = Room.nextStartingSlot r /\
   turnEndsAt st = Some (now + TURN_DURATION_MS)%Z /\
   projectile st = None /\ winnerSlot st = None /\
   roomCode st = Room.code r /\ -24 <= force (wind st) <= 24 /\
   terrain st = worldTerrain (IZR (Room.seed r'))) /\
  (forall s,
     let k := tank_of (tanks st) s in
     hp k = STARTING_HP /\ power k = 72 /\
     angleDeg k = match s with A => 45 | B => 135 end /\
     connected k = playerConnected r s) /\
  (Room.nextStartingSlot r' = oppositeSlot (Room.nextStartingSlot r) /\
   (0 <= Room.seed r' < 1000000000)%Z /\
   Room.rematchVotes r' = ∅ /\ Room.pauseSnapshot r' = None /\
   Room.turnTimer r' = Pending /\ Room.simulationTimer r' = NoTimer /\
   Room.reconnectTimer r' = NoTimer /\
   Room.code r' = Room.code r /\ Room.createdAt r' = Room.createdAt r /\
   (forall s, Room.players r' s = Room.players r s)).
Proof.
  unfold startMatch. pose proof (next_word (Room.random r)) as Hw.
  destruct (Rng.next _) as [u rnd]. cbn [fst] in Hw. cbv zeta.
  rewrite syncTankConnections_unfold.
  match goal with |- context [pickWind ?g] =>
    pose proof (pickWind_bounds g) as Hwind; destruct (pickWind g) as [w rnd']
  end.
  cbn [fst] in Hwind.
  destruct (createInitialState_start (Room.code r)
              (Rng.floorScaled u 1000000000) (Room.nextStartingSlot r))
    as (Hc0 & _ & _ & _ & Hpr0 & Hwin0 & Hter0 & _ & Hk0).
  unfold clearSimulation, clearTurnTimer, clearReconnectTimer.
  erewrite scheduleTurnTimeout_aiming by reflexivity.
  cbn [Room.state Room.set_state Room.set_turnTimer Room.set_simulationTimer
       Room.set_random Room.set_reconnectTimer Room.set_pauseSnapshot
       Room.set_rematchVotes Room.set_start Room.code Room.seed
       Room.nextStartingSlot Room.rematchVotes Room.pauseSnapshot
       Room.turnTimer Room.simulationTimer Room.reconnectTimer Room.createdAt
       Room.random].
  set (st0 := createInitialState _ _ _) in *. clearbody st0.
  split; [|split].
  - cbn. repeat split; try done; lra.
  - intros s. destruct (Hk0 s) as (H1 & H2 & H3 & _).
    destruct s; cbn in *; repeat split; done.
  - pose proof (floorScaled_range u 1000000000 Hw ltac:(lia)).
    repeat split; try done; try lia.
Qed.

(** X19.  [startMatch] leaves the room in phase [aiming], in the turn of
    the slot that was next to start, with a deadline 30 s ahead and the
    turn timer pending, no projectile, no winner and a wind within
    [-24, 24].  Both tanks have full health and the initial aim (45 and
    135 degrees, power 72), and their [connected] flags are those of the
    players.  Votes, pause snapshot, reconnect timer and simulation are
    cleared; players and code are kept.  The match after it starts with
    the other slot. *)
Theorem startMatch_fresh (now now' : Z) (r : Room.t) :
  let r' := startMatch now r in
  let st := Room.state r' in
  (phase st = aiming /\ activeSlot st = Room.nextStartingSlot r /\
   turnEndsAt st = Some (now + 30000)%Z /\
   projectile st = None /\ winnerSlot st = None /\
   roomCode st = Room.code r /\ -24 <= force (wind st) <= 24) /\
  (forall s,
     let k := tank_of (tanks st) s in
     hp k = 100 /\ power k = 72 /\
     angleDeg k = match s with A => 45 | B => 135 end /\
     connected k = playerConnected r s) /\
  (Room.rematchVotes r' = ∅ /\ Room.pauseSnapshot r' = None /\
   Room.turnTimer r' = Pending /\ Room.simulationTimer r' = NoTimer /\
   Room.reconnectTimer r' = NoTimer /\ Room.code r' = Room.code r /\
   (forall s, Room.players r' s = Room.players r s)) /\
  activeSlot (Room.state (startMatch now' r')) = oppositeSlot (activeSlot st).
Proof.
  destruct (startMatch_facts now r)
    as ((H1 & H2 & H3 & H4 & H5 & H6 & H7 & _) & Hk &
        (Hn & _ & Hv & Hs & Ht & Hsim & Hre & Hc & _ & Hp)).
  cbv zeta. split; [done|]. split; [exact Hk|]. split; [done|].
  destruct (startMatch_facts now' (startMatch now r)) as ((_ & Ha & _) & _).
  rewrite Ha, Hn, H2. reflexivity.
Qed.

(** ** Asking for a rematch *)

Lemma playerConnected_present (r : Room.t) (s : PlayerSlot) :
  playerConnected r s = true -> is_Some (Room.players r s).
Proof. unfold playerConnected. by destruct (Room.players r s); [eexists|]. Qed.

Lemma vote_own (s : PlayerSlot) (v : gset PlayerSlot) : s ∈ v ∪ {[s]}.
Proof. apply elem_of_union. right. by apply elem_of_singleton. Qed.

Lemma vote_other (s : PlayerSlot) (v : gset PlayerSlot) :
  oppositeSlot s ∈ v ∪ {[s]} <-> oppositeSlot s ∈ v.
Proof.
  rewrite elem_of_union, elem_of_singleton. split; [|by left].
  intros [H|H]; [done|]. by destruct s.
Qed.

(** X20.  Whenever [requestRematch] returns an error code, which is one
    of the four of the source, the manager is unchanged.  When it returns
    [null], the caller was a connected player of a room in [match_end];
    its vote is recorded, and the match restarts exactly when the other
    slot had voted already and its player is connected.  The restarted
    room is in [aiming] with no votes. *)
Theorem requestRematch_outcome (now : Z) (m : RoomManager) (socketId : string) :
  let res := requestRematch now m socketId in
  (forall e, res.2 = Some e ->
     res.1 = m /\
     e ∈ ["NOT_IN_ROOM"; "ROOM_UNAVAILABLE"; "REMATCH_NOT_AVAILABLE";
          "PLAYER_NOT_CONNECTED"]) /\
  (res.2 = None ->
   exists info room room',
     socketBindings m !! socketId = Some info /\
     rooms m !! SocketBinding.roomCode info = Some room /\
     phase (Room.state room) = match_end /\
     playerConnected room (SocketBinding.slot info) = true /\
     res.1 = set_rooms m (<[SocketBinding.roomCode info := room']> (rooms m)) /\
     let voted :=
       Room.set_rematchVotes room
         (Room.rematchVotes room ∪ {[SocketBinding.slot info]}) in
     let other := oppositeSlot (SocketBinding.slot info) in
     if bool_decide (other ∈ Room.rematchVotes room)
        && playerConnected room other
     then room' = startMatch now voted /\
          phase (Room.state room') = aiming /\ Room.rematchVotes room' = ∅
     else room' = voted).
Proof.
  unfold requestRematch.
  destruct (socketBindings m !! socketId) as [info|] eqn:Hinfo.
  2: { split; [|done]. intros e [= <-]. split; [done|]. apply list_elem_of_In. simpl. tauto. }
  destruct (rooms m !! SocketBinding.roomCode info) as [room|] eqn:Hroom.
  2: { split; [|done]. intros e [= <-]. split; [done|]. apply list_elem_of_In. simpl. tauto. }
  destruct (decide (phase (Room.state room) = match_end)) as [Hph|Hph].
  2: { rewrite bool_decide_eq_true_2 by done.
       split; [|done]. intros e [= <-]. split; [done|]. apply list_elem_of_In. simpl. tauto. }
  rewrite bool_decide_eq_false_2 by (by intros ?).
  destruct (playerConnected room (SocketBinding.slot info)) eqn:Hcon; cbn [negb].
  2: { split; [|done]. intros e [= <-]. split; [done|]. apply list_elem_of_In. simpl. tauto. }
  cbv zeta. cbn [fst snd]. split; [done|]. intros _.
  exists info, room. eexists. split; [done|]. split; [done|]. split; [done|].
  split; [done|]. split; [reflexivity|].
  set (voted := Room.set_rematchVotes room _).
  assert (Hpc : forall s, playerConnected voted s = playerConnected room s)
    by (by intros [|]).
  rewrite !Hpc.
  assert (Hpres : forall s, playerConnected room s = true ->
            bool_decide (is_Some (Room.players voted s)) = true).
  { intros s Hs. apply bool_decide_eq_true. by apply playerConnected_present. }
  change (Room.playerA voted) with (Room.players voted A).
  change (Room.playerB voted) with (Room.players voted B).
  change (Room.rematchVotes voted)
    with (Room.rematchVotes room ∪ {[SocketBinding.slot info]}).
  destruct (SocketBinding.slot info) eqn:Hslot; cbn [oppositeSlot].
  - rewrite (Hpres A Hcon), Hcon.
    rewrite (bool_decide_eq_true_2 (A ∈ _)) by apply vote_own. cbn [andb].
    destruct (playerConnected room B) eqn:HB.
    + rewrite (Hpres B HB). cbn [andb].
      destruct (decide (B ∈ Room.rematchVotes room)) as [Hin|Hin].
      * rewrite !bool_decide_eq_true_2
          by (try apply (proj2 (vote_other A _)); exact Hin).
        cbn [andb].
        split; [reflexivity|]. split; apply (startMatch_facts now voted).
      * rewrite !(bool_decide_eq_false_2 (B ∈ _))
          by (try rewrite (vote_other A); exact Hin).
        rewrite ?andb_false_r. cbn [andb]. reflexivity.
    + rewrite ?andb_false_r. cbn [andb]. reflexivity.
  - rewrite (Hpres B Hcon), Hcon.
    rewrite (bool_decide_eq_true_2 (B ∈ _)) by apply vote_own.
    destruct (playerConnected room A) eqn:HA.
    + rewrite (Hpres A HA). cbn [andb].
      destruct (decide (A ∈ Room.rematchVotes room)) as [Hin|Hin].
      * rewrite !bool_decide_eq_true_2
          by (try apply (proj2 (vote_other B _)); exact Hin).
        cbn [andb].
        split; [reflexivity|]. split; apply (startMatch_facts now voted).
      * rewrite !(bool_decide_eq_false_2 (A ∈ _))
          by (try rewrite (vote_other B); exact Hin).
        rewrite ?andb_false_r. cbn [andb]. reflexivity.
    + rewrite ?andb_false_r. cbn [andb]. reflexivity.
Qed.

Lemma requestRematch_outcome_witness :
  (requestRematch 0 aimingManager "socket-a").1 = aimingManager.
Proof.
  apply (proj1 (requestRematch_outcome 0 aimingManager "socket-a")
           "REMATCH_NOT_AVAILABLE").
  reflexivity.
Defined.

(** ** Joining *)

Lemma reclaims_other (room : Room.t) (t : string) (s : PlayerSlot)
  (p : RoomPlayer.t) :
  Room.players room s = Some p -> RoomPlayer.token p <> t ->
  reclaims room t s = None.
Proof.
  intros Hp Hne. unfold reclaims. rewrite Hp.
  by rewrite bool_decide_eq_false_2.
Qed.

Lemma reclaims_own (room : Room.t) (s : PlayerSlot) (p : RoomPlayer.t) :
  Room.players room s = Some p ->
  reclaims room (RoomPlayer.token p) s = Some p.
Proof.
  intros Hp. unfold reclaims. rewrite Hp. by rewrite bool_decide_eq_true_2.
Qed.

(** X21.  [joinRoom] returns [null] for a code that is not in the
    registry, and for a room whose two slots are taken unless the token
    given is not empty and is the token of one of its players.  In both
    cases its only effect is that the socket has left the room it was
    in. *)
Theorem joinRoom_rejects (now : Z) (m : RoomManager) (socketId roomCode : string)
  (tok : option string) :
  let m1 := leaveBySocketId now m socketId in
  (rooms m1 !! roomCode = None ->
   joinRoom now m socketId roomCode tok = (m1, None)) /\
  (forall room pa pb,
     rooms m1 !! roomCode = Some room ->
     Room.playerA room = Some pa -> Room.playerB room = Some pb ->
     (tok = None \/ tok = Some EmptyString \/
      exists t, tok = Some t /\ RoomPlayer.token pa <> t /\
                RoomPlayer.token pb <> t) ->
     joinRoom now m socketId roomCode tok = (m1, None)).
Proof.
  intros m1. unfold joinRoom, detachSocket. fold m1. cbv zeta. split.
  - intros ->. reflexivity.
  - intros room pa pb -> HA HB Htok. rewrite HA, HB.
    destruct Htok as [->|[->|(t & -> & Hta & Htb)]]; [done|done|].
    destruct (bool_decide (t = EmptyString)); [done|].
    rewrite (reclaims_other room t A pa HA Hta).
    rewrite (reclaims_other room t B pb HB Htb). reflexivity.
Qed.

Lemma joinRoom_rejects_witness :
  joinRoom 0 aimingManager "socket-c" "ABCDE" None
  = (leaveBySocketId 0 aimingManager "socket-c", None).
Proof.
  apply (proj2 (joinRoom_rejects 0 aimingManager "socket-c" "ABCDE" None)
           aimingRoom
           (RoomPlayer.mk A "aaaaaaaaaaaaaaaaaaaaaaaa" (Some "socket-a") true)
           (RoomPlayer.mk B "bbbbbbbbbbbbbbbbbbbbbbbb" (Some "socket-b") true)).
  - reflexivity.
  - reflexivity.
  - reflexivity.
  - by left.
Defined.

(** X22.  A socket that joins, without a token, a room in the lobby whose
    slot A is taken and whose slot B is free gets slot B with a fresh
    token and is bound to the room, and the match starts at once: phase
    [aiming], the turn of the room's next starting slot, a deadline 30 s
    ahead with its timer pending, both tanks at full health, tank B
    connected. *)
Theorem joinRoom_starts_match (now : Z) (m : RoomManager)
  (socketId roomCode : string) (room : Room.t) (pa : RoomPlayer.t) :
  let m1 := leaveBySocketId now m socketId in
  rooms m1 !! roomCode = Some room ->
  Room.playerA room = Some pa -> Room.playerB room = None ->
  phase (Room.state room) = lobby ->
  let res := joinRoom now m socketId roomCode None in
  exists jr,
    res.2 = Some jr /\
    JoinResult.slot jr = B /\ JoinResult.started jr = true /\
    JoinResult.reconnectToken jr = (Rng.randomToken (Room.random room)).1 /\
    let r' := JoinResult.room jr in
    let st := Room.state r' in
    rooms res.1 !! roomCode = Some r' /\
    socketBindings res.1 !! socketId = Some (SocketBinding.mk roomCode B) /\
    Room.playerA r' = Some pa /\
    Room.playerB r'
      = Some (RoomPlayer.mk B (JoinResult.reconnectToken jr) (Some socketId) true) /\
    phase st = aiming /\ activeSlot st = Room.nextStartingSlot room /\
    turnEndsAt st = Some (now + 30000)%Z /\ Room.turnTimer r' = Pending /\
    (forall s, hp (tank_of (tanks st) s) = 100) /\
    connected (tankA (tanks st)) = RoomPlayer.connected pa /\
    connected (tankB (tanks st)) = true.
Proof.
  intros m1 Hroom HA HB Hph. unfold joinRoom, detachSocket. fold m1. cbv zeta.
  rewrite Hroom, HA, HB.
  destruct (Rng.randomToken (Room.random room)) as [token rnd]. cbn [fst].
  set (room1 := setTankConnected _ B true).
  assert (HA1 : Room.playerA room1 = Some pa) by exact HA.
  assert (HB1 : Room.playerB room1
                = Some (RoomPlayer.mk B token (Some socketId) true))
    by reflexivity.
  assert (Hph1 : phase (Room.state room1) = lobby) by exact Hph.
  rewrite HA1, HB1, Hph1.
  rewrite !bool_decide_eq_true_2 by (try by eexists; done).
  cbn [andb fst snd].
  destruct (startMatch_facts now room1)
    as ((H1 & H2 & H3 & _) & Hk & (_ & _ & _ & _ & Ht & _ & _ & _ & _ & Hp)).
  eexists. split; [reflexivity|].
  cbn [JoinResult.slot JoinResult.started JoinResult.reconnectToken
       JoinResult.room rooms socketBindings set_rooms set_socketBindings].
  split; [reflexivity|]. split; [reflexivity|]. split; [reflexivity|].
  split; [apply lookup_insert_eq|]. split; [apply lookup_insert_eq|].
  split; [by rewrite <- HA1; apply (Hp A)|].
  split; [by rewrite <- HB1; apply (Hp B)|].
  split; [exact H1|]. split; [exact H2|]. split; [exact H3|].
  split; [exact Ht|]. split; [intros s; apply (Hk s)|].
  destruct (Hk A) as (_ & _ & _ & HcA). destruct (Hk B) as (_ & _ & _ & HcB).
  cbn [tank_of] in HcA, HcB. rewrite HcA, HcB.
  unfold playerConnected. cbn [Room.players]. by rewrite HA1, HB1.
Qed.

Lemma joinRoom_starts_match_witness :
  exists jr,
    (joinRoom 7 waitingManager "socket-b" "ABCDE" None).2 = Some jr /\
    JoinResult.slot jr = B /\ JoinResult.started jr = true.
Proof.
  destruct (joinRoom_starts_match 7 waitingManager "socket-b" "ABCDE"
              (lobbyRoom "ABCDE")
              (RoomPlayer.mk A "aaaaaaaaaaaaaaaaaaaaaaaa" (Some "ABCDE") true))
    as (jr & H1 & H2 & H3 & _); try reflexivity.
  exists jr. split; [exact H1|]. split; [exact H2|exact H3].
Defined.

(** ** Disconnecting and coming back *)

(** X23.  When the socket of a player leaves during a turn while the
    other player is connected, the room is paused: no deadline, the turn
    timer cleared, the grace timer pending, and the time that was left
    remembered.  When a socket then joins with the token of that player,
    it gets the same slot and the same token and the turn resumes: the
    state is the one before, with the deadline set to the time of the
    return plus the time that was left. *)
Theorem reconnect_restores_turn (t1 t2 : Z) (m : RoomManager)
  (socketId socketId' roomCode : string) (s : PlayerSlot) (room : Room.t)
  (player other : RoomPlayer.t) (deadline : Z) :
  socketBindings m !! socketId = Some (SocketBinding.mk roomCode s) ->
  rooms m !! roomCode = Some room ->
  Room.players room s = Some player ->
  RoomPlayer.socketId player = Some socketId ->
  RoomPlayer.token player <> EmptyString ->
  Room.players room (oppositeSlot s) = Some other ->
  RoomPlayer.connected other = true ->
  RoomPlayer.token other <> RoomPlayer.token player ->
  phase (Room.state room) = aiming ->
  turnEndsAt (Room.state room) = Some deadline ->
  socketId' = socketId \/ socketBindings m !! socketId' = None ->
  let m1 := leaveBySocketId t1 m socketId in
  let res := joinRoom t2 m1 socketId' roomCode (Some (RoomPlayer.token player)) in
  let remaining := Z.max 0 (deadline - t1) in
  (exists paused,
     rooms m1 !! roomCode = Some paused /\
     phase (Room.state paused) = paused_reconnect /\
     turnEndsAt (Room.state paused) = None /\
     connected (tank_of (tanks (Room.state paused)) s) = false /\
     Room.turnTimer paused = NoTimer /\ Room.reconnectTimer paused = Pending /\
     Room.pauseSnapshot paused
       = Some (PauseSnapshot.mk aiming (Some remaining))) /\
  (exists jr,
     res.2 = Some jr /\ JoinResult.slot jr = s /\
     JoinResult.reconnectToken jr = RoomPlayer.token player /\
     JoinResult.started jr = false /\
     let r' := JoinResult.room jr in
     rooms res.1 !! roomCode = Some r' /\
     socketBindings res.1 !! socketId'
       = Some (SocketBinding.mk roomCode s) /\
     Room.state r'
       = set_turnEndsAt (Room.state (setTankConnected room s true))
                        (Some (t2 + remaining)%Z) /\
     Room.players r' s
       = Some (RoomPlayer.mk (RoomPlayer.slot player) (RoomPlayer.token player)
                 (Some socketId') true) /\
     Room.players r' (oppositeSlot s) = Some other /\
     Room.turnTimer r' = Pending /\ Room.reconnectTimer r' = NoTimer /\
     Room.pauseSnapshot r' = None).
Proof.
  intros Hbind Hroom Hp Hsid Htok Ho Hocon Hotok Hph Hd Hsid' m1 res remaining.
  set (left := setTankConnected
                 (Room.set_player room s
                    (Some (RoomPlayer.mk (RoomPlayer.slot player)
                             (RoomPlayer.token player) None false))) s false).
  set (paused := pauseForReconnect t1 left s).
  assert (Hm1 : m1 = set_rooms (set_socketBindings m (delete socketId (socketBindings m)))
                       (<[roomCode := paused]> (rooms m))).
  { subst m1. unfold leaveBySocketId. rewrite Hbind. cbv zeta.
    cbn [SocketBinding.roomCode SocketBinding.slot rooms set_socketBindings].
    rewrite Hroom, Hp, Hsid.
    rewrite bool_decide_eq_false_2 by (by intros H; apply H).
    fold left.
    assert (Hphl : phase (Room.state left) = aiming) by (by destruct s).
    rewrite Hphl.
    rewrite !bool_decide_eq_false_2 by done. reflexivity. }
  assert (Hphl : phase (Room.state left) = aiming) by (by destruct s).
  assert (Hdl : turnEndsAt (Room.state left) = Some deadline) by (by destruct s).
  assert (Hpaused : paused =
            Room.set_reconnectTimer
              (Room.set_state
                 (clearSimulation (clearTurnTimer
                    (Room.set_pauseSnapshot left
                       (Some (PauseSnapshot.mk aiming (Some remaining))))))
                 (set_turnEndsAt (set_phase (Room.state left) paused_reconnect)
                                 None))
              Pending).
  { subst paused. unfold pauseForReconnect. rewrite Hphl, Hdl.
    rewrite !bool_decide_eq_false_2 by done. cbn [orb].
    rewrite bool_decide_eq_true_2 by done. reflexivity. }
  assert (Hlook1 : rooms m1 !! roomCode = Some paused).
  { rewrite Hm1. apply lookup_insert_eq. }
  assert (Hunbound : socketBindings m1 !! socketId' = None).
  { rewrite Hm1. cbn [socketBindings set_rooms set_socketBindings].
    destruct Hsid' as [->|Hn]; [apply lookup_delete_eq|].
    rewrite lookup_delete_None. by right. }
  split.
  - exists paused. split; [exact Hlook1|]. rewrite Hpaused.
    repeat split; try reflexivity. by destruct s.
  - subst res. unfold joinRoom, detachSocket.
    rewrite (leaveBySocketId_unbound _ _ _ Hunbound). cbv zeta. rewrite Hlook1.
    rewrite bool_decide_eq_false_2 by done.
    set (back := RoomPlayer.mk (RoomPlayer.slot player) (RoomPlayer.token player)
                   None false).
    assert (Hps : Room.players paused s = Some back).
    { rewrite Hpaused. by destruct s. }
    assert (Hpo : Room.players paused (oppositeSlot s) = Some other).
    { rewrite Hpaused. destruct s; exact Ho. }
    assert (Hrec : match reclaims paused (RoomPlayer.token player) A with
                   | Some p => Some (A, p)
                   | None =>
                       match reclaims paused (RoomPlayer.token player) B with
                       | Some p => Some (B, p)
                       | None => None
                       end
                   end = Some (s, back)).
    { pose proof (reclaims_own paused s back Hps) as Hown.
      change (RoomPlayer.token back) with (RoomPlayer.token player) in Hown.
      destruct s.
      - by rewrite Hown.
      - rewrite (reclaims_other paused _ A other Hpo Hotok). by rewrite Hown. }
    rewrite Hrec. unfold reclaimSlot. cbv zeta.
    set (room2 := setTankConnected
                    (Room.set_player paused s
                       (Some (RoomPlayer.mk (RoomPlayer.slot back)
                                (RoomPlayer.token back) (Some socketId') true)))
                    s true).
    assert (Hres : resumeFromPauseIfReady t2 room2 =
              Room.set_turnTimer
                (Room.set_state
                   (Room.set_pauseSnapshot (clearReconnectTimer room2) None)
                   (set_turnEndsAt (set_phase (Room.state room2) aiming)
                                   (Some (t2 + remaining)%Z)))
                Pending).
    { unfold resumeFromPauseIfReady.
      assert (Hph2 : phase (Room.state room2) = paused_reconnect).
      { subst room2. rewrite Hpaused. by destruct s. }
      rewrite Hph2. rewrite bool_decide_eq_false_2 by (by intros H; apply H).
      assert (Hfd : findDisconnectedSlot room2 = None).
      { unfold findDisconnectedSlot, playerConnected.
        subst room2. destruct s; cbn [oppositeSlot] in Hpo;
          cbn [Room.players Room.playerA Room.playerB setTankConnected
               Room.set_state Room.set_player] in *;
          rewrite Hpo, Hocon; reflexivity. }
      rewrite Hfd. cbv zeta.
      assert (Hsn : Room.pauseSnapshot (clearReconnectTimer room2)
                    = Some (PauseSnapshot.mk aiming (Some remaining))).
      { subst room2. rewrite Hpaused. by destruct s. }
      rewrite Hsn.
      cbn [PauseSnapshot.phaseBeforePause PauseSnapshot.remainingTurnMs
           default from_option].
      unfold Datatypes.id.
      rewrite (bool_decide_eq_true_2 (aiming = aiming)) by done.
      rewrite !bool_decide_eq_false_2 by done.
      erewrite scheduleTurnTimeout_aiming by reflexivity. reflexivity. }
    rewrite Hres. eexists. split; [reflexivity|].
    cbn [fst snd JoinResult.slot JoinResult.reconnectToken JoinResult.started
         JoinResult.room rooms socketBindings set_rooms set_socketBindings].
    split; [reflexivity|]. split; [reflexivity|]. split; [reflexivity|].
    split; [apply lookup_insert_eq|]. split; [apply lookup_insert_eq|].
    subst room2. rewrite Hpaused. subst left.
    split; [|destruct s; repeat split; try reflexivity; exact Ho].
    clear -Hph. destruct room as [c sd rn ns st pA pB v tt rt simt ps ca rd].
    destruct st. cbn in Hph. subst. by destruct s.
Qed.

Lemma reconnect_restores_turn_witness :
  exists jr,
    (joinRoom 9000
       (leaveBySocketId 4000 aimingManager "socket-b") "socket-b2" "ABCDE"
       (Some "bbbbbbbbbbbbbbbbbbbbbbbb")).2 = Some jr /\
    JoinResult.slot jr = B /\
    turnEndsAt (Room.state (JoinResult.room jr)) = Some 35000%Z.
Proof.
  destruct (reconnect_restores_turn 4000 9000 aimingManager "socket-b"
              "socket-b2" "ABCDE" B aimingRoom
              (RoomPlayer.mk B "bbbbbbbbbbbbbbbbbbbbbbbb" (Some "socket-b") true)
              (RoomPlayer.mk A "aaaaaaaaaaaaaaaaaaaaaaaa" (Some "socket-a") true)
              30000)
    as (_ & jr & H1 & H2 & _ & _ & _ & _ & H3 & _);
    try reflexivity; try done.
  - by right.
  - exists jr. split; [exact H1|]. split; [exact H2|]. by rewrite H3.
Defined.

(** ** The end of the grace period *)

Lemma findDisconnectedSlot_spec (r : Room.t) :
  match findDisconnectedSlot r with
  | Some s =>
      playerConnected r s = false /\
      (s = B -> playerConnected r A = true)
  | None => playerConnected r A = true /\ playerConnected r B = true
  end.
Proof.
  unfold findDisconnectedSlot.
  destruct (playerConnected r A) eqn:HA; cbn [negb]; [|by split].
  destruct (playerConnected r B) eqn:HB; cbn [negb]; by split.
Qed.

(** X24.  When the grace period ends on a paused room with one player
    away and the other connected, the connected player wins: the phase is
    [match_end], the votes are cleared, tanks and terrain are untouched,
    and the callback running again changes nothing.  On a room that is
    not paused, or whose players are both connected, the callback does
    nothing. *)
Theorem forfeit_to_connected (r : Room.t) :
  let r' := onReconnectTimeout r in
  (phase (Room.state r) = paused_reconnect ->
   forall s,
     playerConnected r s = false -> playerConnected r (oppositeSlot s) = true ->
     phase (Room.state r') = match_end /\
     winnerSlot (Room.state r') = Some (oppositeSlot s) /\
     playerConnected r' (oppositeSlot s) = true /\
     Room.rematchVotes r' = ∅ /\
     tanks (Room.state r') = tanks (Room.state r) /\
     terrain (Room.state r') = terrain (Room.state r) /\
     onReconnectTimeout r' = r') /\
  (phase (Room.state r) <> paused_reconnect \/
   (playerConnected r A = true /\ playerConnected r B = true) -> r' = r).
Proof.
  cbv zeta. unfold onReconnectTimeout. split.
  - intros Hph s Hs Ho. rewrite Hph.
    rewrite bool_decide_eq_false_2 by (by intros H; apply H).
    pose proof (findDisconnectedSlot_spec r) as Hf.
    destruct (findDisconnectedSlot r) as [d|].
    2: { destruct Hf as [HA HB]. destruct s; congruence. }
    assert (d = s) as ->.
    { destruct Hf as [Hd HB]. destruct d, s; cbn in *; try done; congruence. }
    repeat split; try done.
  - intros [Hne|[HA HB]].
    + by rewrite bool_decide_eq_true_2.
    + destruct (bool_decide _); [done|].
      unfold findDisconnectedSlot. by rewrite HA, HB.
Qed.

Lemma forfeit_to_connected_witness :
  winnerSlot (Room.state (onReconnectTimeout pausedRoom)) = Some A.
Proof.
  apply (proj1 (forfeit_to_connected pausedRoom) eq_refl B); reflexivity.
Defined.

(** ** Resolving an impact *)

Lemma resolveWinner_Some (s : GameState) (shooter w : PlayerSlot) :
  resolveWinner s shooter = Some w ->
  (hp (tankA (tanks s)) <= 0 \/ hp (tankB (tanks s)) <= 0) /\
  (0 < hp (tank_of (tanks s) w) \/
   (hp (tankA (tanks s)) <= 0 /\ hp (tankB (tanks s)) <= 0 /\
    w = oppositeSlot shooter)).
Proof.
  unfold resolveWinner. cbv zeta.
  destruct (0 <? hp (tankA (tanks s))) eqn:HA;
    destruct (0 <? hp (tankB (tanks s))) eqn:HB; cbn [andb]; [done|..].
  - apply ltb_true in HA. apply ltb_false in HB.
    rewrite (proj2 (leb_false _ _)) by lra. cbn [andb].
    intros [= <-]. split; [by right|by left].
  - apply ltb_false in HA. apply ltb_true in HB.
    rewrite (proj2 (leb_true _ _) HA), (proj2 (leb_false _ _)) by lra.
    cbn [andb]. intros [= <-]. split; [by left|by left].
  - apply ltb_false in HA. apply ltb_false in HB.
    rewrite (proj2 (leb_true _ _) HA), (proj2 (leb_true _ _) HB).
    cbn [andb]. intros [= <-]. split; [by left|by right].
Qed.

(** X25.  [resolveImpact] removes the projectile, stops the simulation,
    leaves no deadline, craters the terrain and puts both tanks back on
    the ground.  Then either both tanks have health left, the phase is
    [round_end] and one more callback to start the next turn is pending;
    or a tank has none, the phase is [match_end], the votes are cleared,
    and the winner recorded has health left unless both tanks have
    none. *)
Theorem resolveImpact_outcome (r : Room.t) (point : Vector2) :
  let r' := resolveImpact r point in
  let st' := Room.state r' in
  (projectile st' = None /\ turnEndsAt st' = None /\
   Room.simulationTimer r' = NoTimer /\
   activeSlot st' = activeSlot (Room.state r) /\
   terrain st' = terrain (deformTerrain (Room.state r) point) /\
   forall s,
     y (tank_of (tanks st') s)
     = heightAt (terrain st') (x (tank_of (tanks st') s))
       - PHYSICS.tankRadius - 1) /\
  ((phase st' = round_end /\
    0 < hp (tankA (tanks st')) /\ 0 < hp (tankB (tanks st')) /\
    winnerSlot st' = winnerSlot (Room.state r) /\
    Room.roundDelays r' = S (Room.roundDelays r) /\
    Room.rematchVotes r' = Room.rematchVotes r) \/
   (phase st' = match_end /\
    (hp (tankA (tanks st')) <= 0 \/ hp (tankB (tanks st')) <= 0) /\
    Room.roundDelays r' = Room.roundDelays r /\ Room.rematchVotes r' = ∅ /\
    exists w, winnerSlot st' = Some w /\
      (0 < hp (tank_of (tanks st') w) \/
       (hp (tankA (tanks st')) <= 0 /\ hp (tankB (tanks st')) <= 0)))).
Proof.
  unfold resolveImpact. cbv zeta.
  cbn [clearSimulation Room.state Room.set_simulationTimer Room.set_state].
  set (st1 := updateTankGrounding
                (deformTerrain (set_projectile (Room.state r) None) point)).
  assert (Hg1 : forall s,
            y (tank_of (tanks st1) s)
            = heightAt (terrain st1) (x (tank_of (tanks st1) s))
              - PHYSICS.tankRadius - 1) by (by intros [|]).
  pose proof (applyBlastDamage_rest st1 point) as Hrest.
  assert (Hbody : forall s,
            x (tank_of (tanks (applyBlastDamage st1 point).1) s)
              = x (tank_of (tanks st1) s) /\
            y (tank_of (tanks (applyBlastDamage st1 point).1) s)
              = y (tank_of (tanks st1) s)).
  { intros s. rewrite tank_after_blast.
    destruct (blasted_world st1 point s) as (_ & Hx & Hy & _). by split. }
  destruct (applyBlastDamage st1 point) as [st2 damage]. cbn [fst] in *.
  assert (Hter : terrain st2 = terrain st1) by (by rewrite Hrest).
  assert (Hg2 : forall s,
            y (tank_of (tanks st2) s)
            = heightAt (terrain st2) (x (tank_of (tanks st2) s))
              - PHYSICS.tankRadius - 1).
  { intros s. destruct (Hbody s) as [-> ->]. rewrite Hter. apply Hg1. }
  assert (Hproj : projectile st2 = None) by (by rewrite Hrest).
  assert (Hact : activeSlot st2 = activeSlot (Room.state r)) by (by rewrite Hrest).
  assert (Hwin : winnerSlot st2 = winnerSlot (Room.state r)) by (by rewrite Hrest).
  cbn [Room.state Room.set_state].
  destruct (resolveWinner st2 _) as [winner|] eqn:Hres.
  - split; [split; [exact Hproj|split; [reflexivity|split; [reflexivity|
             split; [exact Hact|split; [exact Hter|exact Hg2]]]]]|].
    right.
    apply resolveWinner_Some in Hres as [Hdead Hw].
    split; [reflexivity|]. split; [exact Hdead|]. split; [reflexivity|].
    split; [reflexivity|]. exists winner. split; [reflexivity|].
    destruct Hw as [Hw|(HA & HB & _)]; [by left|by right].
  - apply resolveWinner_None in Hres. unfold setPhase.
    rewrite bool_decide_eq_true_2 by done.
    split; [split; [exact Hproj|split; [reflexivity|split; [reflexivity|
             split; [exact Hact|split; [exact Hter|exact Hg2]]]]]|].
    left. split; [reflexivity|]. split; [apply Hres|]. split; [apply Hres|].
    split; [exact Hwin|]. split; reflexivity.
Qed.

(** ** Sockets stay bound to their players *)

Lemma bindingsOk_socketOf (m : RoomManager) :
  bindingsOk m <->
  forall key r s sid,
    rooms m !! key = Some r -> socketOf r s = Some sid ->
    socketBindings m !! sid = Some (SocketBinding.mk key s).
Proof.
  unfold bindingsOk, socketOf. split.
  - intros H key r s sid Hr Hs.
    destruct (Room.players r s) as [p|] eqn:Hp; [|done]. by apply (H key r s p).
  - intros H key r s p sid Hr Hp Hs. apply (H key r s sid Hr). by rewrite Hp.
Qed.

Lemma socketOf_players (r r' : Room.t) :
  (forall s, Room.players r' s = Room.players r s) ->
  forall s, socketOf r' s = socketOf r s.
Proof. intros H s. unfold socketOf. by rewrite H. Qed.

Lemma fireForSlot_players (r : Room.t) (sl s : PlayerSlot) :
  Room.players (fireForSlot r sl) s = Room.players r s.
Proof. unfold fireForSlot. destruct (bool_decide _); by destruct s. Qed.

Lemma onTurnTimeout_players (r : Room.t) (s : PlayerSlot) :
  Room.players (onTurnTimeout r) s = Room.players r s.
Proof.
  unfold onTurnTimeout. destruct (bool_decide _); [done|].
  apply fireForSlot_players.
Qed.

Lemma resolveImpact_players (r : Room.t) (point : Vector2) (s : PlayerSlot) :
  Room.players (resolveImpact r point) s = Room.players r s.
Proof.
  unfold resolveImpact. cbv zeta. destruct (applyBlastDamage _ _) as [st damage].
  destruct (resolveWinner _ _); by destruct s.
Qed.

Lemma onSimulationTick_players (r : Room.t) (s : PlayerSlot) :
  Room.players (onSimulationTick r) s = Room.players r s.
Proof.
  unfold onSimulationTick. destruct (stepProjectile _ _) as [st [i|]].
  - rewrite resolveImpact_players. by destruct s.
  - by destruct s.
Qed.

Lemma scheduleTurnTimeout_players (r : Room.t) (s : PlayerSlot) :
  Room.players (scheduleTurnTimeout r) s = Room.players r s.
Proof. apply scheduleTurnTimeout_rest. Qed.

Lemma onRoundDelay_players (now : Z) (r : Room.t) (s : PlayerSlot) :
  Room.players (onRoundDelay now r) s = Room.players r s.
Proof.
  unfold onRoundDelay. destruct (_ || _); [done|].
  destruct (pickWind _) as [w rnd]. rewrite scheduleTurnTimeout_players.
  by destruct s.
Qed.

Lemma onReconnectTimeout_players (r : Room.t) (s : PlayerSlot) :
  Room.players (onReconnectTimeout r) s = Room.players r s.
Proof.
  unfold onReconnectTimeout. destruct (bool_decide _); [done|].
  destruct (findDisconnectedSlot r); by destruct s.
Qed.

Lemma pauseForReconnect_players (now : Z) (r : Room.t) (sl s : PlayerSlot) :
  Room.players (pauseForReconnect now r sl) s = Room.players r s.
Proof. unfold pauseForReconnect. destruct (_ || _); by destruct s. Qed.

Lemma resumeFromPauseIfReady_players (now : Z) (r : Room.t) (s : PlayerSlot) :
  Room.players (resumeFromPauseIfReady now r) s = Room.players r s.
Proof.
  unfold resumeFromPauseIfReady. destruct (bool_decide _); [done|].
  destruct (findDisconnectedSlot r); [done|]. cbv zeta.
  cbn [clearReconnectTimer Room.pauseSnapshot Room.set_reconnectTimer].
  destruct (Room.pauseSnapshot r) as [[before remaining]|].
  - cbn [PauseSnapshot.phaseBeforePause PauseSnapshot.remainingTurnMs].
    set (r1 := Room.set_state _ (set_phase _ before)).
    assert (H1 : forall sl, Room.players r1 sl = Room.players r sl)
      by (by intros [|]).
    clearbody r1.
    set (r2 := if bool_decide (before = aiming) then _ else r1).
    assert (H2 : forall sl, Room.players r2 sl = Room.players r sl).
    { intros sl. subst r2. destruct (bool_decide _); [|apply H1].
      rewrite scheduleTurnTimeout_players, <- H1. by destruct sl. }
    clearbody r2.
    set (r3 := if bool_decide (before = projectile_flight) then _ else r2).
    assert (H3 : forall sl, Room.players r3 sl = Room.players r sl).
    { intros sl. subst r3. destruct (bool_decide _); [|apply H2].
      rewrite <- H2. by destruct sl. }
    clearbody r3.
    destruct (bool_decide _); [|apply H3].
    destruct (pickWind _) as [w rnd].
    rewrite scheduleTurnTimeout_players, <- H3. by destruct s.
  - rewrite scheduleTurnTimeout_players. by destruct s.
Qed.

Lemma startMatch_players (now : Z) (r : Room.t) (s : PlayerSlot) :
  Room.players (startMatch now r) s = Room.players r s.
Proof. apply (startMatch_facts now r). Qed.

(** Replacing a room by one whose players have no new socket. *)
Lemma bindingsOk_replace (m : RoomManager) (key : string) (r0 r' : Room.t) :
  bindingsOk m -> rooms m !! key = Some r0 ->
  (forall s sid, socketOf r' s = Some sid -> socketOf r0 s = Some sid) ->
  bindingsOk (set_rooms m (<[key := r']> (rooms m))).
Proof.
  intros Hm0 Hr0 Hsock. pose proof (proj1 (bindingsOk_socketOf m) Hm0) as Hm.
  apply bindingsOk_socketOf. intros k r s sid.
  cbn [rooms socketBindings set_rooms]. rewrite lookup_insert_Some.
  intros [[<- <-]|[_ Hk]] Hs.
  - apply (Hm key r0 s sid Hr0). by apply Hsock.
  - by apply (Hm k r s sid).
Qed.

Lemma bindingsOk_same_players (m : RoomManager) (key : string)
  (r0 r' : Room.t) :
  bindingsOk m -> rooms m !! key = Some r0 ->
  (forall s, Room.players r' s = Room.players r0 s) ->
  bindingsOk (set_rooms m (<[key := r']> (rooms m))).
Proof.
  intros Hm Hr0 Hp. apply (bindingsOk_replace m key r0); [done..|].
  intros s sid. by rewrite (socketOf_players r0 r' Hp).
Qed.

Lemma destroyRoomIfEmpty_bindingsOk (m : RoomManager) (key : string)
  (r : Room.t) :
  bindingsOk (set_rooms m (<[key := r]> (rooms m))) ->
  bindingsOk (destroyRoomIfEmpty m key r).
Proof.
  intros Hm0. unfold destroyRoomIfEmpty. destruct (_ || _); [exact Hm0|].
  cbv zeta. pose proof (proj1 (bindingsOk_socketOf _) Hm0) as Hm.
  apply bindingsOk_socketOf. intros k r' s sid.
  cbn [rooms socketBindings set_rooms].
  rewrite lookup_delete_Some, lookup_insert_Some.
  intros [_ [[<- <-]|[Hne Hk]]] Hs.
  - apply (Hm key r s sid); [apply lookup_insert_eq|]. exact Hs.
  - apply (Hm k r' s sid); [|exact Hs]. cbn [rooms set_rooms].
    by rewrite lookup_insert_ne.
Qed.

Lemma leaveBySocketId_bindingsOk (now : Z) (m : RoomManager) (socketId : string) :
  bindingsOk m -> bindingsOk (leaveBySocketId now m socketId).
Proof.
  intros Hm. pose proof (proj1 (bindingsOk_socketOf m) Hm) as Hso.
  unfold leaveBySocketId.
  destruct (socketBindings m !! socketId) as [[k0 s0]|] eqn:Hb; [|done].
  cbv zeta. cbn [SocketBinding.roomCode SocketBinding.slot rooms set_socketBindings].
  set (m1 := set_socketBindings m _).
  (* A player that still holds the socket sits in the room and the slot the
     binding names. *)
  assert (Hheld : forall key r s, rooms m !! key = Some r ->
            socketOf r s = Some socketId -> key = k0 /\ s = s0).
  { intros key r s Hr Hs.
    pose proof (Hso key r s socketId Hr Hs) as H. rewrite Hb in H.
    by injection H as -> ->. }
  assert (Hm1 : (forall r0, rooms m !! k0 = Some r0 ->
                   socketOf r0 s0 <> Some socketId) -> bindingsOk m1).
  { intros Hfree. apply bindingsOk_socketOf. intros key r s sid Hr Hs.
    cbn [rooms socketBindings m1 set_socketBindings] in *.
    rewrite lookup_delete_ne.
    - by apply (Hso key r s sid).
    - intros <-. destruct (Hheld key r s Hr Hs) as [-> ->].
      by apply (Hfree r). }
  destruct (rooms m !! k0) as [room|] eqn:Hroom.
  2: { apply Hm1. intros r0 [=]. }
  unfold socketOf in Hm1.
  destruct (Room.players room s0) as [player|] eqn:Hp.
  2: { apply Hm1. intros r0 [= <-]. by rewrite Hp. }
  destruct (decide (RoomPlayer.socketId player = Some socketId)) as [Hsid|Hsid].
  2: { rewrite bool_decide_eq_true_2 by done.
       apply Hm1. intros r0 [= <-]. by rewrite Hp. }
  rewrite bool_decide_eq_false_2 by (by intros H; apply H).
  set (left := setTankConnected _ s0 false).
  (* Any room with the players of [left] can take the place of [room]. *)
  assert (Hput : forall r', (forall s, Room.players r' s = Room.players left s) ->
            bindingsOk (set_rooms m1 (<[k0 := r']> (rooms m1)))).
  { intros r' Hpl. apply bindingsOk_socketOf. intros key r s sid.
    cbn [rooms socketBindings m1 set_rooms set_socketBindings].
    rewrite lookup_insert_Some. intros [[<- <-]|[Hne Hk]] Hs.
    - rewrite (socketOf_players left r' Hpl) in Hs.
      assert (Hs0 : s <> s0).
      { intros ->. unfold socketOf in Hs. subst left.
        destruct s0; cbn in Hs; done. }
      assert (Hs' : socketOf room s = Some sid).
      { unfold socketOf in *. subst left. destruct s, s0; cbn in Hs; done. }
      rewrite lookup_delete_ne.
      + by apply (Hso k0 room s sid).
      + intros <-. destruct (Hheld k0 room s Hroom Hs') as [_ ->]. done.
    - rewrite lookup_delete_ne.
      + by apply (Hso key r s sid).
      + intros <-. destruct (Hheld key r s Hk Hs) as [-> _]. done. }
  destruct (bool_decide (_ = lobby)).
  { apply destroyRoomIfEmpty_bindingsOk. by apply Hput. }
  destruct (bool_decide (_ = match_end)).
  { apply destroyRoomIfEmpty_bindingsOk. apply Hput. by intros [|]. }
  apply Hput. intros s. apply pauseForReconnect_players.
Qed.

(** After [detachSocket] no player of the registry holds the socket. *)
Lemma detached_free (now : Z) (m : RoomManager) (socketId : string) :
  bindingsOk m ->
  let m1 := leaveBySocketId now m socketId in
  bindingsOk m1 /\
  forall key r s, rooms m1 !! key = Some r -> socketOf r s <> Some socketId.
Proof.
  intros Hm m1.
  pose proof (leaveBySocketId_bindingsOk now m socketId Hm) as Hm1.
  split; [exact Hm1|]. intros key r s Hr Hs.
  pose proof (proj1 (bindingsOk_socketOf m1) Hm1 key r s socketId Hr Hs) as H.
  subst m1.
  rewrite leaveBySocketId_bindings, lookup_delete_eq in H. done.
Qed.

(** Seating the socket in slot [s] of the room stored under [key]. *)
Lemma bindingsOk_seat (m : RoomManager) (key socketId : string)
  (s : PlayerSlot) (r' : Room.t) (old : option Room.t) (rnd : Z) :
  bindingsOk m ->
  (forall k r sl, rooms m !! k = Some r -> socketOf r sl <> Some socketId) ->
  rooms m !! key = old ->
  socketOf r' s = Some socketId ->
  (forall sl sid, sl <> s -> socketOf r' sl = Some sid ->
     exists r0, old = Some r0 /\ socketOf r0 sl = Some sid) ->
  bindingsOk
    (mkManager (<[key := r']> (rooms m))
       (<[socketId := SocketBinding.mk key s]> (socketBindings m)) rnd).
Proof.
  intros Hm0 Hfree Hold Hs Hrest. apply bindingsOk_socketOf.
  pose proof (proj1 (bindingsOk_socketOf m) Hm0) as Hm. intros k r sl sid.
  cbn [rooms socketBindings]. rewrite lookup_insert_Some.
  intros [[<- <-]|[Hne Hk]] Hsl.
  - destruct (decide (sl = s)) as [->|Hsl'].
    + rewrite Hs in Hsl. injection Hsl as <-. apply lookup_insert_eq.
    + destruct (Hrest sl sid Hsl' Hsl) as (r0 & -> & Hs0).
      rewrite lookup_insert_ne; [by apply (Hm key r0 sl sid)|].
      intros <-. by apply (Hfree key r0 sl).
  - rewrite lookup_insert_ne; [by apply (Hm k r sl sid)|].
    intros <-. by apply (Hfree k r sl).
Qed.

Lemma createRoom_bindingsOk (now : Z) (m : RoomManager) (socketId : string) :
  bindingsOk m -> bindingsOk (createRoom now m socketId).1.
Proof.
  intros Hm. unfold createRoom, detachSocket.
  destruct (detached_free now m socketId Hm) as [Hm1 Hfree].
  set (m1 := leaveBySocketId now m socketId) in *.
  pose proof (createUniqueCode_rooms m1) as Hrooms.
  assert (Hbind : socketBindings (createUniqueCode m1).2 = socketBindings m1).
  { unfold createUniqueCode. destruct (tryCodes _ _ _) as [[c|] rnd]; [done|].
    by destruct (Rng.next rnd). }
  destruct (createUniqueCode m1) as [code m2]. cbn [snd] in Hrooms, Hbind.
  destruct (Rng.next (random m2)) as [u rnd].
  destruct (Rng.randomToken _) as [token rnd']. cbv zeta. cbn [fst].
  cbn [rooms socketBindings set_rooms set_socketBindings random].
  rewrite Hrooms, Hbind.
  apply (bindingsOk_seat m1 code socketId A _ (rooms m1 !! code));
    [done|done|done|reflexivity|].
  intros [|] sid Hne; [done|]. intros [=].
Qed.

Lemma joinRoom_bindingsOk (now : Z) (m : RoomManager)
  (socketId roomCode : string) (tok : option string) :
  bindingsOk m -> bindingsOk (joinRoom now m socketId roomCode tok).1.
Proof.
  intros Hm. unfold joinRoom, detachSocket.
  destruct (detached_free now m socketId Hm) as [Hm1 Hfree].
  set (m1 := leaveBySocketId now m socketId) in *.
  cbv zeta. destruct (rooms m1 !! roomCode) as [room|] eqn:Hroom; [|done].
  match goal with |- context [match ?c with Some _ => _ | None => _ end] =>
    destruct c as [[s player]|] eqn:Hrec end.
  - unfold reclaimSlot. cbv zeta. cbn [fst].
    cbn [rooms socketBindings set_rooms set_socketBindings random].
    apply (bindingsOk_seat m1 roomCode socketId s _ (Some room));
      [done|done|done| |].
    + unfold socketOf. rewrite resumeFromPauseIfReady_players.
      by destruct s.
    + intros sl sid Hne Hsl. exists room. split; [done|].
      unfold socketOf in *. rewrite resumeFromPauseIfReady_players in Hsl.
      destruct s, sl; done.
  - match goal with |- context [match ?c with Some _ => _ | None => _ end] =>
      destruct c as [s|] end; [|done].
    destruct (Rng.randomToken _) as [token rnd]. cbv zeta. cbn [fst].
    cbn [rooms socketBindings set_rooms set_socketBindings random].
    apply (bindingsOk_seat m1 roomCode socketId s _ (Some room));
      [done|done|done| |].
    + unfold socketOf. destruct (_ && _);
        rewrite ?startMatch_players; by destruct s.
    + intros sl sid Hne Hsl. exists room. split; [done|].
      unfold socketOf in *.
      destruct (_ && _); rewrite ?startMatch_players in Hsl;
        destruct s, sl; done.
Qed.

Lemma onRoom_bindingsOk (m : RoomManager) (key : string)
  (ready : Room.t -> bool) (callback : Room.t -> Room.t) :
  (forall r s, Room.players (callback r) s = Room.players r s) ->
  bindingsOk m -> bindingsOk (onRoom m key ready callback).
Proof.
  intros Hcb Hm. unfold onRoom.
  destruct (rooms m !! key) as [room|] eqn:Hroom; [|done].
  destruct (ready room); [|done].
  by apply (bindingsOk_same_players m key room).
Qed.

Lemma step_bindingsOk (now : Z) (m : RoomManager) (e : Event) :
  bindingsOk m -> bindingsOk (step now m e).
Proof.
  intros Hm. destruct e; cbn [step].
  - by apply createRoom_bindingsOk.
  - by apply joinRoom_bindingsOk.
  - by apply leaveBySocketId_bindingsOk.
  - unfold applyAim.
    destruct (socketBindings m !! socketId) as [info|]; [|done].
    destruct (rooms m !! _) as [room|] eqn:Hroom; [|done].
    destruct (bool_decide _); [done|]. destruct (bool_decide _); [done|].
    cbv zeta. cbn [fst].
    apply (bindingsOk_same_players m _ room); [done..|]. by intros [|].
  - unfold fire.
    destruct (socketBindings m !! socketId) as [info|]; [|done].
    destruct (rooms m !! _) as [room|] eqn:Hroom; [|done].
    destruct (_ || _); [done|]. cbv zeta. cbn [fst].
    apply (bindingsOk_same_players m _ room); [done..|].
    intros s. apply fireForSlot_players.
  - unfold requestRematch.
    destruct (socketBindings m !! socketId) as [info|]; [|done].
    destruct (rooms m !! _) as [room|] eqn:Hroom; [|done].
    destruct (bool_decide _); [done|]. destruct (negb _); [done|].
    cbv zeta. cbn [fst].
    apply (bindingsOk_same_players m _ room); [done..|].
    intros s. destruct (_ && _); rewrite ?startMatch_players; by destruct s.
  - apply onRoom_bindingsOk; [|done]. intros r s.
    rewrite onTurnTimeout_players. by destruct s.
  - apply onRoom_bindingsOk; [|done]. intros r s.
    apply onSimulationTick_players.
  - apply onRoom_bindingsOk; [|done]. intros r s.
    rewrite onRoundDelay_players. by destruct s.
  - apply onRoom_bindingsOk; [|done]. intros r s.
    rewrite onReconnectTimeout_players. by destruct s.
Qed.

Lemma reachable_bindingsOk (m : RoomManager) : reachable m -> bindingsOk m.
Proof.
  induction 1 as [now|now m e _ IH].
  - intros key r s p sid Hr. cbn in Hr. by rewrite lookup_empty in Hr.
  - by apply step_bindingsOk.
Qed.

(** X26.  In every state the manager can reach, the socket a player holds
    is bound to the room and to the slot of that player:
    [getRoomBySocketId] and [getSlotBySocketId] return them, and no other
    slot of any room of the registry holds the same socket. *)
Theorem reachable_bindings (m : RoomManager) :
  reachable m ->
  forall key r s p sid,
    rooms m !! key = Some r -> Room.players r s = Some p ->
    RoomPlayer.socketId p = Some sid ->
    getRoomBySocketId m sid = Some r /\ getSlotBySocketId m sid = Some s /\
    forall key' r' s' p',
      rooms m !! key' = Some r' -> Room.players r' s' = Some p' ->
      RoomPlayer.socketId p' = Some sid -> key' = key /\ s' = s.
Proof.
  intros Hreach key r s p sid Hr Hp Hs.
  pose proof (reachable_bindingsOk m Hreach) as Hm.
  pose proof (Hm key r s p sid Hr Hp Hs) as Hb.
  unfold getRoomBySocketId, getSlotBySocketId. rewrite Hb.
  cbn [SocketBinding.roomCode SocketBinding.slot].
  split; [exact Hr|]. split; [reflexivity|].
  intros key' r' s' p' Hr' Hp' Hs'.
  pose proof (Hm key' r' s' p' sid Hr' Hp' Hs') as Hb'.
  rewrite Hb in Hb'. by injection Hb' as -> ->.
Qed.

(** ** Creating a room *)

Lemma createRoom_unfold (now : Z) (m : RoomManager) (socketId : string) :
  let m1 := leaveBySocketId now m socketId in
  let code := (createUniqueCode m1).1 in
  let m2 := (createUniqueCode m1).2 in
  let seed := Rng.floorScaled (Rng.next (random m2)).1 1000000000 in
  let token := (Rng.randomToken (Rng.mulberry32 seed)).1 in
  let room :=
    setTankConnected
      (Room.set_player
         (Room.set_random
            (Room.mk code seed (Rng.mulberry32 seed) A
               (createInitialState code seed A)
               None None ∅ NoTimer NoTimer NoTimer None now 0)
            (Rng.randomToken (Rng.mulberry32 seed)).2)
         A (Some (RoomPlayer.mk A token (Some socketId) true)))
      A true in
  createRoom now m socketId =
  (mkManager (<[code := room]> (rooms m1))
     (<[socketId := SocketBinding.mk code A]> (socketBindings m1))
     (Rng.next (random m2)).2,
   JoinResult.mk room A token false).
Proof.
  cbv zeta. unfold createRoom, detachSocket.
  pose proof (createUniqueCode_rooms (leaveBySocketId now m socketId)) as Hr.
  assert (Hb : socketBindings (createUniqueCode (leaveBySocketId now m socketId)).2
               = socketBindings (leaveBySocketId now m socketId)).
  { unfold createUniqueCode. destruct (tryCodes _ _ _) as [[c|] rnd]; [done|].
    by destruct (Rng.next rnd). }
  destruct (createUniqueCode _) as [code m2]. cbn [fst snd] in *.
  destruct (Rng.next (random m2)) as [u rnd]. cbn [fst snd].
  destruct (Rng.randomToken _) as [token rnd']. cbv zeta. cbn [fst snd].
  cbn [rooms socketBindings random set_rooms set_socketBindings].
  by rewrite Hr, Hb.
Qed.

(** The room [createRoom] builds around the fresh state [st0]. *)
Lemma newRoom_facts (code token socketId : string) (seed rnd rnd' now : Z)
  (st0 : GameState) :
  let room :=
    setTankConnected
      (Room.set_player
         (Room.set_random
            (Room.mk code seed rnd A st0
               None None ∅ NoTimer NoTimer NoTimer None now 0) rnd')
         A (Some (RoomPlayer.mk A token (Some socketId) true)))
      A true in
  let st := Room.state room in
  (Room.code room = code /\ Room.seed room = seed /\
   Room.players room A = Some (RoomPlayer.mk A token (Some socketId) true) /\
   Room.players room B = None /\ getPlayers room = [(A, true)] /\
   Room.nextStartingSlot room = A /\ Room.createdAt room = now /\
   Room.turnTimer room = NoTimer /\ Room.simulationTimer room = NoTimer /\
   Room.reconnectTimer room = NoTimer /\ Room.rematchVotes room = ∅) /\
  (phase st = phase st0 /\ activeSlot st = activeSlot st0 /\
   turnEndsAt st = turnEndsAt st0 /\ projectile st = projectile st0 /\
   winnerSlot st = winnerSlot st0 /\ roomCode st = roomCode st0 /\
   terrain st = terrain st0 /\
   connected (tankA (tanks st)) = true /\
   connected (tankB (tanks st)) = connected (tankB (tanks st0)) /\
   forall s, hp (tank_of (tanks st) s) = hp (tank_of (tanks st0) s)).
Proof.
  cbv zeta. split; [by repeat split|]. repeat split. by intros [|].
Qed.

(** X27.  [createRoom] returns slot A, not started, a token of 24
    characters and a room whose code has 5 characters.  The room is
    stored under its code; the socket resolves to the room and to slot A,
    and the binding of no other socket changes.  The room waits in the
    lobby with player A connected and slot B empty, no timer and no vote,
    a seed below 10^9, the terrain of that seed, and both tanks at full
    health. *)
Theorem createRoom_registers (now : Z) (m : RoomManager) (socketId : string) :
  let res := createRoom now m socketId in
  let room := JoinResult.room res.2 in
  let st := Room.state room in
  (JoinResult.slot res.2 = A /\ JoinResult.started res.2 = false /\
   String.length (JoinResult.reconnectToken res.2) = 24%nat /\
   String.length (Room.code room) = 5%nat) /\
  (rooms res.1 !! Room.code room = Some room /\
   getRoomBySocketId res.1 socketId = Some room /\
   getSlotBySocketId res.1 socketId = Some A /\
   forall other, other <> socketId ->
     socketBindings res.1 !! other
     = socketBindings (leaveBySocketId now m socketId) !! other) /\
  (Room.players room A
     = Some (RoomPlayer.mk A (JoinResult.reconnectToken res.2)
               (Some socketId) true) /\
   Room.players room B = None /\ getPlayers room = [(A, true)] /\
   Room.nextStartingSlot room = A /\ Room.createdAt room = now /\
   (0 <= Room.seed room < 1000000000)%Z /\
   Room.turnTimer room = NoTimer /\ Room.simulationTimer room = NoTimer /\
   Room.reconnectTimer room = NoTimer /\ Room.rematchVotes room = ∅) /\
  (phase st = lobby /\ activeSlot st = A /\ turnEndsAt st = None /\
   projectile st = None /\ winnerSlot st = None /\
   roomCode st = Room.code room /\
   terrain st = worldTerrain (IZR (Room.seed room)) /\
   connected (tankA (tanks st)) = true /\
   connected (tankB (tanks st)) = false /\
   forall s, hp (tank_of (tanks st) s) = 100).
Proof.
  cbv zeta. rewrite createRoom_unfold. cbv zeta.
  cbn [fst snd JoinResult.slot JoinResult.started JoinResult.reconnectToken
       JoinResult.room].
  generalize (leaveBySocketId now m socketId). intros m1.
  destruct (createUniqueCode_code m1) as [Hlen _].
  generalize dependent ((createUniqueCode m1).1). intros code Hlen.
  pose proof (next_word (random (createUniqueCode m1).2)) as Hw.
  pose proof (floorScaled_range _ 1000000000 Hw ltac:(lia)) as Hseed.
  generalize dependent (Rng.floorScaled
                          (Rng.next (random (createUniqueCode m1).2)).1
                          1000000000).
  intros seed Hseed. clear Hw.
  destruct (randomToken_shape (Rng.mulberry32 seed)) as (Htok & _).
  generalize dependent ((Rng.randomToken (Rng.mulberry32 seed)).1).
  intros token Htok.
  destruct (createInitialState_start code seed A)
    as (Hc0 & Hph0 & Hact0 & Hd0 & Hpr0 & Hwin0 & Hter0 & _ & Hk0).
  generalize dependent (createInitialState code seed A). intros st0.
  intros Hc0 Hph0 Hact0 Hd0 Hpr0 Hwin0 Hter0 Hk0.
  destruct (newRoom_facts code token socketId seed (Rng.mulberry32 seed)
              (Rng.randomToken (Rng.mulberry32 seed)).2 now st0)
    as ((F1 & F2 & F3 & F4 & F5 & F6 & F7 & F8 & F9 & F10 & F11) &
        (G1 & G2 & G3 & G4 & G5 & G6 & G7 & G8 & G9 & G10)).
  cbv zeta in *.
  generalize dependent (setTankConnected
      (Room.set_player
         (Room.set_random
            (Room.mk code seed (Rng.mulberry32 seed) A st0
               None None ∅ NoTimer NoTimer NoTimer None now 0)
            (Rng.randomToken (Rng.mulberry32 seed)).2)
         A (Some (RoomPlayer.mk A token (Some socketId) true)))
      A true).
  intros room F1 F2 F3 F4 F5 F6 F7 F8 F9 F10 F11 G1 G2 G3 G4 G5 G6 G7 G8 G9 G10.
  unfold getRoomBySocketId, getSlotBySocketId. cbn [rooms socketBindings].
  rewrite F1, F2, !lookup_insert_eq.
  cbn [SocketBinding.roomCode SocketBinding.slot]. rewrite ?lookup_insert_eq.
  destruct (Hk0 A) as (HA & _ & _ & _).
  destruct (Hk0 B) as (HB & _ & _ & HcB). cbn [tank_of] in HA, HB, HcB.
  split; [by repeat split|]. split; [|split].
  - repeat split; try reflexivity. intros other Hne. by rewrite lookup_insert_ne.
  - repeat split; try done; lia.
  - rewrite G1, G2, G3, G4, G5, G6, G7, G8, G9.
    repeat split; try done. intros s. rewrite G10.
    destruct s; cbn [tank_of]; [rewrite HA|rewrite HB]; unfold STARTING_HP; lra.
Qed.

Lemma createRoom_registers_witness :
  socketBindings (createRoom 5 (newManager 0) "socket-a").1 !! "socket-b"
  = socketBindings (leaveBySocketId 5 (newManager 0) "socket-a") !! "socket-b".
Proof.
  refine (proj2 (proj2 (proj2 (proj1 (proj2
            (createRoom_registers 5 (newManager 0) "socket-a")))))
            "socket-b" _).
  intros [=].
Defined.

(** ** The shot uses the locked aim *)

Lemma clampAngle_idem (v : R) : clampAngle (clampAngle v) = clampAngle v.
Proof.
  unfold clampAngle, clamp, MIN_ANGLE, MAX_ANGLE, Rmax, Rmin.
  repeat destruct (Rle_dec _ _); lra.
Qed.

Lemma clampPower_idem (v : R) : clampPower (clampPower v) = clampPower v.
Proof.
  unfold clampPower, clamp, MIN_POWER, MAX_POWER, Rmax, Rmin.
  repeat destruct (Rle_dec _ _); lra.
Qed.

(** X28.  The shot uses the aim that was locked: when [applyAim]
    succeeds, a [fire] of the same socket succeeds too, and the
    projectile leaves the muzzle of that slot's tank with the clamped
    angle and with the clamped power times 2.8 as its speed. *)
Theorem fire_uses_locked_aim (m : RoomManager) (socketId : string)
  (angle pw : R) (locked : Room.t) :
  (applyAim m socketId angle pw).2 = Some locked ->
  let m1 := (applyAim m socketId angle pw).1 in
  let rad := clampAngle angle * PI / 180 in
  let speed := clampPower pw * PHYSICS.projectileSpeedScale in
  exists fired p s,
    (fire m1 socketId).2 = Some fired /\
    getSlotBySocketId m socketId = Some s /\
    projectile (Room.state fired) = Some p /\ owner p = s /\
    vel p = mkVector2 (cos rad * speed) (- sin rad * speed) /\
    pos p = mkVector2
              (x (tank_of (tanks (Room.state locked)) s)
               + cos rad * (PHYSICS.tankRadius + 5))
              (y (tank_of (tanks (Room.state locked)) s)
               - sin rad * (PHYSICS.tankRadius + 5)) /\
    tanks (Room.state fired) = tanks (Room.state locked) /\
    phase (Room.state fired) = projectile_flight.
Proof.
  unfold applyAim, fire, getSlotBySocketId.
  destruct (socketBindings m !! socketId) as [info|] eqn:Hinfo; [|done].
  destruct (rooms m !! SocketBinding.roomCode info) as [room|] eqn:Hroom; [|done].
  destruct (decide (phase (Room.state room) = aiming)) as [Hph|Hph].
  2: { by rewrite bool_decide_eq_true_2. }
  rewrite (bool_decide_eq_false_2 (phase (Room.state room) <> aiming))
    by (by intros ?).
  destruct (decide (activeSlot (Room.state room) = SocketBinding.slot info))
    as [Hact|Hact].
  2: { by rewrite bool_decide_eq_true_2. }
  rewrite bool_decide_eq_false_2 by (by intros ?).
  cbv zeta. cbn [fst snd]. intros [= <-].
  cbn [socketBindings rooms set_rooms]. rewrite Hinfo, lookup_insert_eq.
  set (locked := Room.set_state room _).
  assert (Hph1 : phase (Room.state locked) = aiming) by exact Hph.
  assert (Hact1 : activeSlot (Room.state locked) = SocketBinding.slot info)
    by exact Hact.
  rewrite Hph1, Hact1.
  rewrite !bool_decide_eq_false_2 by (by intros ?). cbn [orb fst snd].
  rewrite (fireForSlot_aiming _ _ Hph1).
  assert (Ha : angleDeg (tank_of (tanks (Room.state locked))
                           (SocketBinding.slot info)) = clampAngle angle)
    by (subst locked; by destruct (SocketBinding.slot info)).
  assert (Hp : power (tank_of (tanks (Room.state locked))
                        (SocketBinding.slot info)) = clampPower pw)
    by (subst locked; by destruct (SocketBinding.slot info)).
  clearbody locked.
  eexists. eexists. exists (SocketBinding.slot info).
  split; [reflexivity|]. split; [reflexivity|].
  cbn [Room.state Room.set_state Room.set_simulationTimer Room.set_turnTimer].
  unfold spawnProjectile. cbv zeta.
  cbn [projectile set_projectile tanks setPhase].
  assert (Htk : tanks (setPhase (Room.state locked) projectile_flight)
                = tanks (Room.state locked)).
  { unfold setPhase. by rewrite bool_decide_eq_true_2. }
  rewrite Htk, Ha, Hp, clampAngle_idem, clampPower_idem.
  split; [reflexivity|]. cbn [owner vel pos].
  split; [reflexivity|]. split; [reflexivity|]. split; [reflexivity|].
  split; [reflexivity|]. unfold setPhase. by rewrite bool_decide_eq_true_2.
Qed.

Lemma fire_uses_locked_aim_witness :
  exists fired p s,
    (fire (applyAim aimingManager "socket-a" 200 10).1 "socket-a").2 = Some fired /\
    getSlotBySocketId aimingManager "socket-a" = Some s /\
    projectile (Room.state fired) = Some p /\ owner p = s.
Proof.
  destruct (fire_uses_locked_aim aimingManager "socket-a" 200 10
              (Room.set_state aimingRoom
                 (set_tanks (Room.state aimingRoom)
                    (mkTanks
                       (set_power (set_angleDeg (sampleTank A 8 287 100)
                                     (clampAngle 200)) (clampPower 10))
                       (sampleTank B 32 287 100)))))
    as (fired & p & s & H1 & H2 & H3 & H4 & _); [reflexivity|].
  exists fired, p, s. by repeat split.
Defined.

Lemma reachable_bindings_witness :
  getSlotBySocketId (createRoom 1000 (newManager 0) "socket-a").1 "socket-a"
  = Some A.
Proof.
  pose proof (createRoom_unfold 1000 (newManager 0) "socket-a") as Hu.
  cbv zeta in Hu.
  refine (proj1 (proj2 (reachable_bindings
            (step 1000 (newManager 0) (CreateRoom "socket-a"))
            (reachable_step _ _ _ (reachable_new 0))
            (Room.code (JoinResult.room (createRoom 1000 (newManager 0) "socket-a").2))
            (JoinResult.room (createRoom 1000 (newManager 0) "socket-a").2)
            A _ "socket-a" _ _ _))).
  - apply (createRoom_stores 1000 (newManager 0) "socket-a").
  - rewrite Hu. reflexivity.
  - reflexivity.
Defined.

(** ** A pause between two turns *)

Lemma enterTurn_scheduled (now : Z) (r : Room.t) (sl : PlayerSlot) (w : R) :
  scheduleTurnTimeout (Room.set_state r (enterTurn now (Room.state r) sl w))
  = Room.set_turnTimer
      (Room.set_state r (enterTurn now (Room.state r) sl w)) Pending.
Proof. by erewrite scheduleTurnTimeout_aiming by reflexivity. Qed.

(** X29.  A player leaves and returns while the room is in [round_end].
    Resuming passes the turn to the other slot at once, with a fresh
    deadline.  The callback [resolveImpact] had scheduled is still
    pending; when it runs it finds the phase [aiming] and passes the turn
    again, back to the slot that has just shot. *)
Theorem round_delay_after_resume (t1 t2 t3 : Z) (r : Room.t) (s : PlayerSlot)
  (player other : RoomPlayer.t) (socketId' : string) :
  phase (Room.state r) = round_end ->
  Room.players r s = Some player ->
  Room.players r (oppositeSlot s) = Some other ->
  RoomPlayer.connected other = true ->
  let left :=
    setTankConnected
      (Room.set_player r s
         (Some (RoomPlayer.mk (RoomPlayer.slot player) (RoomPlayer.token player)
                  None false))) s false in
  let paused := pauseForReconnect t1 left s in
  let back :=
    setTankConnected
      (Room.set_player paused s
         (Some (RoomPlayer.mk (RoomPlayer.slot player) (RoomPlayer.token player)
                  (Some socketId') true))) s true in
  let resumed := resumeFromPauseIfReady t2 back in
  let later :=
    onRoundDelay t3
      (Room.set_roundDelays resumed (pred (Room.roundDelays resumed))) in
  (phase (Room.state paused) = paused_reconnect /\
   Room.pauseSnapshot paused = Some (PauseSnapshot.mk round_end None) /\
   Room.roundDelays paused = Room.roundDelays r) /\
  (phase (Room.state resumed) = aiming /\
   activeSlot (Room.state resumed) = oppositeSlot (activeSlot (Room.state r)) /\
   turnEndsAt (Room.state resumed) = Some (t2 + 30000)%Z /\
   Room.turnTimer resumed = Pending /\
   Room.roundDelays resumed = Room.roundDelays r) /\
  (phase (Room.state later) = aiming /\
   activeSlot (Room.state later) = activeSlot (Room.state r) /\
   turnEndsAt (Room.state later) = Some (t3 + 30000)%Z).
Proof.
  intros Hph Hp Ho Hocon left paused back resumed later.
  assert (Hphl : phase (Room.state left) = round_end) by (by destruct s).
  assert (Hpaused : paused =
            Room.set_reconnectTimer
              (Room.set_state
                 (clearSimulation (clearTurnTimer
                    (Room.set_pauseSnapshot left
                       (Some (PauseSnapshot.mk round_end None)))))
                 (set_turnEndsAt (set_phase (Room.state left) paused_reconnect)
                                 None))
              Pending).
  { subst paused. unfold pauseForReconnect. rewrite Hphl.
    rewrite !bool_decide_eq_false_2 by done. cbn [orb].
    by destruct (turnEndsAt (Room.state left)). }
  assert (Hphb : phase (Room.state back) = paused_reconnect).
  { subst back. rewrite Hpaused. by destruct s. }
  assert (Hfd : findDisconnectedSlot back = None).
  { unfold findDisconnectedSlot, playerConnected. subst back.
    rewrite Hpaused. subst left.
    destruct s; cbn [oppositeSlot] in Ho;
      cbn [Room.players Room.playerA Room.playerB setTankConnected
           Room.set_state Room.set_player Room.set_reconnectTimer
           Room.set_pauseSnapshot clearSimulation clearTurnTimer
           Room.set_simulationTimer Room.set_turnTimer] in *;
      rewrite Ho, Hocon; reflexivity. }
  assert (Hsn : Room.pauseSnapshot (clearReconnectTimer back)
                = Some (PauseSnapshot.mk round_end None)).
  { subst back. rewrite Hpaused. by destruct s. }
  assert (Hact : activeSlot (Room.state back) = activeSlot (Room.state r)).
  { subst back. rewrite Hpaused. subst left. by destruct s. }
  assert (Hrd : Room.roundDelays back = Room.roundDelays r).
  { subst back. rewrite Hpaused. subst left. by destruct s. }
  clearbody back.
  assert (Hres : exists w rnd,
            resumed =
            Room.set_turnTimer
              (Room.set_state
                 (Room.set_random
                    (Room.set_state
                       (Room.set_pauseSnapshot (clearReconnectTimer back) None)
                       (set_phase (Room.state back) round_end)) rnd)
                 (enterTurn t2 (set_phase (Room.state back) round_end)
                    (oppositeSlot (activeSlot (Room.state back))) w))
              Pending).
  { subst resumed. unfold resumeFromPauseIfReady. rewrite Hphb.
    rewrite bool_decide_eq_false_2 by (by intros H; apply H).
    rewrite Hfd. cbv zeta. rewrite Hsn.
    cbn [PauseSnapshot.phaseBeforePause PauseSnapshot.remainingTurnMs].
    rewrite (bool_decide_eq_false_2 (round_end = aiming)) by done.
    rewrite (bool_decide_eq_false_2 (round_end = projectile_flight)) by done.
    rewrite (bool_decide_eq_true_2 (round_end = round_end)) by done.
    destruct (pickWind _) as [w rnd]. exists w, rnd.
    apply enterTurn_scheduled. }
  destruct Hres as (w & rnd & Hres).
  split; [|split].
  - rewrite Hpaused. repeat split.
  - rewrite Hres. cbn. rewrite Hact, Hrd. by repeat split.
  - subst later. unfold onRoundDelay. rewrite Hres.
    cbn [Room.state Room.set_roundDelays Room.set_turnTimer Room.set_state
         phase enterTurn].
    rewrite !bool_decide_eq_false_2 by done. cbn [orb].
    destruct (pickWind _) as [w' rnd']. rewrite scheduleTurnTimeout_state.
    cbn. rewrite Hact. split; [reflexivity|]. split; [|reflexivity].
    by destruct (activeSlot (Room.state r)).
Qed.

Lemma round_delay_after_resume_witness :
  let left :=
    setTankConnected
      (Room.set_player roundEndRoom B
         (Some (RoomPlayer.mk B "bbbbbbbbbbbbbbbbbbbbbbbb" None false))) B false in
  let back :=
    setTankConnected
      (Room.set_player (pauseForReconnect 100 left B) B
         (Some (RoomPlayer.mk B "bbbbbbbbbbbbbbbbbbbbbbbb" (Some "socket-b2") true)))
      B true in
  let resumed := resumeFromPauseIfReady 300 back in
  activeSlot (Room.state resumed) = B /\
  activeSlot
    (Room.state
       (onRoundDelay 650
          (Room.set_roundDelays resumed (pred (Room.roundDelays resumed))))) = A.
Proof.
  destruct (round_delay_after_resume 100 300 650 roundEndRoom B
              (RoomPlayer.mk B "bbbbbbbbbbbbbbbbbbbbbbbb" (Some "socket-b") true)
              (RoomPlayer.mk A "aaaaaaaaaaaaaaaaaaaaaaaa" (Some "socket-a") true)
              "socket-b2")
    as (_ & (_ & H1 & _) & (_ & H2 & _)); try reflexivity.
  split; [exact H1|exact H2].
Defined.

(** ** A fresh code overwrites nothing *)

Lemma tryCodes_None (n : nat) (taken : gmap string Room.t) (rnd rnd' : Z) :
  tryCodes n taken rnd = (None, rnd') ->
  forall c, c ∈ (drawn n rnd).1 -> is_Some (taken !! c).
Proof.
  revert rnd. induction n as [|n IH]; intros rnd Ht c Hc;
    cbn [tryCodes drawn] in *.
  - by apply not_elem_of_nil in Hc.
  - destruct (Rng.randomCode rnd) as [c0 r0].
    destruct (drawn n r0) as [cs r'] eqn:Hd. cbn [fst] in Hc.
    destruct (bool_decide (taken !! c0 = None)) eqn:Hb; [done|].
    apply bool_decide_eq_false in Hb.
    apply elem_of_cons in Hc as [->|Hc].
    + by destruct (taken !! c0); [eexists|].
    + apply (IH r0); [done|]. by rewrite Hd.
Qed.

Lemma createUniqueCode_free (m : RoomManager) (c : string) :
  c ∈ (drawn CODE_ATTEMPTS (random m)).1 -> rooms m !! c = None ->
  rooms m !! (createUniqueCode m).1 = None.
Proof.
  intros Hc Hfree. unfold createUniqueCode.
  destruct (tryCodes CODE_ATTEMPTS (rooms m) (random m)) as [[code|] rnd] eqn:Ht.
  - cbn [fst]. by apply tryCodes_fresh in Ht.
  - destruct (tryCodes_None _ _ _ _ Ht c Hc) as [r Hr]. congruence.
Qed.

Lemma drawn_first (n : nat) (rnd : Z) :
  (Rng.randomCode rnd).1 ∈ (drawn (S n) rnd).1.
Proof.
  cbn [drawn]. destruct (Rng.randomCode rnd) as [c r].
  destruct (drawn n r) as [cs r']. apply list_elem_of_here.
Qed.

(** X30.  [createRoom] changes the registry at the code of the new room
    only.  That code is free in the registry or it is the fallback code;
    while one of the thousand codes drawn is free it is free, and every
    room of the registry is kept. *)
Theorem createRoom_keeps_rooms (now : Z) (m : RoomManager) (socketId : string) :
  let m1 := leaveBySocketId now m socketId in
  let res := createRoom now m socketId in
  let code := Room.code (JoinResult.room res.2) in
  (forall key, key <> code -> rooms res.1 !! key = rooms m1 !! key) /\
  (rooms m1 !! code = None \/
   code = fallbackCode (drawn CODE_ATTEMPTS (random m1)).2) /\
  forall c,
    c ∈ (drawn CODE_ATTEMPTS (random m1)).1 -> rooms m1 !! c = None ->
    rooms m1 !! code = None /\
    forall key r, rooms m1 !! key = Some r -> rooms res.1 !! key = Some r.
Proof.
  cbv zeta. rewrite createRoom_unfold. cbv zeta.
  cbn [fst snd JoinResult.room rooms].
  set (m1 := leaveBySocketId now m socketId).
  cbn [Room.code setTankConnected Room.set_state Room.set_player Room.set_random].
  split; [|split].
  - intros key Hne. by rewrite lookup_insert_ne.
  - destruct (createUniqueCode_fresh_or_fallback m1) as [H|[_ H]];
      [left|right]; exact H.
  - intros c Hc Hfree.
    pose proof (createUniqueCode_free m1 c Hc Hfree) as Hnew.
    split; [exact Hnew|]. intros key r Hr.
    rewrite lookup_insert_ne; [exact Hr|]. intros <-. congruence.
Qed.

Lemma createRoom_keeps_rooms_witness :
  rooms (newManager 0)
  !! Room.code (JoinResult.room (createRoom 5 (newManager 0) "socket-a").2)
  = None.
Proof.
  refine (proj1 (proj2 (proj2 (createRoom_keeps_rooms 5 (newManager 0) "socket-a"))
                   (Rng.randomCode (random (newManager 0))).1 _ _)).
  - apply (drawn_first 999).
  - apply lookup_empty.
Defined.
